(** * ESG report pipeline: a shallow embedding of [process_esg_report.py]
      and [esg_parser_gpt4o.py]

    The two scripts upload a PDF to a parsing service, poll the job, fetch
    the parsed pages, send each page's text to a chat model, and write the
    records it returns to a spreadsheet.  Everything outside the scripts
    (the HTTP endpoints, the chat model, the clock, [json.loads]) is an
    oracle gathered in the record [environment]; everything the scripts
    change (the clock they wait on, the log, the files they write) is in
    the record [world], threaded through a state-and-exception monad.

    Time is counted in ticks of the clock that [time.time()] reads;
    [check_interval] and [timeout] are lengths in the same ticks.  A
    Python exception is a value of [exn]; a function that may raise
    returns a [result]. *)

From Stdlib Require Import String Ascii.
From Stdlib Require Import ZArith NArith List Bool Lia.
From Stdlib Require Import Sorting.Sorted Sorting.Permutation.
Import ListNotations.
Open Scope Z_scope.
Set Warnings "-register-all".

(* ===================================================================== *)
(** ** Python strings *)
(* ===================================================================== *)

(** A Python [str] is a sequence of Unicode code points. *)
Definition char := N.
Definition str := list char.

(** Source literals are written as UTF-8 text and decoded to code points. *)
Fixpoint utf8_decode (bs : list N) : str :=
  match bs with
  | [] => []
  | b0 :: t =>
      if (b0 <? 128)%N then b0 :: utf8_decode t
      else if (b0 <? 224)%N then
        match t with
        | b1 :: t1 => ((b0 - 192) * 64 + (b1 - 128))%N :: utf8_decode t1
        | _ => []
        end
      else if (b0 <? 240)%N then
        match t with
        | b1 :: b2 :: t2 =>
            ((b0 - 224) * 4096 + (b1 - 128) * 64 + (b2 - 128))%N :: utf8_decode t2
        | _ => []
        end
      else
        match t with
        | b1 :: b2 :: b3 :: t3 =>
            ((b0 - 240) * 262144 + (b1 - 128) * 4096 + (b2 - 128) * 64 + (b3 - 128))%N
              :: utf8_decode t3
        | _ => []
        end
  end.

Definition utf8 (s : string) : str :=
  utf8_decode (map N_of_ascii (list_ascii_of_string s)).

Fixpoint str_eqb (a b : str) : bool :=
  match a, b with
  | [], [] => true
  | x :: a', y :: b' => (x =? y)%N && str_eqb a' b'
  | _, _ => false
  end.

(** Python orders strings by code point, lexicographically. *)
Fixpoint str_compare (a b : str) : comparison :=
  match a, b with
  | [], [] => Eq
  | [], _ :: _ => Lt
  | _ :: _, [] => Gt
  | x :: a', y :: b' =>
      match (x ?= y)%N with
      | Eq => str_compare a' b'
      | c => c
      end
  end.

(** [str.isspace] on one code point: the characters [str.split()] and
    [str.strip()] treat as whitespace. *)
Definition is_space (c : char) : bool :=
  ((9 <=? c) && (c <=? 13) || (28 <=? c) && (c <=? 32)
   || (c =? 133) || (c =? 160) || (c =? 5760)
   || (8192 <=? c) && (c <=? 8202)
   || (c =? 8232) || (c =? 8233) || (c =? 8239) || (c =? 8287)
   || (c =? 12288))%N.

Definition LINE_SEPARATOR : char := 8232%N.        (* U+2028 *)
Definition PARAGRAPH_SEPARATOR : char := 8233%N.   (* U+2029 *)
Definition SPACE : char := 32%N.
Definition NEWLINE : char := 10%N.
Definition LBRACE : char := 123%N.
Definition RBRACE : char := 125%N.

(** [text.split()]: the maximal runs of non-whitespace, in order.
    [cur] is the word being read, reversed. *)
Fixpoint split_from (cur : str) (s : str) : list str :=
  match s with
  | [] => match cur with [] => [] | _ => [rev cur] end
  | c :: s' =>
      if is_space c
      then match cur with
           | [] => split_from [] s'
           | _ => rev cur :: split_from [] s'
           end
      else split_from (c :: cur) s'
  end.

Definition split (s : str) : list str := split_from [] s.

(** [sep.join(parts)] *)
Fixpoint join (sep : str) (parts : list str) : str :=
  match parts with
  | [] => []
  | [p] => p
  | p :: rest => p ++ sep ++ join sep rest
  end.

(** [s.replace(old, new)] for a one-character [old]. *)
Definition replace_char (old : char) (new : str) (s : str) : str :=
  flat_map (fun c => if (c =? old)%N then new else [c]) s.

Fixpoint lstrip (s : str) : str :=
  match s with
  | c :: s' => if is_space c then lstrip s' else s
  | [] => []
  end.

Definition rstrip (s : str) : str := rev (lstrip (rev s)).
Definition strip (s : str) : str := rstrip (lstrip s).

(** [s.find(c)] for a one-character needle: the index of its first
    occurrence, or -1. *)
Fixpoint find_char (c : char) (s : str) : Z :=
  match s with
  | [] => -1
  | x :: s' =>
      if (x =? c)%N then 0
      else let i := find_char c s' in if i <? 0 then -1 else i + 1
  end.

(** [s[i:]], with Python's treatment of a negative start. *)
Definition slice_from (i : Z) (s : str) : str :=
  let n := Z.of_nat (length s) in
  let start := if i <? 0 then Z.max 0 (n + i) else i in
  skipn (Z.to_nat start) s.

Fixpoint is_prefix (p s : str) : bool :=
  match p, s with
  | [], _ => true
  | x :: p', y :: s' => (x =? y)%N && is_prefix p' s'
  | _ :: _, [] => false
  end.

(** [needle in haystack] on strings. *)
Fixpoint is_substring (needle hay : str) : bool :=
  is_prefix needle hay
  || match hay with
     | [] => false
     | _ :: hay' => is_substring needle hay'
     end.

(* ===================================================================== *)
(** ** Python values, exceptions and the dynamic operations the scripts use *)
(* ===================================================================== *)

(** What [response.json()] and [json.loads] return.  [JNull] is [None];
    a [dict] keeps its keys in insertion order.  Numbers are the integral
    ones. *)
Inductive json :=
| JNull
| JBool (b : bool)
| JNum (n : Z)
| JStr (s : str)
| JArr (l : list json)
| JObj (d : list (str * json)).

Definition dict := list (str * json).

Inductive exn :=
| KeyError (key : str)
| TypeError
| AttributeError
| ValueError
| IndexError
| JSONDecodeError
| RequestException (msg : str)
| FileNotFoundError (path : str)
| APIError (msg : str)
| OSError
| NotModelled.   (* a library case the embedding does not cover *)

Inductive result (A : Type) :=
| Ok (a : A)
| Raise (e : exn).
Arguments Ok {A} a.
Arguments Raise {A} e.

(** [isinstance(e, requests.exceptions.RequestException)] *)
Definition is_RequestException (e : exn) : bool :=
  match e with RequestException _ => true | _ => false end.

(** [isinstance(e, json.JSONDecodeError)] *)
Definition is_JSONDecodeError (e : exn) : bool :=
  match e with JSONDecodeError => true | _ => false end.

Fixpoint dict_lookup (k : str) (d : dict) : option json :=
  match d with
  | [] => None
  | (k', v) :: d' => if str_eqb k k' then Some v else dict_lookup k d'
  end.

(** [bool(v)] *)
Definition truthy (v : json) : bool :=
  match v with
  | JNull => false
  | JBool b => b
  | JNum n => negb (n =? 0)
  | JStr s => match s with [] => false | _ => true end
  | JArr l => match l with [] => false | _ => true end
  | JObj d => match d with [] => false | _ => true end
  end.

(** [v == "literal"] *)
Definition eq_str (v : json) (s : str) : bool :=
  match v with JStr s' => str_eqb s' s | _ => false end.

(** [v.get(k, default)]: only a [dict] has the method. *)
Definition py_get (v : json) (k : str) (default : json) : result json :=
  match v with
  | JObj d => Ok (match dict_lookup k d with Some x => x | None => default end)
  | _ => Raise AttributeError
  end.

(** [v[k]] for a string key. *)
Definition py_getitem (v : json) (k : str) : result json :=
  match v with
  | JObj d => match dict_lookup k d with Some x => Ok x | None => Raise (KeyError k) end
  | _ => Raise TypeError
  end.

(** [k in v] for a string [k]: a key of a [dict], a substring of a [str],
    an element of a [list]; anything else is not a container. *)
Definition py_contains (k : str) (v : json) : result bool :=
  match v with
  | JObj d => Ok (match dict_lookup k d with Some _ => true | None => false end)
  | JStr s => Ok (is_substring k s)
  | JArr l => Ok (existsb (fun x => eq_str x k) l)
  | _ => Raise TypeError
  end.

(** [for x in v]: the elements of a [list], the keys of a [dict], the
    characters of a [str]. *)
Definition py_iter (v : json) : result (list json) :=
  match v with
  | JArr l => Ok l
  | JObj d => Ok (map (fun kv => JStr (fst kv)) d)
  | JStr s => Ok (map (fun c => JStr [c]) s)
  | _ => Raise TypeError
  end.

(** [len(v)] *)
Definition py_len (v : json) : result Z :=
  match v with
  | JArr l => Ok (Z.of_nat (length l))
  | JObj d => Ok (Z.of_nat (length d))
  | JStr s => Ok (Z.of_nat (length s))
  | _ => Raise TypeError
  end.

(* ===================================================================== *)
(** ** The world the scripts act on, and the oracles they consult *)
(* ===================================================================== *)

Inductive level := INFO | WARNING | ERROR.

Inductive log_arg :=
| LJson (v : json)
| LNum (n : Z)
| LExn (e : exn).

(** One call of [logger.info] / [.warning] / [.error]: the text of the
    f-string with its interpolated values kept apart. *)
Record log_record := Log {
  log_level : level;
  log_text : string;
  log_args : list log_arg
}.

(** The user message of a chat request, as the f-string's parts. *)
Inductive prompt :=
| AnalyzePrompt (page_num : json) (text : str)
    (* "請分析以下ESG報告內容：\n\n第 {page_num} 頁（共 {len(text)} 字）內容：\n\n{text}" *)
| IntegratePrompt (formatted : str).
    (* self.integration_prompt.format(previous_results=...) *)

Inductive http_reply :=
| HttpFails (msg : str)     (* the request, raise_for_status or the decoding of the
                               body raises a RequestException with that message *)
| HttpJson (body : json).   (* what response.json() returns *)

Inductive chat_result :=
| ChatFails (msg : str)         (* client.chat.completions.create raises *)
| ChatContent (content : str).  (* response.choices[0].message.content *)

(** A cell of a table: a value, or NaN where a record lacks the column. *)
Inductive cell :=
| NaN
| Cell (v : json).

(** A written workbook: one sheet with a header row, data rows and the
    column widths set on it. *)
Record workbook := Workbook {
  sheet_name : str;
  header : list str;
  body : list (list cell);
  widths : list (string * Z)
}.

Record world := World {
  now : Z;                         (* what time.time() reads, in clock ticks *)
  status_requests : nat;           (* GET .../status issued so far *)
  sleeps : nat;                    (* time.sleep calls so far *)
  chat_requests : list prompt;     (* user messages sent to the model, oldest first *)
  log : list log_record;           (* oldest first *)
  files : list (str * workbook)    (* spreadsheets saved, oldest first *)
}.

Record environment := Environment {
  getenv_LLAMA_PARSE_API_KEY : option str;
  getenv_OPENAI_API_KEY : option str;
  path_exists : str -> bool;                  (* os.path.exists *)
  upload_reply : str -> http_reply;           (* POST /upload of that file *)
  status_reply : json -> nat -> http_reply;   (* k-th GET /job/{id}/status *)
  status_latency : json -> nat -> N;          (* how long that request takes *)
  sleep_overshoot : nat -> N;                 (* how much longer the k-th sleep lasts *)
  result_reply : json -> http_reply;          (* GET /job/{id}/result/json *)
  chat_reply : nat -> prompt -> chat_result;  (* k-th chat completion *)
  json_loads : str -> option json;            (* None: json.JSONDecodeError *)
  json_dumps : json -> str;
  can_write : str -> bool                     (* the workbook can be saved at that path *)
}.

(** State and exceptions: a raised exception keeps the effects made so far. *)
Definition M (A : Type) : Type := world -> result A * world.

Definition ret {A} (a : A) : M A := fun w => (Ok a, w).

Definition raise {A} (e : exn) : M A := fun w => (Raise e, w).

Definition bind {A B} (c : M A) (k : A -> M B) : M B :=
  fun w =>
    match c w with
    | (Ok a, w') => k a w'
    | (Raise e, w') => (Raise e, w')
    end.

Definition lift {A} (r : result A) : M A := fun w => (r, w).

(** [try: c  except ...: h e], where [h e = None] when no clause matches. *)
Definition try_except {A} (c : M A) (h : exn -> option (M A)) : M A :=
  fun w =>
    match c w with
    | (Ok a, w') => (Ok a, w')
    | (Raise e, w') =>
        match h e with
        | Some handler => handler w'
        | None => (Raise e, w')
        end
    end.

Declare Scope monad_scope.
Delimit Scope monad_scope with monad.
Notation "x <- c ;; k" := (bind c (fun x => k))
  (at level 61, c at next level, right associativity) : monad_scope.
Notation "c ;;; k" := (bind c (fun _ => k))
  (at level 61, right associativity) : monad_scope.
Open Scope monad_scope.

Definition logger (lv : level) (text : string) (args : list log_arg) : M unit :=
  fun w => (Ok tt,
            World (now w) (status_requests w) (sleeps w) (chat_requests w)
                  (log w ++ [Log lv text args]) (files w)).

(** A loop body run over the elements of a list, stopping at the first
    exception. *)
Fixpoint for_each {A S} (body : S -> A -> M S) (acc : S) (l : list A) : M S :=
  match l with
  | [] => ret acc
  | x :: l' => acc' <- body acc x ;; for_each body acc' l'
  end.

Fixpoint mapM {A B} (f : A -> result B) (l : list A) : result (list B) :=
  match l with
  | [] => Ok []
  | x :: l' =>
      match f x with
      | Raise e => Raise e
      | Ok y =>
          match mapM f l' with
          | Raise e => Raise e
          | Ok ys => Ok (y :: ys)
          end
      end
  end.

(* ===================================================================== *)
(** ** The pandas operations [save_to_excel] calls *)
(* ===================================================================== *)

Module pd.

(** A table: column labels and rows of cells, one cell per column. *)
Record DataFrame := Frame {
  columns : list str;
  rows : list (list cell)
}.

Fixpoint as_dicts (data : list json) : option (list dict) :=
  match data with
  | [] => Some []
  | JObj d :: data' =>
      match as_dicts data' with
      | Some ds => Some (d :: ds)
      | None => None
      end
  | _ :: _ => None
  end.

Definition mem_str (k : str) (l : list str) : bool := existsb (str_eqb k) l.

(** The keys of the records in order of first appearance. *)
Definition union_keys (ds : list dict) : list str :=
  fold_left
    (fun cols d =>
       fold_left (fun cols k => if mem_str k cols then cols else cols ++ [k])
                 (map fst d) cols)
    ds [].

Definition row_of (cols : list str) (d : dict) : list cell :=
  map (fun c => match dict_lookup c d with Some v => Cell v | None => NaN end) cols.

(** [pd.DataFrame(data)] for a list of records: one column per key, NaN
    where a record has no such key; no column at all for the empty list.
    A list holding anything but records has no column labelled by a
    string (pandas numbers the columns, or rejects the list), so
    [save_to_excel] raises on it before it opens the writer; the
    embedding raises here. *)
Definition DataFrame_ (data : list json) : result DataFrame :=
  match as_dicts data with
  | Some ds => let cols := union_keys ds in Ok (Frame cols (map (row_of cols) ds))
  | None => Raise NotModelled
  end.

(** What pandas hashes and orders a cell by: missing values are one
    value, [True] and [False] are 1 and 0; a list or a dict cannot be
    hashed. *)
Inductive key :=
| KNa
| KNum (n : Z)
| KStr (s : str).

Definition cell_key (c : cell) : option key :=
  match c with
  | NaN | Cell JNull => Some KNa
  | Cell (JBool b) => Some (KNum (if b then 1 else 0))
  | Cell (JNum n) => Some (KNum n)
  | Cell (JStr s) => Some (KStr s)
  | Cell (JArr _) | Cell (JObj _) => None
  end.

Definition key_eqb (a b : option key) : bool :=
  match a, b with
  | Some KNa, Some KNa => true
  | Some (KNum n), Some (KNum m) => n =? m
  | Some (KStr s), Some (KStr t) => str_eqb s t
  | None, None => true
  | _, _ => false
  end.

Fixpoint keys_eqb (a b : list (option key)) : bool :=
  match a, b with
  | [], [] => true
  | x :: a', y :: b' => key_eqb x y && keys_eqb a' b'
  | _, _ => false
  end.

Definition row_key (r : list cell) : list (option key) := map cell_key r.

Definition hashable (r : list cell) : bool :=
  forallb (fun c => match cell_key c with Some _ => true | None => false end) r.

(** Keep a row unless an equal row came before it. *)
Fixpoint keep_first (seen : list (list (option key))) (rs : list (list cell))
  : list (list cell) :=
  match rs with
  | [] => []
  | r :: rs' =>
      if existsb (keys_eqb (row_key r)) seen
      then keep_first seen rs'
      else r :: keep_first (row_key r :: seen) rs'
  end.

(** [df.empty]: no column or no row. *)
Definition empty (df : DataFrame) : bool :=
  match columns df, rows df with
  | [], _ | _, [] => true
  | _, _ => false
  end.

(** [df.drop_duplicates()]: an empty table is returned as it is;
    otherwise every column is hashed, and the first row of each group of
    equal rows is kept. *)
Definition drop_duplicates (df : DataFrame) : result DataFrame :=
  if empty df then Ok df
  else if forallb hashable (rows df)
       then Ok (Frame (columns df) (keep_first [] (rows df)))
       else Raise TypeError.

Fixpoint label_index (c : str) (cols : list str) : option nat :=
  match cols with
  | [] => None
  | c' :: cols' =>
      if str_eqb c c' then Some O
      else match label_index c cols' with
           | Some i => Some (S i)
           | None => None
           end
  end.

(** Missing values sort last; numbers by value, strings by code point.
    (Numbers are put before strings to make the order total; [sortable]
    rejects a column that holds both.) *)
Definition key_compare (a b : key) : comparison :=
  match a, b with
  | KNa, KNa => Eq
  | KNa, _ => Gt
  | _, KNa => Lt
  | KNum n, KNum m => n ?= m
  | KNum _, KStr _ => Lt
  | KStr _, KNum _ => Gt
  | KStr s, KStr t => str_compare s t
  end.

Definition sort_key (i : nat) (r : list cell) : key :=
  match cell_key (nth i r NaN) with
  | Some k => k
  | None => KNa
  end.

(** Rows compared on the columns at positions [by], the first one first. *)
Fixpoint row_compare (by_ : list nat) (r1 r2 : list cell) : comparison :=
  match by_ with
  | [] => Eq
  | i :: by' =>
      match key_compare (sort_key i r1) (sort_key i r2) with
      | Eq => row_compare by' r1 r2
      | c => c
      end
  end.

Definition row_leb (by_ : list nat) (r1 r2 : list cell) : bool :=
  match row_compare by_ r1 r2 with
  | Gt => false
  | _ => true
  end.

Fixpoint insert (by_ : list nat) (r : list cell) (sorted : list (list cell))
  : list (list cell) :=
  match sorted with
  | [] => [r]
  | r' :: rest =>
      if row_leb by_ r r' then r :: r' :: rest else r' :: insert by_ r rest
  end.

(** A stable sort: equal rows keep their order. *)
Fixpoint sort_rows (by_ : list nat) (rs : list (list cell)) : list (list cell) :=
  match rs with
  | [] => []
  | r :: rs' => insert by_ r (sort_rows by_ rs')
  end.

(** Python cannot order a string against a number, nor pandas a list or
    a dict found in a key column. *)
Definition sortable (i : nat) (rs : list (list cell)) : result unit :=
  let ks := map (fun r => cell_key (nth i r NaN)) rs in
  if existsb (fun k => match k with None => true | _ => false end) ks
  then Raise NotModelled
  else if existsb (fun k => match k with Some (KNum _) => true | _ => false end) ks
          && existsb (fun k => match k with Some (KStr _) => true | _ => false end) ks
       then Raise TypeError
       else Ok tt.

(** [df.sort_values(by)] *)
Definition sort_values (by_ : list str) (df : DataFrame) : result DataFrame :=
  match mapM (fun c => match label_index c (columns df) with
                       | Some i => Ok i
                       | None => Raise (KeyError c)
                       end) by_ with
  | Raise e => Raise e
  | Ok idx =>
      match mapM (fun i => sortable i (rows df)) idx with
      | Raise e => Raise e
      | Ok _ => Ok (Frame (columns df) (sort_rows idx (rows df)))
      end
  end.

(** [df.rename(columns=mapping)] *)
Definition rename (mapping : list (str * str)) (df : DataFrame) : DataFrame :=
  Frame (map (fun c =>
                match find (fun kv => str_eqb c (fst kv)) mapping with
                | Some kv => snd kv
                | None => c
                end) (columns df))
        (rows df).

(** [df[label]]: the cells of the one column so labelled.  With the label
    repeated [df[label]] is a table, which has no [unique] or [notna]
    reduction to a number as used in [save_to_excel]. *)
Definition column (label : str) (df : DataFrame) : result (list cell) :=
  match label_index label (columns df) with
  | None => Raise (KeyError label)
  | Some i =>
      if (1 <? length (filter (str_eqb label) (columns df)))%nat
      then Raise AttributeError
      else Ok (map (fun r => nth i r NaN) (rows df))
  end.

(** [len(series.unique())] *)
Fixpoint nunique (seen : list (option key)) (cs : list cell) : Z :=
  match cs with
  | [] => 0
  | c :: cs' =>
      if existsb (key_eqb (cell_key c)) seen then nunique seen cs'
      else 1 + nunique (cell_key c :: seen) cs'
  end.

(** [series.notna().sum()] *)
Definition count_notna (cs : list cell) : Z :=
  Z.of_nat (length (filter (fun c => match cell_key c with
                                     | Some KNa => false
                                     | _ => true
                                     end) cs)).

End pd.

(* ===================================================================== *)
(** ** [str.format] *)
(* ===================================================================== *)

Definition QUOTE : char := 34%N.
Definition COLON : char := 58%N.
Definition BANG : char := 33%N.
Definition LBRACKET : char := 91%N.
Definition RBRACKET : char := 93%N.
Definition DOT : char := 46%N.

(** The name of a replacement field, read after its opening brace up to
    the first of [}], [:] and [!] outside square brackets.  Returns the
    name, the terminator and the text after it. *)
Fixpoint scan_field_name (in_brackets : bool) (acc : str) (s : str)
  : result (str * char * str) :=
  match s with
  | [] => Raise ValueError        (* expected '}' before end of string *)
  | c :: s' =>
      if in_brackets then
        scan_field_name (negb (c =? RBRACKET)%N) (c :: acc) s'
      else if (c =? LBRACE)%N then Raise ValueError   (* unexpected '{' in field name *)
      else if (c =? LBRACKET)%N then scan_field_name true (c :: acc) s'
      else if ((c =? RBRACE) || (c =? COLON) || (c =? BANG))%N then Ok (rev acc, c, s')
      else scan_field_name false (c :: acc) s'
  end.

(** The format spec of a field, read after its [:] up to the brace that
    closes the field; braces nest.  Returns the spec and the text after
    the field. *)
Fixpoint scan_format_spec (depth : nat) (acc : str) (s : str) : result (str * str) :=
  match s with
  | [] => Raise ValueError        (* unmatched '{' in format spec *)
  | c :: s' =>
      if (c =? LBRACE)%N then scan_format_spec (S depth) (c :: acc) s'
      else if (c =? RBRACE)%N then
        match depth with
        | O => Ok (rev acc, s')
        | S depth' => scan_format_spec depth' (c :: acc) s'
        end
      else scan_format_spec depth (c :: acc) s'
  end.

(** The part of a field name that is looked up: up to the first [.] or [[]. *)
Fixpoint first_of_name (name : str) : str * str :=
  match name with
  | [] => ([], [])
  | c :: name' =>
      if ((c =? DOT) || (c =? LBRACKET))%N then ([], name)
      else let (a, b) := first_of_name name' in (c :: a, b)
  end.

Definition is_digit (c : char) : bool := ((48 <=? c) && (c <=? 57))%N.

Fixpoint kwargs_lookup (k : str) (kwargs : list (str * str)) : option str :=
  match kwargs with
  | [] => None
  | (k', v) :: kwargs' => if str_eqb k k' then Some v else kwargs_lookup k kwargs'
  end.

(** The value of one replacement field when [format] is given keyword
    arguments only: a numbered or empty name indexes the (empty)
    positional arguments, any other name is a key of [kwargs].  The
    lookup comes before the spec is applied.  Attribute and index access,
    conversions and non-empty specs on a value that was found are not
    covered. *)
Definition render_field (name spec : str) (kwargs : list (str * str)) : result str :=
  let (first, accessors) := first_of_name name in
  if forallb is_digit first then Raise IndexError
  else match kwargs_lookup first kwargs with
       | None => Raise (KeyError first)
       | Some v =>
           match accessors, spec with
           | [], [] => Ok v
           | _, _ => Raise NotModelled
           end
       end.

(** [template.format(k=v, ...)]: literal text is copied, a doubled brace
    stands for one brace, a single brace opens a replacement field, which
    is rendered before the text after it is looked at. *)
Fixpoint format_from (fuel : nat) (out : str) (template : str)
  (kwargs : list (str * str)) : result str :=
  match fuel with
  | O => Raise NotModelled
  | S fuel' =>
      match template with
      | [] => Ok (rev out)
      | c :: t =>
          if (c =? RBRACE)%N then
            match t with
            | c' :: t' =>
                if (c' =? RBRACE)%N then format_from fuel' (c :: out) t' kwargs
                else Raise ValueError     (* Single '}' encountered *)
            | [] => Raise ValueError
            end
          else if (c =? LBRACE)%N then
            match t with
            | [] => Raise ValueError      (* Single '{' encountered *)
            | c' :: t' =>
                if (c' =? LBRACE)%N then format_from fuel' (c :: out) t' kwargs
                else
                  match scan_field_name false [] t with
                  | Raise e => Raise e
                  | Ok (name, stop, after_name) =>
                      if (stop =? BANG)%N then Raise NotModelled
                      else
                        match (if (stop =? COLON)%N
                               then scan_format_spec O [] after_name
                               else Ok ([], after_name)) with
                        | Raise e => Raise e
                        | Ok (spec, rest) =>
                            match render_field name spec kwargs with
                            | Raise e => Raise e
                            | Ok v => format_from fuel' (rev v ++ out) rest kwargs
                            end
                        end
                  end
            end
          else format_from fuel' (c :: out) t kwargs
      end
  end.

Definition py_format (template : str) (kwargs : list (str * str)) : result str :=
  format_from (S (length template)) [] template kwargs.

(* ===================================================================== *)
(** ** esg_parser_gpt4o.py : class ESGParser *)
(* ===================================================================== *)

Module esg_parser_gpt4o.

(** [self.integration_prompt]: the text of the source, cut at its double
    quotes.  Its first brace opens [{previous_results}]; the braces of
    the JSON sample after it are single ones. *)
Definition integration_prompt : str :=
  Eval vm_compute in
  join [QUOTE] (map utf8 [
"請整合以下 ESG 報告的分析結果。

整合規則：
1. 移除完全重複的項目
2. 合併相似項目，保留更完整的描述
3. 統一數據格式和單位
4. 確保時間序列的一致性
5. 保持資訊的完整性和準確性

輸入的分析結果如下：
{previous_results}

請提供整合後的結果，使用相同的 JSON 格式：
{
    ";
"items";
": [
        {
            ";
"chapter";
": ";
"章節名稱";
",
            ";
"source";
": ";
"資料來源";
",
            ";
"item";
": ";
"項目名稱";
",
            ";
"value";
": ";
"數據值";
"
        }
    ]
}

注意：
1. 確保輸出是有效的 JSON 格式
2. 數據值如果不存在應該是 null，不要使用空字串
3. 確保所有必要欄位都存在
4. 避免特殊字符或跳脫字符造成的解析錯誤"]%string).

Definition REQUIRED_FIELDS : list str :=
  Eval vm_compute in map utf8 ["chapter"; "source"; "item"; "value"]%string.

(** [all(k in item for k in keys)]: stops at the first key that is not
    in [item]; raises when [item] is not a container. *)
Fixpoint all_in (keys : list str) (item : json) : result bool :=
  match keys with
  | [] => Ok true
  | k :: keys' =>
      match py_contains k item with
      | Raise e => Raise e
      | Ok false => Ok false
      | Ok true => all_in keys' item
      end
  end.

(** [clean_text] *)
Definition clean_text (text : str) : str :=
  let text := join [SPACE] (split text) in
  let text := replace_char PARAGRAPH_SEPARATOR [SPACE]
                (replace_char LINE_SEPARATOR [SPACE] text) in
  strip text.

(** [self.clean_text(v)] on whatever [item['value']] is: only a [str]
    has [split]. *)
Definition clean_text_of (v : json) : result str :=
  match v with
  | JStr s => Ok (clean_text s)
  | _ => Raise AttributeError
  end.

Section ESGParser.

Variable E : environment.

(** [requests.get(.../job/{job_id}/result/json)], [raise_for_status()],
    [response.json()] *)
Definition get_result (job_id : json) : M json :=
  logger INFO "獲取解析結果: {job_id}" [LJson job_id] ;;;
  lift (match result_reply E job_id with
        | HttpFails msg => Raise (RequestException msg)
        | HttpJson body => Ok body
        end).

(** [self.client.chat.completions.create(...)] followed by
    [response.choices[0].message.content]: the request is recorded, the
    oracle answers it.  The system message is the fixed
    [self.system_prompt] in every request. *)
Definition chat_completion (user : prompt) : M str :=
  fun w =>
    let w' := World (now w) (status_requests w) (sleeps w)
                    (chat_requests w ++ [user]) (log w) (files w) in
    match chat_reply E (length (chat_requests w)) user with
    | ChatFails msg => (Raise (APIError msg), w')
    | ChatContent content => (Ok content, w')
    end.

(** [json.loads] *)
Definition loads (s : str) : M json :=
  lift (match json_loads E s with
        | Some v => Ok v
        | None => Raise JSONDecodeError
        end).

(** The body of the validation loop shared by [analyze_with_gpt4] and
    [integrate_results]; [warning] is the text logged for a skipped item. *)
Definition validate_item (warning : string) (validated_items : list json) (item : json)
  : M (list json) :=
  complete <- lift (all_in REQUIRED_FIELDS item) ;;
  if complete then ret (validated_items ++ [item])
  else logger WARNING warning [LJson item] ;;; ret validated_items.

(** [validated_items = []; for item in items: ...] *)
Definition validate (warning : string) (items : json) : M (list json) :=
  item_list <- lift (py_iter items) ;;
  for_each (validate_item warning) [] item_list.

(** The [try] block of [analyze_with_gpt4]. *)
Definition analyze_with_gpt4_try (text : str) (page_num : json) : M (list json) :=
  content <- chat_completion (AnalyzePrompt page_num text) ;;
  result <- loads content ;;
  items <- lift (py_get result (utf8 "items") (JArr [])) ;;
  validate "跳過格式不正確的項目: {item}" items.

Definition analyze_with_gpt4 (text : str) (page_num : json) : M (list json) :=
  try_except (analyze_with_gpt4_try text page_num)
    (fun e => Some (logger ERROR "GPT-4 分析失敗: {str(e)}" [LExn e] ;;; ret [])).

(** The [try] block of [integrate_results]. *)
Definition integrate_results_try (all_results : list json) : M (list json) :=
  let results_dict := JObj [(utf8 "items", JArr all_results)] in
  let previous_results := json_dumps E results_dict in
  user <- lift (py_format integration_prompt
                  [(utf8 "previous_results", previous_results)]) ;;
  content <- chat_completion (IntegratePrompt user) ;;
  let content := strip content in
  let content := if is_prefix [LBRACE] content then content
                 else slice_from (find_char LBRACE content) content in
  result <- loads content ;;
  items <- lift (py_get result (utf8 "items") (JArr [])) ;;
  validate "整合時跳過格式不正確的項目: {item}" items.

Definition integrate_results (all_results : list json) : M (list json) :=
  try_except (integrate_results_try all_results)
    (fun e =>
       if is_JSONDecodeError e
       then Some (logger ERROR "JSON 解析錯誤: {str(e)}" [LExn e] ;;; ret all_results)
       else Some (logger ERROR "結果整合失敗: {str(e)}" [LExn e] ;;; ret all_results)).

(** The body of the inner loop of [process_content]. *)
Definition page_text_item (page_text : list str) (item : json) : M (list str) :=
  type <- lift (py_getitem item (utf8 "type")) ;;
  if eq_str type (utf8 "text") then
    value <- lift (py_getitem item (utf8 "value")) ;;
    text <- lift (clean_text_of value) ;;
    match text with
    | [] => ret page_text
    | _ => ret (page_text ++ [text])
    end
  else ret page_text.

(** The inner loop of [process_content]: the cleaned, non-empty text of
    the items of type [text], in order. *)
Definition page_text_of (items : list json) : M (list str) :=
  for_each page_text_item [] items.

(** The body of the loop over pages in [process_content]. *)
Definition process_page (all_results : list json) (page : json) : M (list json) :=
  page_num <- lift (py_getitem page (utf8 "page")) ;;
  logger INFO "處理第 {page_num} 頁" [LJson page_num] ;;;
  has_items <- lift (py_contains (utf8 "items") page) ;;
  if has_items then
    items <- lift (py_getitem page (utf8 "items")) ;;
    item_list <- lift (py_iter items) ;;
    page_text <- page_text_of item_list ;;
    match page_text with
    | [] => ret all_results
    | _ =>
        results <- analyze_with_gpt4 (join [NEWLINE] page_text) page_num ;;
        ret (all_results ++ results)
    end
  else ret all_results.

(** [process_content] up to the call of [integrate_results]. *)
Definition collect_pages (result : json) : M (list json) :=
  pages <- lift (py_getitem result (utf8 "pages")) ;;
  total_pages <- lift (py_len pages) ;;
  logger INFO "開始處理內容，總頁數：{total_pages}" [LNum total_pages] ;;;
  page_list <- lift (py_iter pages) ;;
  all_results <- for_each process_page [] page_list ;;
  logger INFO "內容處理完成，開始整合結果" [] ;;;
  ret all_results.

Definition process_content (result : json) : M (list json) :=
  all_results <- collect_pages result ;;
  integrate_results all_results.

Definition RENAMED_COLUMNS : list (str * str) :=
  Eval vm_compute in
  [(utf8 "chapter", utf8 "章節"); (utf8 "source", utf8 "資料來源");
   (utf8 "item", utf8 "項目"); (utf8 "value", utf8 "數據")].

Definition SORT_COLUMNS : list str :=
  Eval vm_compute in map utf8 ["chapter"; "source"; "item"]%string.

Definition column_widths : list (string * Z) :=
  [("A", 15); ("B", 10); ("C", 40); ("D", 30)]%string.

(** [pd.ExcelWriter(excel_path, engine='openpyxl')] *)
Definition ExcelWriter (excel_path : str) : M unit :=
  if can_write E excel_path then ret tt else raise OSError.

(** [writer.close()]: the workbook is saved. *)
Definition close_writer (excel_path : str) (book : workbook) : M unit :=
  fun w => (Ok tt,
            World (now w) (status_requests w) (sleeps w) (chat_requests w)
                  (log w) (files w ++ [(excel_path, book)])).

Definition save_to_excel (data : list json) (excel_path : str) : M unit :=
  logger INFO "保存結果到 Excel: {excel_path}" [LJson (JStr excel_path)] ;;;
  df <- lift (pd.DataFrame_ data) ;;
  df <- lift (pd.drop_duplicates df) ;;
  df <- lift (pd.sort_values SORT_COLUMNS df) ;;
  let df := pd.rename RENAMED_COLUMNS df in
  ExcelWriter excel_path ;;;
  close_writer excel_path
    (Workbook (utf8 "ESG報告內容") (pd.columns df) (pd.rows df) column_widths) ;;;
  chapters <- lift (pd.column (utf8 "章節") df) ;;
  sources <- lift (pd.column (utf8 "資料來源") df) ;;
  items <- lift (pd.column (utf8 "項目") df) ;;
  values <- lift (pd.column (utf8 "數據") df) ;;
  logger INFO "統計資訊: {stats}"
    [LNum (pd.nunique [] chapters); LNum (pd.nunique [] sources);
     LNum (pd.nunique [] items); LNum (pd.count_notna values);
     LNum (Z.of_nat (length (pd.rows df)))].

Definition process_pdf (excel_path : str) (job_id : json) : M unit :=
  try_except
    (result <- get_result job_id ;;
     data <- process_content result ;;
     save_to_excel data excel_path)
    (fun e => Some (logger ERROR "處理過程中發生錯誤: {str(e)}" [LExn e] ;;; raise e)).

End ESGParser.

End esg_parser_gpt4o.

(* ===================================================================== *)
(** ** process_esg_report.py : class ESGReportProcessor and [main] *)
(* ===================================================================== *)

Module process_esg_report.

Import esg_parser_gpt4o.

(** A computation that may need more loop iterations than it was given. *)
Definition MF (A : Type) : Type := world -> option (result A * world).

Section ESGReportProcessor.

Variable E : environment.

(** [not key] for what [os.getenv] returns. *)
Definition missing (key : option str) : bool :=
  match key with
  | None | Some [] => true
  | Some _ => false
  end.

(** [ESGReportProcessor.__init__] *)
Definition init : M unit :=
  if missing (getenv_LLAMA_PARSE_API_KEY E) || missing (getenv_OPENAI_API_KEY E)
  then raise ValueError
  else ret tt.

Definition upload_pdf (pdf_path : str) : M json :=
  logger INFO "開始上傳 PDF: {pdf_path}" [LJson (JStr pdf_path)] ;;;
  if negb (path_exists E pdf_path) then raise (FileNotFoundError pdf_path)
  else
    try_except
      (response <- lift (match upload_reply E pdf_path with
                         | HttpFails msg => Raise (RequestException msg)
                         | HttpJson body => Ok body
                         end) ;;
       job_id <- lift (py_getitem response (utf8 "job_id")) ;;
       logger INFO "PDF 上傳成功，job_id: {job_id}" [LJson job_id] ;;;
       ret job_id)
      (fun e =>
         if is_RequestException e
         then Some (logger ERROR "PDF 上傳失敗: {str(e)}" [LExn e] ;;; raise e)
         else None).

(** [requests.get(.../job/{job_id}/status)], [raise_for_status()],
    [response.json()]: the request takes some time and is counted. *)
Definition get_status (job_id : json) : M json :=
  fun w =>
    let k := status_requests w in
    let w' := World (now w + Z.of_N (status_latency E job_id k)) (S k) (sleeps w)
                    (chat_requests w) (log w) (files w) in
    match status_reply E job_id k with
    | HttpFails msg => (Raise (RequestException msg), w')
    | HttpJson body => (Ok body, w')
    end.

(** The error message [check_job_status] reports for a failed job that
    carries none. *)
Definition UNKNOWN_ERROR : json := Eval vm_compute in JStr (utf8 "未知錯誤").

(** [check_job_status]: the pair (is_done, error). *)
Definition check_job_status (job_id : json) : M (bool * json) :=
  try_except
    (status <- get_status job_id ;;
     s <- lift (py_get status (utf8 "status") JNull) ;;
     if eq_str s (utf8 "completed") then ret (true, JNull)
     else if eq_str s (utf8 "failed") then
       error <- lift (py_get status (utf8 "error") UNKNOWN_ERROR) ;;
       ret (true, error)
     else ret (false, JNull))
    (fun e =>
       match e with
       | RequestException msg =>
           Some (logger ERROR "檢查任務狀態失敗: {str(e)}" [LExn e] ;;;
                 ret (false, JStr msg))
       | _ => None
       end).

(** [time.sleep(seconds)]: refuses a negative length, otherwise lasts at
    least that long. *)
Definition sleep (seconds : Z) : M unit :=
  fun w =>
    if seconds <? 0 then (Raise ValueError, w)
    else (Ok tt,
          World (now w + seconds + Z.of_N (sleep_overshoot E (sleeps w)))
                (status_requests w) (S (sleeps w)) (chat_requests w) (log w) (files w)).

(** The [while True] loop of [wait_for_completion], run for at most
    [fuel] iterations. *)
Fixpoint wait_loop (fuel : nat) (job_id : json) (check_interval timeout : Z)
  (start_time : Z) : MF bool :=
  fun w =>
    match fuel with
    | O => None
    | S fuel' =>
        if now w - start_time >? timeout then
          Some ((logger ERROR "等待超時" [] ;;; ret false) w)
        else
          match check_job_status job_id w with
          | (Raise e, w1) => Some (Raise e, w1)
          | (Ok (is_done, error), w1) =>
              if is_done && negb (truthy error) then
                Some ((logger INFO "解析完成" [] ;;; ret true) w1)
              else if truthy error then
                Some ((logger ERROR "解析失敗: {error}" [LJson error] ;;; ret false) w1)
              else
                match (logger INFO "解析中...（已等待 {int(time.time() - start_time)} 秒）"
                         [LNum (now w1 - start_time)] ;;;
                       sleep check_interval) w1 with
                | (Raise e, w2) => Some (Raise e, w2)
                | (Ok _, w2) => wait_loop fuel' job_id check_interval timeout start_time w2
                end
          end
    end.

Definition wait_for_completion (fuel : nat) (job_id : json)
  (check_interval timeout : Z) : MF bool :=
  fun w =>
    match logger INFO "等待解析完成，最多等待 {timeout} 秒" [LNum timeout] w with
    | (_, w0) => wait_loop fuel job_id check_interval timeout (now w0) w0
    end.

Definition DEFAULT_CHECK_INTERVAL : Z := 5.
Definition DEFAULT_TIMEOUT : Z := 300.

(** The [try] block of [process_report]. *)
Definition process_report_try (fuel : nat) (pdf_path output_path : str) : MF bool :=
  fun w =>
    match upload_pdf pdf_path w with
    | (Raise e, w1) => Some (Raise e, w1)
    | (Ok job_id, w1) =>
        match wait_for_completion fuel job_id DEFAULT_CHECK_INTERVAL DEFAULT_TIMEOUT w1 with
        | None => None
        | Some (Raise e, w2) => Some (Raise e, w2)
        | Some (Ok false, w2) => Some (Ok false, w2)
        | Some (Ok true, w2) =>
            Some ((logger INFO "開始使用 GPT-4 分析內容" [] ;;;
                   process_pdf E output_path job_id ;;;
                   logger INFO "處理完成，結果已保存到: {output_path}"
                     [LJson (JStr output_path)] ;;;
                   ret true) w2)
        end
    end.

(** [process_report]: every exception of the [try] block becomes [False]. *)
Definition process_report (fuel : nat) (pdf_path output_path : str)
  : world -> option (bool * world) :=
  fun w =>
    match process_report_try fuel pdf_path output_path w with
    | None => None
    | Some (Ok success, w') => Some (success, w')
    | Some (Raise e, w') =>
        match logger ERROR "處理過程中發生錯誤: {str(e)}" [LExn e] w' with
        | (_, w'') => Some (false, w'')
        end
    end.

(** [main] for [--pdf pdf --output output]: the exit code of the process.
    An exception that escapes [main] ends the interpreter with code 1.
    (Creating the output directory writes no spreadsheet and is left
    out.) *)
Definition main (fuel : nat) (pdf output : str) : world -> option (Z * world) :=
  fun w =>
    match init w with
    | (Raise _, w') => Some (1, w')
    | (Ok _, w') =>
        match process_report fuel pdf output w' with
        | None => None
        | Some (success, w'') => Some (if success then 0 else 1, w'')
        end
    end.

End ESGReportProcessor.

End process_esg_report.

(* ===================================================================== *)
(** ** Vocabulary of the statements *)
(* ===================================================================== *)

Module Outcome.

Import process_esg_report.

Definition last_log (w : world) : option log_record := last (map Some (log w)) None.

(** Where the error that ends a wait comes from: the [k]-th status
    request failed on the network with that message, or the service
    answered that the job failed and the error is what its answer carries
    (or the fixed message when it carries none). *)
Definition error_source (E : environment) (job_id : json) (k : nat) (error : json) : Prop :=
  (exists msg, status_reply E job_id k = HttpFails msg /\ error = JStr msg)
  \/ (exists body st,
        status_reply E job_id k = HttpJson body
        /\ py_get body (utf8 "status") JNull = Ok st
        /\ eq_str st (utf8 "failed") = true
        /\ py_get body (utf8 "error") UNKNOWN_ERROR = Ok error).

(** The ways [wait_for_completion], started at clock reading
    [start_time], can end. *)
Inductive terminal (E : environment) (job_id : json) (timeout start_time : Z)
  : result bool -> world -> Prop :=
| Success w :
    last_log w = Some (Log INFO "解析完成" []) ->
    terminal E job_id timeout start_time (Ok true) w
| ReportedError w error :
    truthy error = true ->
    error_source E job_id (pred (status_requests w)) error ->
    last_log w = Some (Log ERROR "解析失敗: {error}" [LJson error]) ->
    terminal E job_id timeout start_time (Ok false) w
| TimedOut w :
    timeout < now w - start_time ->
    last_log w = Some (Log ERROR "等待超時" []) ->
    terminal E job_id timeout start_time (Ok false) w
| MalformedStatus w body :
    status_reply E job_id (pred (status_requests w)) = HttpJson body ->
    (forall d, body <> JObj d) ->
    terminal E job_id timeout start_time (Raise AttributeError) w.

End Outcome.

Module Records.

Import esg_parser_gpt4o.

(** A record, as opposed to any other JSON value found in a list. *)
Definition is_record (x : json) : Prop := exists d, x = JObj d.

(** An element that contains every required field, in the sense the
    validation loop tests it ([k in item]). *)
Definition complete (x : json) : Prop :=
  Forall (fun k => py_contains k x = Ok true) REQUIRED_FIELDS.

(** A record that binds every required field. *)
Definition binds_all_fields (d : dict) : Prop :=
  forall k, In k REQUIRED_FIELDS -> exists v, dict_lookup k d = Some v.

Definition complete_b (x : json) : bool :=
  match all_in REQUIRED_FIELDS x with
  | Ok true => true
  | _ => false
  end.

(** What C7 asks of a record handed to the writer: chapter, source and
    item are not null, and value is null or a non-empty string. *)
Definition well_valued (r : json) : bool :=
  match r with
  | JObj d =>
      let non_null k := match dict_lookup (utf8 k) d with
                        | Some JNull | None => false
                        | Some _ => true
                        end in
      non_null "chapter"%string && non_null "source"%string && non_null "item"%string
      && match dict_lookup (utf8 "value") d with
         | Some JNull | Some (JStr (_ :: _)) => true
         | _ => false
         end
  | _ => false
  end.

(** The positions in [cols] of the labels [by_]. *)
Definition positions (by_ : list str) (cols : list str) (idx : list nat) : Prop :=
  Forall2 (fun c i => pd.label_index c cols = Some i) by_ idx.

(** A row comes no later than another in the order on the columns at
    [idx]: the first column decides, the next one breaks its ties. *)
Definition row_le (idx : list nat) (r1 r2 : list cell) : Prop :=
  pd.row_leb idx r1 r2 = true.

(** The world after more records were logged. *)
Definition add_log (w : world) (records : list log_record) : world :=
  World (now w) (status_requests w) (sleeps w) (chat_requests w)
        (log w ++ records) (files w).

Definition skipped (warning : string) (items : list json) : list log_record :=
  map (fun item => Log WARNING warning [LJson item])
      (filter (fun item => negb (complete_b item)) items).

End Records.

(** A computation that leaves a component of the world as it found it,
    however it ends. *)
Definition keeps {A F} (f : world -> F) (c : M A) : Prop :=
  forall w r w', c w = (r, w') -> f w' = f w.

(** A computation that saves no spreadsheet. *)
Abbreviation keeps_files := (keeps files).

Module Extractor.

Import esg_parser_gpt4o.

(** The content extractor in the specification's words: per page, the
    text items' cleaned values, the empty ones left out; a page with none
    yields nothing. *)

(** An item of a page: a record with a type, holding a string value when
    the type is [text]. *)
Definition wf_item (item : json) : Prop :=
  exists d type,
    item = JObj d
    /\ dict_lookup (utf8 "type") d = Some type
    /\ (eq_str type (utf8 "text") = true ->
        exists v, dict_lookup (utf8 "value") d = Some (JStr v)).

(** A page: a record with a page number and, if it has items, a list of
    them. *)
Definition wf_page (page : json) : Prop :=
  exists d page_num,
    page = JObj d
    /\ dict_lookup (utf8 "page") d = Some page_num
    /\ forall items,
         dict_lookup (utf8 "items") d = Some items ->
         exists item_list, items = JArr item_list /\ Forall wf_item item_list.

(** The cleaned value of a text item; nothing for a table or any other
    item. *)
Definition item_text (item : json) : list str :=
  match item with
  | JObj d =>
      match dict_lookup (utf8 "type") d, dict_lookup (utf8 "value") d with
      | Some type, Some (JStr v) => if eq_str type (utf8 "text") then [clean_text v] else []
      | _, _ => []
      end
  | _ => []
  end.

Definition non_empty (t : str) : bool :=
  match t with
  | [] => false
  | _ => true
  end.

Definition page_texts (items : list json) : list str :=
  filter non_empty (flat_map item_text items).

Definition items_of (page : json) : list json :=
  match page with
  | JObj d =>
      match dict_lookup (utf8 "items") d with
      | Some (JArr item_list) => item_list
      | _ => []
      end
  | _ => []
  end.

Definition number_of (page : json) : json :=
  match page with
  | JObj d =>
      match dict_lookup (utf8 "page") d with
      | Some page_num => page_num
      | None => JNull
      end
  | _ => JNull
  end.

(** The (page number, text block) pair of a page, with [block] building
    the block from the page's texts. *)
Definition page_pair (block : list str -> str) (page : json) : list (json * str) :=
  match page_texts (items_of page) with
  | [] => []
  | texts => [(number_of page, block texts)]
  end.

Definition page_pairs (block : list str -> str) (pages : list json) : list (json * str) :=
  flat_map (page_pair block) pages.

(** The block as C9 words it: the texts one after the other. *)
Definition concatenated (texts : list str) : str := concat texts.

(** The block as the code builds it: the texts with a newline between
    consecutive ones. *)
Definition joined (texts : list str) : str := join [NEWLINE] texts.

(** The pairs handed to the annotator, read off the requests sent. *)
Definition analyzed (requests : list prompt) : list (json * str) :=
  flat_map (fun p => match p with
                     | AnalyzePrompt page_num text => [(page_num, text)]
                     | IntegratePrompt _ => []
                     end) requests.

(** A word: not empty, and free of whitespace. *)
Definition word (t : str) : Prop :=
  t <> [] /\ Forall (fun c => is_space c = false) t.

(** The request the annotator sends for a pair. *)
Definition request_of (pair : json * str) : prompt :=
  AnalyzePrompt (fst pair) (snd pair).

End Extractor.

Module Run.

Import process_esg_report Records.

(** A computation whose only effect is on the log. *)
Definition only_logs {A} (c : M A) : Prop :=
  forall w r w', c w = (r, w') -> exists records, w' = add_log w records.


(** The answer that makes [wait_for_completion] return True: status
    [completed], or status [failed] with an error that counts as false. *)
Definition passes_for_done (reply : http_reply) : Prop :=
  exists body st,
    reply = HttpJson body
    /\ py_get body (utf8 "status") JNull = Ok st
    /\ (eq_str st (utf8 "completed") = true
        \/ (eq_str st (utf8 "failed") = true
            /\ exists error,
                 py_get body (utf8 "error") UNKNOWN_ERROR = Ok error
                 /\ truthy error = false)).

(** A value that is no container: [None], a boolean or a number. *)
Definition not_a_container (x : json) : Prop :=
  match x with
  | JNull | JBool _ | JNum _ => True
  | _ => False
  end.

(** A request for the analysis of a page, as opposed to one for
    consolidation. *)
Definition is_analysis (p : prompt) : Prop :=
  match p with
  | AnalyzePrompt _ _ => True
  | IntegratePrompt _ => False
  end.

(** A computation that sends the model nothing, or one analysis request. *)
Definition sends_at_most_one {A} (c : M A) : Prop :=
  forall w r w',
    c w = (r, w') ->
    chat_requests w' = chat_requests w
    \/ exists page_num text,
         chat_requests w' = chat_requests w ++ [AnalyzePrompt page_num text].

(** A value that holds other values: a list or an object. *)
Definition nested (v : json) : Prop :=
  match v with
  | JArr _ | JObj _ => True
  | _ => False
  end.

(** An item the inner loop of [process_content] cannot read: it has no
    [type], or it is of type [text] and its [value] is missing or is no
    string. *)
Definition unreadable_item (item : json) : bool :=
  match py_getitem item (utf8 "type") with
  | Raise _ => true
  | Ok type =>
      eq_str type (utf8 "text")
      && match py_getitem item (utf8 "value") with
         | Raise _ => true
         | Ok value =>
             match esg_parser_gpt4o.clean_text_of value with
             | Raise _ => true
             | Ok _ => false
             end
         end
  end.

(** A page the loop over pages cannot read: it has no [page], or one of
    the items of its list [items] is unreadable. *)
Definition unreadable_page (page : json) : Prop :=
  (exists e, py_getitem page (utf8 "page") = Raise e)
  \/ exists item_list,
       py_getitem page (utf8 "items") = Ok (JArr item_list)
       /\ existsb unreadable_item item_list = true.

(** Two rows that [drop_duplicates] takes for the same: equal cell by
    cell, missing values being equal to each other and [True], [False]
    to 1, 0. *)
Definition same_row (a b : list cell) : Prop :=
  pd.keys_eqb (pd.row_key a) (pd.row_key b) = true.

End Run.

(* ===================================================================== *)
(** ** Concrete environments and inputs used to run the embedding *)
(* ===================================================================== *)

Module Fixtures.

Import esg_parser_gpt4o process_esg_report.

Definition obj (fields : list (string * json)) : json :=
  JObj (map (fun kv => (utf8 (fst kv), snd kv)) fields).

Definition s (text : string) : json := JStr (utf8 text).

Definition job : json := Eval vm_compute in s "job-1".

Definition w0 : world := World 1000 0 0 [] [] [].

Definition pending : http_reply := Eval vm_compute in HttpJson (obj [("status", s "pending")]%string).
Definition completed : http_reply := Eval vm_compute in HttpJson (obj [("status", s "completed")]%string).

(** Keys set, the file exists, the upload returns [job-1], status
    requests are answered at once by [status], sleeps last exactly as
    asked, the parse result is [parsed], the model answers by [chat],
    [json.loads] is [loads]. *)
Definition env (status : nat -> http_reply) (parsed : json)
  (chat : nat -> prompt -> chat_result) (loads : str -> option json) : environment :=
  Environment (Some (utf8 "llx-key")) (Some (utf8 "sk-key"))
    (fun _ => true)
    (fun _ => HttpJson (obj [("job_id", job)]%string))
    (fun _ => status)
    (fun _ _ => 0%N)
    (fun _ => 0%N)
    (fun _ => HttpJson parsed)
    chat loads
    (fun _ => [])
    (fun _ => true).

Definition no_pages : json := Eval vm_compute in obj [("pages", JArr [])]%string.
Definition no_chat : nat -> prompt -> chat_result := fun _ _ => ChatFails [].
Definition no_loads : str -> option json := fun _ => None.

(** The first status request fails on the network; the job is complete
    by the second. *)
Definition flaky_env : environment :=
  env (fun k => match k with
                | O => HttpFails (utf8 "Connection reset by peer")
                | _ => completed
                end)
      no_pages no_chat no_loads.

(** The job never leaves the pending state. *)
Definition stuck_env : environment := env (fun _ => pending) no_pages no_chat no_loads.

(** The service answers that the job failed and gives an empty error. *)
Definition failed_empty : http_reply :=
  Eval vm_compute in HttpJson (obj [("status", s "failed"); ("error", JStr [])]%string).

Definition pdf : str := Eval vm_compute in utf8 "report.pdf".
Definition xlsx : str := Eval vm_compute in utf8 "out/report.xlsx".

(** One page holding one text item. *)
Definition one_page : json :=
  Eval vm_compute in
  obj [("pages",
        JArr [obj [("page", JNum 1);
                   ("items", JArr [obj [("type", s "text");
                                        ("value", s "Scope 1 emissions: 100 t")]])]])]%string.

(** The model's answer of the end-to-end scenario and what [json.loads]
    makes of it. *)
Definition scenario_content : str :=
  Eval vm_compute in
  join [QUOTE] (map utf8 ["{"; "items"; ":[{"; "chapter"; ":"; "環境永續"; ","; "source"; ":"; "內文"; ","; "item"; ":"; "碳排放量"; ","; "value"; ":"; "100 噸"; "}]}"]%string).

Definition scenario_record : json :=
  Eval vm_compute in
  obj [("chapter", s "環境永續"); ("source", s "內文");
       ("item", s "碳排放量"); ("value", s "100 噸")]%string.

Definition loads_only (content : str) (v : json) : str -> option json :=
  fun c => if str_eqb c content then Some v else None.

Definition scenario_loads : str -> option json :=
  loads_only scenario_content (JObj [(utf8 "items", JArr [scenario_record])]).

Definition failed_empty_env : environment :=
  env (fun _ => failed_empty) one_page (fun _ _ => ChatContent scenario_content)
      scenario_loads.

(** The scenario of the specification: the first status request answers
    that the job failed on a corrupt file. *)
Definition failed_corrupt : http_reply :=
  Eval vm_compute in
  HttpJson (obj [("status", s "failed"); ("error", s "corrupt file")]%string).

Definition failed_corrupt_env : environment :=
  env (fun _ => failed_corrupt) one_page (fun _ _ => ChatContent scenario_content)
      scenario_loads.

(** The model answers with text that is not JSON. *)
Definition not_json : str := Eval vm_compute in utf8 "Sorry, I cannot help with that.".

Definition babbling_env : environment :=
  env (fun _ => completed) one_page (fun _ _ => ChatContent not_json) scenario_loads.

(** The model cannot be reached. *)
Definition offline_env : environment :=
  env (fun _ => completed) one_page (fun _ _ => ChatFails (utf8 "Connection error."))
      scenario_loads.

(** The model returns one complete record and one without [source] and
    [value]. *)
Definition mixed_content : str :=
  Eval vm_compute in
  join [QUOTE] (map utf8 ["{"; "items"; ":[{"; "chapter"; ":"; "環境永續"; ","; "source"; ":"; "內文"; ","; "item"; ":"; "碳排放量"; ","; "value"; ":"; "100 噸"; "},{"; "chapter"; ":"; "環境永續"; ","; "item"; ":"; "用水量"; "}]}"]%string).

Definition partial_record : json :=
  Eval vm_compute in obj [("chapter", s "環境永續"); ("item", s "用水量")]%string.

Definition mixed_env : environment :=
  env (fun _ => completed) one_page (fun _ _ => ChatContent mixed_content)
      (loads_only mixed_content
         (JObj [(utf8 "items", JArr [scenario_record; partial_record])])).

(** The model returns a record whose chapter is null and whose value is
    the empty string. *)
Definition sloppy_content : str :=
  Eval vm_compute in
  join [QUOTE] (map utf8 ["{"; "items"; ":[{"; "chapter"; ":null,"; "source"; ":"; "內文"; ","; "item"; ":"; "碳排放量"; ","; "value"; ":"; EmptyString; "}]}"]%string).

Definition sloppy_record : json :=
  Eval vm_compute in
  obj [("chapter", JNull); ("source", s "內文"); ("item", s "碳排放量"); ("value", JStr [])]%string.

Definition sloppy_env : environment :=
  env (fun _ => completed) one_page (fun _ _ => ChatContent sloppy_content)
      (loads_only sloppy_content (JObj [(utf8 "items", JArr [sloppy_record])])).

(** Three records, the third a repetition of the first. *)
Definition water_record : json :=
  Eval vm_compute in
  obj [("chapter", s "環境永續"); ("source", s "圖表");
       ("item", s "用水量"); ("value", JNull)]%string.

Definition repeated_records : list json :=
  [scenario_record; water_record; scenario_record].

(** A page with two text items and a table between them, and a page
    with nothing but a table and a blank text item. *)
Definition two_pages : list json :=
  Eval vm_compute in
  [obj [("page", JNum 1);
        ("items", JArr [obj [("type", s "text"); ("value", s " Water  use ")];
                        obj [("type", s "table"); ("rows", JArr [])];
                        obj [("type", s "text");
                             ("value", JStr (app (utf8 "fell")
                                               (LINE_SEPARATOR :: utf8 "by 3 %")))]])];
   obj [("page", JNum 2);
        ("items", JArr [obj [("type", s "table"); ("rows", JArr [])];
                        obj [("type", s "text"); ("value", s "   ")]])]]%string.

Definition two_items : json := JObj [(utf8 "pages", JArr two_pages)].

(** The end-to-end scenario of the specification: the job is complete
    at the first poll and the model answers with one record. *)
Definition scenario_env : environment :=
  env (fun _ => completed) one_page (fun _ _ => ChatContent scenario_content)
      scenario_loads.

(** The model returns a complete record followed by a bare number. *)
Definition poisoned_content : str :=
  Eval vm_compute in
  join [QUOTE] (map utf8 ["{"; "items"; ":[{"; "chapter"; ":"; "環境永續"; ","; "source"; ":"; "內文"; ","; "item"; ":"; "碳排放量"; ","; "value"; ":"; "100 噸"; "},3]}"]%string).

Definition poisoned_env : environment :=
  env (fun _ => completed) one_page (fun _ _ => ChatContent poisoned_content)
      (loads_only poisoned_content
         (JObj [(utf8 "items", JArr [scenario_record; JNum 3])])).

(** A good page followed by a page with an image item that has no
    [type]. *)
Definition torn_pages : list json :=
  Eval vm_compute in
  [obj [("page", JNum 1);
        ("items", JArr [obj [("type", s "text");
                             ("value", s "Scope 1 emissions: 100 t")]])];
   obj [("page", JNum 2);
        ("items", JArr [obj [("name", s "img_p1_1.png")]])]]%string.

Definition torn_result : json := JObj [(utf8 "pages", JArr torn_pages)].

Definition torn_env : environment :=
  env (fun _ => completed) torn_result (fun _ _ => ChatContent scenario_content)
      scenario_loads.

End Fixtures.

(* ===================================================================== *)
(** * Properties *)
(* ===================================================================== *)

Import esg_parser_gpt4o process_esg_report.

(** ** The embedding at work *)

Example utf8_decodes_cjk : utf8 "章節" = [31456; 31680]%N.
Proof. reflexivity. Qed.

Example split_drops_separators :
  split (utf8 "  a b" ++ [LINE_SEPARATOR] ++ utf8 "c  ") = [utf8 "a"; utf8 "b"; utf8 "c"].
Proof. reflexivity. Qed.

Example format_substitutes_and_unescapes :
  py_format (utf8 "a {x} b{{c}} {y}") [(utf8 "x", utf8 "XX"); (utf8 "y", utf8 "Y")]
  = Ok (utf8 "a XX b{c} Y").
Proof. reflexivity. Qed.

Example format_rejects_single_brace :
  py_format (utf8 "a {x} } b") [(utf8 "x", utf8 "XX")] = Raise ValueError.
Proof. reflexivity. Qed.

Example format_unknown_field :
  py_format (utf8 "{x} {y:>{x}}") [(utf8 "x", utf8 "XX")] = Raise (KeyError (utf8 "y")).
Proof. reflexivity. Qed.

(** The end-to-end scenario of the specification: one row under the
    renamed headers, and a log line counting one chapter, one source, one
    item, one value and one row. *)
Example end_to_end_scenario :
  exists w' book,
    main Fixtures.scenario_env 100 Fixtures.pdf Fixtures.xlsx Fixtures.w0 = Some (0, w')
    /\ files w' = [(Fixtures.xlsx, book)]
    /\ header book = [utf8 "章節"; utf8 "資料來源"; utf8 "項目"; utf8 "數據"]
    /\ body book = [[Cell (JStr (utf8 "環境永續")); Cell (JStr (utf8 "內文"));
                     Cell (JStr (utf8 "碳排放量")); Cell (JStr (utf8 "100 噸"))]]
    /\ In (Log INFO "統計資訊: {stats}" [LNum 1; LNum 1; LNum 1; LNum 1; LNum 1]) (log w').
Proof.
  do 2 eexists. split; [vm_compute; reflexivity|].
  split; [reflexivity|]. split; [reflexivity|]. split; [reflexivity|].
  vm_compute. tauto.
Qed.

(** ** The status poller *)

Lemma str_eqb_eq (a b : str) : str_eqb a b = true <-> a = b.
Proof.
  revert b. induction a as [| x a IH]; intros [| y b]; cbn; split;
    try congruence; try discriminate.
  - intros H. apply andb_true_iff in H as [Hx Hab].
    apply N.eqb_eq in Hx. apply IH in Hab. congruence.
  - intros H. injection H as -> ->.
    rewrite N.eqb_refl. cbn. apply IH. reflexivity.
Qed.

Lemma str_eqb_refl (a : str) : str_eqb a a = true.
Proof. apply str_eqb_eq. reflexivity. Qed.

(** One iteration of the polling loop. *)
Lemma wait_loop_S E fuel job_id check_interval timeout start_time w :
  wait_loop E (S fuel) job_id check_interval timeout start_time w =
    if now w - start_time >? timeout then
      Some ((logger ERROR "等待超時" [] ;;; ret false) w)
    else
      match check_job_status E job_id w with
      | (Raise e, w1) => Some (Raise e, w1)
      | (Ok (is_done, error), w1) =>
          if is_done && negb (truthy error) then
            Some ((logger INFO "解析完成" [] ;;; ret true) w1)
          else if truthy error then
            Some ((logger ERROR "解析失敗: {error}" [LJson error] ;;; ret false) w1)
          else
            match (logger INFO "解析中...（已等待 {int(time.time() - start_time)} 秒）"
                     [LNum (now w1 - start_time)] ;;;
                   sleep E check_interval) w1 with
            | (Raise e, w2) => Some (Raise e, w2)
            | (Ok _, w2) => wait_loop E fuel job_id check_interval timeout start_time w2
            end
      end.
Proof. reflexivity. Qed.

#[local] Arguments wait_loop : simpl never.

Lemma gtb_false_le (a b : Z) : a <= b -> (a >? b) = false.
Proof. intros H. rewrite Z.gtb_ltb. apply Z.ltb_ge. exact H. Qed.

Lemma gtb_true_lt (a b : Z) : b < a -> (a >? b) = true.
Proof. intros H. rewrite Z.gtb_ltb. apply Z.ltb_lt. exact H. Qed.

Lemma truthy_nonempty_str (msg : str) : msg <> [] -> truthy (JStr msg) = true.
Proof. destruct msg; [congruence | reflexivity]. Qed.

(** What [check_job_status] does when the request fails: the error is
    logged and the pair (False, message) returned. *)
Lemma check_job_status_transport_error E job_id w msg :
  status_reply E job_id (status_requests w) = HttpFails msg ->
  check_job_status E job_id w =
    (Ok (false, JStr msg),
     World (now w + Z.of_N (status_latency E job_id (status_requests w)))
           (S (status_requests w)) (sleeps w) (chat_requests w)
           (log w ++ [Log ERROR "檢查任務狀態失敗: {str(e)}" [LExn (RequestException msg)]])
           (files w)).
Proof.
  intros H. unfold check_job_status, try_except, bind, get_status.
  rewrite H. reflexivity.
Qed.

(** C1, as the code has it: at any iteration of the polling loop that has
    not timed out, a status request that fails with a non-empty message
    ends the wait.  [check_job_status] logs the failure, and
    [wait_for_completion] logs it as the job's error and returns False
    without polling again. *)
Theorem C1_transport_error_ends_wait
  E fuel job_id check_interval timeout start_time w msg :
  now w - start_time <= timeout ->
  status_reply E job_id (status_requests w) = HttpFails msg ->
  msg <> [] ->
  exists w',
    wait_loop E (S fuel) job_id check_interval timeout start_time w = Some (Ok false, w')
    /\ status_requests w' = S (status_requests w)
    /\ sleeps w' = sleeps w
    /\ log w' = log w ++
         [Log ERROR "檢查任務狀態失敗: {str(e)}" [LExn (RequestException msg)];
          Log ERROR "解析失敗: {error}" [LJson (JStr msg)]].
Proof.
  intros Htime Hreply Hmsg.
  rewrite wait_loop_S.
  rewrite (gtb_false_le _ _ Htime).
  rewrite (check_job_status_transport_error _ _ _ _ Hreply).
  rewrite (truthy_nonempty_str _ Hmsg).
  cbn. eexists. split; [reflexivity|].
  cbn. rewrite <- app_assoc. auto.
Qed.

Lemma C1_transport_error_ends_wait_witness :
  exists w',
    wait_loop Fixtures.flaky_env 3 Fixtures.job 5 300 1000 Fixtures.w0 = Some (Ok false, w')
    /\ status_requests w' = 1%nat
    /\ sleeps w' = 0%nat
    /\ log w' = log Fixtures.w0 ++
         [Log ERROR "檢查任務狀態失敗: {str(e)}"
            [LExn (RequestException (utf8 "Connection reset by peer"))];
          Log ERROR "解析失敗: {error}" [LJson (JStr (utf8 "Connection reset by peer"))]].
Proof.
  apply (C1_transport_error_ends_wait Fixtures.flaky_env 2 Fixtures.job 5 300 1000
           Fixtures.w0 (utf8 "Connection reset by peer")).
  - vm_compute. discriminate.
  - reflexivity.
  - vm_compute. discriminate.
Defined.

(** C1 as stated fails: one failed status request makes
    [wait_for_completion] return False after that single request, although
    the next request would have found the job completed. *)
Lemma C1_counterexample :
  status_reply Fixtures.flaky_env Fixtures.job 0 = HttpFails (utf8 "Connection reset by peer")
  /\ status_reply Fixtures.flaky_env Fixtures.job 1 = Fixtures.completed
  /\ exists w',
       wait_for_completion Fixtures.flaky_env 100 Fixtures.job 5 300 Fixtures.w0
         = Some (Ok false, w')
       /\ status_requests w' = 1%nat
       /\ sleeps w' = 0%nat.
Proof.
  split; [reflexivity|]. split; [reflexivity|].
  eexists. split; [vm_compute; reflexivity|]. split; reflexivity.
Qed.

(** What one call of [check_job_status] does to the world, and what it
    can return. *)
Lemma check_job_status_cases E job_id w :
  exists r w1,
    check_job_status E job_id w = (r, w1)
    /\ now w1 = now w + Z.of_N (status_latency E job_id (status_requests w))
    /\ status_requests w1 = S (status_requests w)
    /\ sleeps w1 = sleeps w
    /\ files w1 = files w
    /\ match r with
       | Raise e =>
           e = AttributeError
           /\ exists body, status_reply E job_id (status_requests w) = HttpJson body
                           /\ forall d, body <> JObj d
       | Ok (is_done, error) =>
           truthy error = true ->
           Outcome.error_source E job_id (status_requests w) error
       end.
Proof.
  unfold check_job_status, try_except, bind, get_status.
  destruct (status_reply E job_id (status_requests w)) as [msg | body] eqn:Hreply.
  - cbn. do 2 eexists. split; [reflexivity|]. cbn.
    repeat split. intros _. left. exists msg. split; [exact Hreply | reflexivity].
  - destruct body as [ | b | n | t | l | d ];
      try (cbn; do 2 eexists; split; [reflexivity|]; cbn; repeat split;
           eexists; split; [reflexivity | intros d'; discriminate]).
    cbn [py_get lift].
    set (st := match dict_lookup (utf8 "status") d with Some x => x | None => JNull end).
    destruct (eq_str st (utf8 "completed")) eqn:Hc.
    + cbn. do 2 eexists. split; [reflexivity|]. cbn. repeat split. discriminate.
    + destruct (eq_str st (utf8 "failed")) eqn:Hf.
      * cbn. do 2 eexists. split; [reflexivity|]. cbn. repeat split.
        intros _. right. exists (JObj d), st.
        repeat split; auto.
      * cbn. do 2 eexists. split; [reflexivity|]. cbn. repeat split. discriminate.
Qed.

Lemma last_log_snoc w r (l : list log_record) :
  log w = l ++ [r] -> Outcome.last_log w = Some r.
Proof.
  intros H. unfold Outcome.last_log. rewrite H, map_app. cbn.
  apply last_last.
Qed.

(** More iterations than needed change nothing. *)
Lemma wait_loop_more_fuel E job_id check_interval timeout start_time n :
  forall m w r,
    wait_loop E n job_id check_interval timeout start_time w = Some r ->
    (n <= m)%nat ->
    wait_loop E m job_id check_interval timeout start_time w = Some r.
Proof.
  induction n as [| n IH]; intros m w r Hrun Hle; [discriminate|].
  destruct m as [| m]; [lia|].
  rewrite wait_loop_S in *.
  destruct (now w - start_time >? timeout); [exact Hrun|].
  destruct (check_job_status E job_id w) as [[[is_done error] | e] w1]; [|exact Hrun].
  destruct (is_done && negb (truthy error)); [exact Hrun|].
  destruct (truthy error); [exact Hrun|].
  match type of Hrun with
  | match ?c with _ => _ end = _ => destruct c as [[u | e] w2]
  end; [|exact Hrun].
  apply IH; [exact Hrun | lia].
Qed.

Section PollerTermination.

Variable E : environment.
Variables (job_id : json) (check_interval timeout start_time latency overshoot : Z).

Hypothesis interval_positive : 0 < check_interval.
Hypothesis latency_bound : forall k, Z.of_N (status_latency E job_id k) <= latency.
Hypothesis overshoot_bound : forall k, Z.of_N (sleep_overshoot E k) <= overshoot.

Let budget : Z := Z.max 0 (timeout + check_interval + latency + overshoot).

(** The loop invariant: at the head of an iteration reached within the
    budget, with [n] intervals enough to pass the timeout, [n + 1]
    iterations end the loop, within the budget, after at most [n] more
    status requests, in one of the four terminal states. *)
Lemma wait_loop_terminates (n : nat) :
  forall w,
    now w - start_time <= budget ->
    timeout - (now w - start_time) < Z.of_nat n * check_interval ->
    exists r w',
      wait_loop E (S n) job_id check_interval timeout start_time w = Some (r, w')
      /\ now w' - start_time <= budget
      /\ (status_requests w' <= status_requests w + n)%nat
      /\ files w' = files w
      /\ Outcome.terminal E job_id timeout start_time r w'.
Proof.
  assert (Hl0 : 0 <= latency)
    by (specialize (latency_bound O); lia).
  assert (Ho0 : 0 <= overshoot)
    by (specialize (overshoot_bound O); lia).
  induction n as [| n IH]; intros w Hbudget Hmeasure.
  - (* no interval left: the timeout test fires *)
    rewrite wait_loop_S.
    rewrite gtb_true_lt by lia.
    cbn. do 2 eexists. split; [reflexivity|]. cbn.
    repeat split; try lia.
    apply Outcome.TimedOut; [cbn; lia|].
    eapply last_log_snoc. reflexivity.
  - rewrite wait_loop_S.
    destruct (now w - start_time >? timeout) eqn:Hgt.
    + cbn. do 2 eexists. split; [reflexivity|]. cbn.
      repeat split; try lia.
      apply Outcome.TimedOut; [cbn; rewrite Z.gtb_ltb in Hgt; apply Z.ltb_lt in Hgt; lia|].
      eapply last_log_snoc. reflexivity.
    + rewrite Z.gtb_ltb in Hgt. apply Z.ltb_ge in Hgt.
      destruct (check_job_status_cases E job_id w)
        as (r & w1 & Hcheck & Hnow & Hreq & Hsl & Hfiles & Hr).
      rewrite Hcheck.
      pose proof (latency_bound (status_requests w)) as Hlat.
      assert (Hlat0 : 0 <= Z.of_N (status_latency E job_id (status_requests w))) by lia.
      destruct r as [[is_done error] | e].
      * destruct (is_done && negb (truthy error)) eqn:Hdone.
        { cbn. do 2 eexists. split; [reflexivity|]. cbn.
          repeat split; try (unfold budget; lia); try assumption.
          apply Outcome.Success. eapply last_log_snoc. reflexivity. }
        destruct (truthy error) eqn:Herr.
        { cbn. do 2 eexists. split; [reflexivity|]. cbn.
          repeat split; try (unfold budget; lia); try assumption.
          apply Outcome.ReportedError with (error := error); [exact Herr | |].
          - cbn. rewrite Hreq. cbn. apply Hr. reflexivity.
          - eapply last_log_snoc. reflexivity. }
        unfold bind, logger, sleep. cbn.
        assert (Hneg : (check_interval <? 0) = false) by (apply Z.ltb_ge; lia).
        rewrite Hneg.
        pose proof (overshoot_bound (sleeps w1)) as Hov.
        match goal with
        | |- exists r w', wait_loop _ _ _ _ _ _ ?w2 = _ /\ _ =>
            destruct (IH w2) as (r & w' & Hrun & Hb & Hq & Hf & Hterm)
        end.
        { cbn. unfold budget. lia. }
        { cbn. lia. }
        exists r, w'. split; [exact Hrun|].
        cbn in Hq, Hf.
        repeat split; try assumption; try lia. congruence.
      * destruct Hr as (-> & body & Hbody & Hnot).
        do 2 eexists. split; [reflexivity|].
        repeat split; try (unfold budget; lia); try assumption.
        apply Outcome.MalformedStatus with (body := body); [|exact Hnot].
        rewrite Hreq. exact Hbody.
Qed.

End PollerTermination.

(** C2, as the code has it: for a positive poll interval
    [wait_for_completion] ends after at most [timeout / check_interval + 1]
    status requests, provided every request returns and every sleep ends.
    With requests taking at most [latency] and sleeps overrunning by at
    most [overshoot] it returns no later than
    [timeout + check_interval + latency + overshoot] after it started
    (the timeout is only tested at the head of an iteration, and reported
    once the elapsed time exceeds it).  It ends in success, in a reported
    error (the service's failure, or a failed status request), in a
    timeout, or in the exception raised on a status body that is not a
    JSON object.  It writes no file. *)
Theorem C2_wait_for_completion_terminates
  E job_id check_interval timeout latency overshoot w :
  0 < check_interval ->
  (forall k, Z.of_N (status_latency E job_id k) <= latency) ->
  (forall k, Z.of_N (sleep_overshoot E k) <= overshoot) ->
  let polls := Z.to_nat (Z.max 0 (timeout / check_interval + 1)) in
  exists r w',
    (forall fuel, (polls < fuel)%nat ->
       wait_for_completion E fuel job_id check_interval timeout w = Some (r, w'))
    /\ now w' - now w <= Z.max 0 (timeout + check_interval + latency + overshoot)
    /\ (status_requests w' <= status_requests w + polls)%nat
    /\ files w' = files w
    /\ Outcome.terminal E job_id timeout (now w) r w'.
Proof.
  intros Hint Hlat Hov polls.
  assert (Hl0 : 0 <= latency) by (specialize (Hlat O); lia).
  assert (Ho0 : 0 <= overshoot) by (specialize (Hov O); lia).
  unfold wait_for_completion, logger.
  match goal with
  | |- exists r w', (forall fuel, _ -> wait_loop _ _ _ _ _ _ ?w0 = _) /\ _ =>
      destruct (wait_loop_terminates E job_id check_interval timeout (now w)
                  latency overshoot Hint Hlat Hov polls w0)
        as (r & w' & Hrun & Hb & Hq & Hf & Hterm)
  end.
  - cbn. lia.
  - cbn. subst polls.
    pose proof (Z.div_mod timeout check_interval ltac:(lia)) as Hdm.
    pose proof (Z.mod_pos_bound timeout check_interval Hint) as Hmod.
    destruct (Z.max_spec 0 (timeout / check_interval + 1)) as [[Hc Hm] | [Hc Hm]];
      rewrite Z2Nat.id by lia; nia.
  - exists r, w'. split.
    + intros fuel Hfuel.
      apply (wait_loop_more_fuel _ _ _ _ _ _ _ _ _ Hrun). lia.
    + cbn in Hb, Hq, Hf, Hterm. auto.
Qed.

Lemma C2_wait_for_completion_terminates_witness :
  exists r w',
    (forall fuel, (61 < fuel)%nat ->
       wait_for_completion Fixtures.stuck_env fuel Fixtures.job 5 300 Fixtures.w0
         = Some (r, w'))
    /\ now w' - now Fixtures.w0 <= Z.max 0 (300 + 5 + 0 + 0)
    /\ (status_requests w' <= status_requests Fixtures.w0 + 61)%nat
    /\ files w' = files Fixtures.w0
    /\ Outcome.terminal Fixtures.stuck_env Fixtures.job 300 (now Fixtures.w0) r w'.
Proof.
  apply (C2_wait_for_completion_terminates Fixtures.stuck_env Fixtures.job 5 300 0 0
           Fixtures.w0).
  - lia.
  - intros k. cbn. lia.
  - intros k. cbn. lia.
Defined.

(** C2 as stated fails twice.  With the job pending throughout, a timeout
    of 300 and an interval of 5, the wait ends 305 ticks after it started:
    the timeout is reported only once it has been exceeded.  And a wait
    can end in a fourth way: a failed status request ends it with False
    at once, though the service never reported a failure and no time has
    passed. *)
Lemma C2_counterexample :
  (exists w',
     wait_for_completion Fixtures.stuck_env 100 Fixtures.job 5 300 Fixtures.w0
       = Some (Ok false, w')
     /\ now w' - now Fixtures.w0 = 305
     /\ status_requests w' = 61%nat)
  /\ (exists w',
        wait_for_completion Fixtures.flaky_env 100 Fixtures.job 5 300 Fixtures.w0
          = Some (Ok false, w')
        /\ now w' - now Fixtures.w0 = 0
        /\ forall k body,
             status_reply Fixtures.flaky_env Fixtures.job k = HttpJson body ->
             HttpJson body = Fixtures.completed).
Proof.
  split.
  - eexists. split; [vm_compute; reflexivity|]. split; reflexivity.
  - eexists. split; [vm_compute; reflexivity|]. split; [reflexivity|].
    intros [| k] body H; cbn in H; [discriminate | exact (eq_sym H)].
Qed.

(** A job reported as failed with an error that Python counts as true
    (any non-empty message, or the fixed one when the answer carries no
    error) ends the wait with False. *)
Lemma failed_job_with_message_ends_wait
  E fuel job_id check_interval timeout start_time w body st error :
  now w - start_time <= timeout ->
  status_reply E job_id (status_requests w) = HttpJson body ->
  py_get body (utf8 "status") JNull = Ok st ->
  eq_str st (utf8 "failed") = true ->
  py_get body (utf8 "error") UNKNOWN_ERROR = Ok error ->
  truthy error = true ->
  exists w',
    wait_loop E (S fuel) job_id check_interval timeout start_time w = Some (Ok false, w')
    /\ files w' = files w
    /\ Outcome.last_log w' = Some (Log ERROR "解析失敗: {error}" [LJson error]).
Proof.
  intros Htime Hreply Hst Hfailed Herror Htruthy.
  rewrite wait_loop_S, (gtb_false_le _ _ Htime).
  unfold check_job_status, try_except, bind, get_status, lift.
  rewrite Hreply, Hst.
  assert (Hc : eq_str st (utf8 "completed") = false).
  { destruct st as [ | | | t | | ]; try discriminate. cbn in Hfailed |- *.
    apply str_eqb_eq in Hfailed. subst t. reflexivity. }
  rewrite Hc, Hfailed, Herror. cbn.
  rewrite Htruthy. cbn.
  eexists. split; [reflexivity|]. split; [reflexivity|].
  eapply last_log_snoc. reflexivity.
Qed.

(** C3 at the failing input: the service answers that the job failed,
    with the empty string as its error.  [check_job_status] returns True
    and the empty message, which counts as no error, and
    [wait_for_completion] logs that parsing is complete and returns True.
    [process_report] goes on to fetch and analyse the result; where the
    service still serves one, a spreadsheet is written and the exit code
    is 0. *)
Theorem C3_failed_job_with_empty_error_passes_for_complete :
  status_reply Fixtures.failed_empty_env Fixtures.job 0 = Fixtures.failed_empty
  /\ (exists w',
        wait_for_completion Fixtures.failed_empty_env 100 Fixtures.job 5 300 Fixtures.w0
          = Some (Ok true, w')
        /\ status_requests w' = 1%nat
        /\ Outcome.last_log w' = Some (Log INFO "解析完成" []))
  /\ (exists w',
        process_report Fixtures.failed_empty_env 100 Fixtures.pdf Fixtures.xlsx Fixtures.w0
          = Some (true, w')
        /\ map fst (files w') = [Fixtures.xlsx])
  /\ (exists w',
        main Fixtures.failed_empty_env 100 Fixtures.pdf Fixtures.xlsx Fixtures.w0
          = Some (0, w')).
Proof.
  split; [reflexivity|].
  split; [eexists; split; [vm_compute; reflexivity | split; reflexivity]|].
  split; [eexists; split; [vm_compute; reflexivity | reflexivity]|].
  eexists. vm_compute. reflexivity.
Qed.

(** The scenario of the specification, with its non-empty message, runs
    as C3 says: failure, no spreadsheet, exit code 1. *)
Example failed_job_scenario :
  exists w',
    main Fixtures.failed_corrupt_env 100 Fixtures.pdf Fixtures.xlsx Fixtures.w0
      = Some (1, w')
    /\ files w' = []
    /\ status_requests w' = 1%nat
    /\ chat_requests w' = [].
Proof.
  eexists. split; [vm_compute; reflexivity|]. repeat split.
Qed.

(** ** What a computation leaves alone *)

Section Keeps.

Context {F : Type} (f : world -> F).

Lemma keeps_ret {A} (a : A) : keeps f (ret a).
Proof. intros w r w' [= _ <-]. reflexivity. Qed.

Lemma keeps_raise {A} (e : exn) : keeps f (@raise A e).
Proof. intros w r w' [= _ <-]. reflexivity. Qed.

Lemma keeps_lift {A} (r : result A) : keeps f (lift r).
Proof. intros w r' w' [= _ <-]. reflexivity. Qed.

Lemma keeps_bind {A B} (c : M A) (k : A -> M B) :
  keeps f c -> (forall a, keeps f (k a)) -> keeps f (bind c k).
Proof.
  intros Hc Hk w r w'. unfold bind.
  destruct (c w) as [[a | e] w1] eqn:Hcw.
  - intros Hrun. rewrite (Hk a _ _ _ Hrun). exact (Hc _ _ _ Hcw).
  - intros [= _ <-]. exact (Hc _ _ _ Hcw).
Qed.

Lemma keeps_try_except {A} (c : M A) (h : exn -> option (M A)) :
  keeps f c -> (forall e handler, h e = Some handler -> keeps f handler) ->
  keeps f (try_except c h).
Proof.
  intros Hc Hh w r w'. unfold try_except.
  destruct (c w) as [[a | e] w1] eqn:Hcw.
  - intros [= _ <-]. exact (Hc _ _ _ Hcw).
  - destruct (h e) as [handler |] eqn:He.
    + intros Hrun. rewrite (Hh _ _ He _ _ _ Hrun). exact (Hc _ _ _ Hcw).
    + intros [= _ <-]. exact (Hc _ _ _ Hcw).
Qed.

Lemma keeps_for_each {A S} (body : S -> A -> M S) :
  (forall acc x, keeps f (body acc x)) ->
  forall l acc, keeps f (for_each body acc l).
Proof.
  intros Hbody l. induction l as [| x l IH]; intros acc; cbn [for_each].
  - apply keeps_ret.
  - apply keeps_bind; [apply Hbody | intros acc'; apply IH].
Qed.

Lemma keeps_loads E content : keeps f (loads E content).
Proof. apply keeps_lift. Qed.

End Keeps.

Lemma logger_keeps_files lv text args : keeps files (logger lv text args).
Proof. intros w r w' [= _ <-]. reflexivity. Qed.

Lemma logger_keeps_chat_requests lv text args : keeps chat_requests (logger lv text args).
Proof. intros w r w' [= _ <-]. reflexivity. Qed.

Lemma keeps_chat_completion E user : keeps files (chat_completion E user).
Proof.
  intros w r w'. unfold chat_completion.
  destruct (chat_reply E (length (chat_requests w)) user); intros [= _ <-]; reflexivity.
Qed.

Create HintDb frame.
#[local] Hint Resolve keeps_ret keeps_raise keeps_lift logger_keeps_files
  logger_keeps_chat_requests keeps_chat_completion keeps_loads : frame.

(** Splits a computation along its binds, handlers and loops, and closes
    the leaves with the hints. *)
Ltac frame :=
  repeat first
    [ progress intros
    | progress cbv beta in *
    | apply keeps_bind
    | apply keeps_for_each
    | apply keeps_try_except
    | match goal with
      | H : Some _ = Some _ |- _ => injection H as <-
      | H : None = Some _ |- _ => discriminate H
      | H : (if ?b then _ else _) = Some _ |- _ => destruct b
      | H : match ?e with _ => _ end = Some _ |- _ => destruct e
      | |- keeps _ (if ?b then _ else _) => destruct b
      | |- keeps _ (match ?x with _ => _ end) => destruct x
      end
    | solve [auto with frame] ].

Lemma keeps_validate warning items : keeps_files (validate warning items).
Proof. unfold validate, validate_item. frame. Qed.

Lemma validate_keeps_chat_requests warning items :
  keeps chat_requests (validate warning items).
Proof. unfold validate, validate_item. frame. Qed.

Lemma keeps_analyze_with_gpt4_try E text page_num :
  keeps_files (analyze_with_gpt4_try E text page_num).
Proof. unfold analyze_with_gpt4_try, loads. frame. Qed.

Lemma keeps_analyze_with_gpt4 E text page_num :
  keeps_files (analyze_with_gpt4 E text page_num).
Proof. unfold analyze_with_gpt4. frame. Qed.

Lemma keeps_integrate_results E all_results :
  keeps_files (integrate_results E all_results).
Proof.
  unfold integrate_results, integrate_results_try, loads. frame.
Qed.

#[local] Hint Resolve keeps_validate keeps_analyze_with_gpt4_try
  keeps_analyze_with_gpt4 keeps_integrate_results : frame.

Lemma keeps_collect_pages E result : keeps_files (collect_pages E result).
Proof. unfold collect_pages, process_page, page_text_of, page_text_item. frame. Qed.

Lemma keeps_process_content E result : keeps_files (process_content E result).
Proof. unfold process_content. frame. Qed.

Lemma keeps_get_result E job_id : keeps_files (get_result E job_id).
Proof. unfold get_result. frame. Qed.

#[local] Hint Resolve keeps_collect_pages keeps_process_content keeps_get_result : frame.

(** ** The annotator and the integrator *)

(** [self.integration_prompt.format(previous_results=...)] raises for
    every argument: after [{previous_results}] the template's next single
    brace opens a field whose name, the text up to the colon after
    ["items"], is no keyword argument. *)
Lemma integration_prompt_format_raises (previous_results : str) :
  py_format integration_prompt [(utf8 "previous_results", previous_results)]
  = Raise (KeyError ([NEWLINE; SPACE; SPACE; SPACE; SPACE; QUOTE] ++ utf8 "items" ++ [QUOTE])).
Proof. vm_compute. reflexivity. Qed.

(** So the [try] block of [integrate_results] raises before it reaches
    the model. *)
Lemma integrate_results_try_raises E all_results w :
  integrate_results_try E all_results w
  = (Raise (KeyError ([NEWLINE; SPACE; SPACE; SPACE; SPACE; QUOTE] ++ utf8 "items" ++ [QUOTE])), w).
Proof.
  unfold integrate_results_try, bind, lift.
  rewrite integration_prompt_format_raises. reflexivity.
Qed.

(** C4: whenever the [try] block of [integrate_results] raises, be it in
    the call of the model, in [json.loads] or anywhere else,
    [integrate_results] logs the error and returns the list it was given,
    the same records in the same order.  It sends nothing more and writes
    no file. *)
Theorem C4_integrate_results_falls_back_to_input E all_results w e w1 :
  integrate_results_try E all_results w = (Raise e, w1) ->
  exists w',
    integrate_results E all_results w = (Ok all_results, w')
    /\ chat_requests w' = chat_requests w1
    /\ files w' = files w1
    /\ exists text, log w' = log w1 ++ [Log ERROR text [LExn e]].
Proof.
  intros Htry. unfold integrate_results, try_except. rewrite Htry.
  destruct (is_JSONDecodeError e); cbn;
    (eexists; split; [reflexivity|]; cbn; repeat split; eexists; reflexivity).
Qed.

Lemma C4_integrate_results_falls_back_to_input_witness :
  exists w',
    integrate_results Fixtures.offline_env [Fixtures.scenario_record; JNull] Fixtures.w0
      = (Ok [Fixtures.scenario_record; JNull], w')
    /\ chat_requests w' = chat_requests Fixtures.w0
    /\ files w' = files Fixtures.w0
    /\ exists text,
         log w' = log Fixtures.w0 ++
           [Log ERROR text
              [LExn (KeyError ([NEWLINE; SPACE; SPACE; SPACE; SPACE; QUOTE]
                               ++ utf8 "items" ++ [QUOTE]))]].
Proof.
  apply (C4_integrate_results_falls_back_to_input Fixtures.offline_env
           [Fixtures.scenario_record; JNull] Fixtures.w0 _ Fixtures.w0).
  vm_compute. reflexivity.
Defined.

(** [analyze_with_gpt4] never raises, whatever the model answers. *)
Lemma analyze_with_gpt4_never_raises E text page_num w :
  exists results w', analyze_with_gpt4 E text page_num w = (Ok results, w').
Proof.
  unfold analyze_with_gpt4, try_except.
  destruct (analyze_with_gpt4_try E text page_num w) as [[results | e] w1]; cbn;
    do 2 eexists; reflexivity.
Qed.

(** A failed call and an answer that [json.loads] rejects both make the
    [try] block raise. *)
Lemma analyze_with_gpt4_try_bad_reply E text page_num w :
  (exists msg,
     chat_reply E (length (chat_requests w)) (AnalyzePrompt page_num text) = ChatFails msg)
  \/ (exists content,
        chat_reply E (length (chat_requests w)) (AnalyzePrompt page_num text)
          = ChatContent content
        /\ json_loads E content = None) ->
  exists e w1, analyze_with_gpt4_try E text page_num w = (Raise e, w1).
Proof.
  unfold analyze_with_gpt4_try, bind, chat_completion, loads, lift.
  intros [(msg & Hreply) | (content & Hreply & Hloads)]; rewrite Hreply.
  - eauto.
  - rewrite Hloads. eauto.
Qed.

(** C5: when the call of the model fails, when its answer is not valid
    JSON, or when anything else in the [try] block raises,
    [analyze_with_gpt4] returns the empty list; the exception is logged,
    not propagated, and no file is written. *)
Theorem C5_analyze_with_gpt4_isolates_failure E text page_num w :
  (exists msg,
     chat_reply E (length (chat_requests w)) (AnalyzePrompt page_num text) = ChatFails msg)
  \/ (exists content,
        chat_reply E (length (chat_requests w)) (AnalyzePrompt page_num text)
          = ChatContent content
        /\ json_loads E content = None)
  \/ (exists e w1, analyze_with_gpt4_try E text page_num w = (Raise e, w1)) ->
  exists w',
    analyze_with_gpt4 E text page_num w = (Ok [], w')
    /\ files w' = files w
    /\ exists e, Outcome.last_log w' = Some (Log ERROR "GPT-4 分析失敗: {str(e)}" [LExn e]).
Proof.
  intros H.
  assert (Hraise : exists e w1, analyze_with_gpt4_try E text page_num w = (Raise e, w1)).
  { destruct H as [H | [H | H]]; [| | exact H];
      apply analyze_with_gpt4_try_bad_reply; [left | right]; exact H. }
  destruct Hraise as (e & w1 & Htry).
  pose proof (keeps_analyze_with_gpt4_try E text page_num _ _ _ Htry) as Hfiles.
  unfold analyze_with_gpt4, try_except. rewrite Htry. cbn.
  eexists. split; [reflexivity|]. split; [exact Hfiles|].
  exists e. eapply last_log_snoc. reflexivity.
Qed.

Lemma C5_analyze_with_gpt4_isolates_failure_witness :
  exists w',
    analyze_with_gpt4 Fixtures.babbling_env (utf8 "Scope 1 emissions: 100 t") (JNum 1)
      Fixtures.w0 = (Ok [], w')
    /\ files w' = files Fixtures.w0
    /\ exists e, Outcome.last_log w' = Some (Log ERROR "GPT-4 分析失敗: {str(e)}" [LExn e]).
Proof.
  apply (C5_analyze_with_gpt4_isolates_failure Fixtures.babbling_env
           (utf8 "Scope 1 emissions: 100 t") (JNum 1) Fixtures.w0).
  right. left. exists Fixtures.not_json. split; reflexivity.
Defined.

(** ** Validation of the records the model returns *)

Import Records.

Lemma bind_ok_inv {A B} (c : M A) (k : A -> M B) w b w' :
  bind c k w = (Ok b, w') ->
  exists a w1, c w = (Ok a, w1) /\ k a w1 = (Ok b, w').
Proof.
  unfold bind. destruct (c w) as [[a | e] w1]; [eauto | discriminate].
Qed.

Lemma lift_ok_inv {A} (r : result A) w a w' :
  lift r w = (Ok a, w') -> r = Ok a /\ w' = w.
Proof. unfold lift. intros [= -> ->]. auto. Qed.

Lemma try_except_ok_inv {A} (c : M A) (h : exn -> option (M A)) w a w' :
  try_except c h w = (Ok a, w') ->
  c w = (Ok a, w')
  \/ exists e w1 handler, c w = (Raise e, w1) /\ h e = Some handler
                          /\ handler w1 = (Ok a, w').
Proof.
  unfold try_except. destruct (c w) as [[a0 | e] w1].
  - intros [= -> ->]. left. reflexivity.
  - destruct (h e) as [handler |] eqn:He; [|discriminate].
    intros Hrun. right. eauto 6.
Qed.

(** Takes a successful run apart along its binds. *)
Ltac invert_run :=
  repeat match goal with
    | H : bind _ _ _ = (Ok _, _) |- _ =>
        let a := fresh "a" in
        let w := fresh "w" in
        let Hc := fresh "Hc" in
        apply bind_ok_inv in H as (a & w & Hc & H)
    | H : lift _ _ = (Ok _, _) |- _ => apply lift_ok_inv in H as [H ->]
    | H : ret _ _ = (Ok _, _) |- _ => unfold ret in H; injection H as <- <-
    end.

(** A property of the accumulator that each iteration keeps holds after
    the loop. *)
Lemma for_each_invariant {A S} (P : S -> Prop) (body : S -> A -> M S) :
  (forall acc x w acc' w', P acc -> body acc x w = (Ok acc', w') -> P acc') ->
  forall l acc w out w',
    P acc -> for_each body acc l w = (Ok out, w') -> P out.
Proof.
  intros Hbody l. induction l as [| x l IH]; intros acc w out w' Hacc Hrun;
    cbn [for_each] in Hrun.
  - invert_run. exact Hacc.
  - invert_run. eapply IH; [|exact Hrun]. eapply Hbody; eassumption.
Qed.

Lemma all_in_complete (keys : list str) (x : json) :
  all_in keys x = Ok true <-> Forall (fun k => py_contains k x = Ok true) keys.
Proof.
  induction keys as [| k keys IH]; cbn [all_in].
  - split; auto.
  - destruct (py_contains k x) as [[|] | e] eqn:Hk.
    + rewrite IH. split; [intros H; constructor; assumption | intros H; inversion H; assumption].
    + split; [discriminate | intros H; inversion H; congruence].
    + split; [discriminate | intros H; inversion H; congruence].
Qed.

Lemma complete_b_complete (x : json) : complete_b x = true <-> complete x.
Proof.
  unfold complete_b, complete. rewrite <- all_in_complete.
  destruct (all_in REQUIRED_FIELDS x) as [[|] | e]; split; congruence.
Qed.

(** On a record the membership test is a lookup. *)
Lemma complete_record (d : dict) : complete (JObj d) -> binds_all_fields d.
Proof.
  unfold complete, binds_all_fields. intros H k Hk.
  rewrite Forall_forall in H. specialize (H k Hk). cbn in H.
  destruct (dict_lookup k d) as [v |]; [eauto | discriminate].
Qed.

(** The validation loop never raises on a record. *)
Lemma all_in_record (keys : list str) (d : dict) :
  exists b, all_in keys (JObj d) = Ok b.
Proof.
  induction keys as [| k keys IH]; cbn [all_in py_contains]; [eauto|].
  destruct (dict_lookup k d); [exact IH | eauto].
Qed.

Lemma add_log_nil w : add_log w [] = w.
Proof. destruct w. unfold add_log. cbn. rewrite app_nil_r. reflexivity. Qed.

Lemma add_log_add_log w a b : add_log (add_log w a) b = add_log w (a ++ b).
Proof. unfold add_log. cbn. rewrite app_assoc. reflexivity. Qed.

(** Every element the validation loop keeps passed its test. *)
Lemma validate_complete warning items w out w' :
  validate warning items w = (Ok out, w') -> Forall complete out.
Proof.
  unfold validate. intros Hrun. invert_run.
  eapply (for_each_invariant (Forall complete)); [| constructor | exact Hrun].
  clear. intros acc x w acc' w' Hacc Hbody. unfold validate_item in Hbody.
  apply bind_ok_inv in Hbody as (ok & w1 & Hcheck & Hbody).
  apply lift_ok_inv in Hcheck as [Hcheck ->].
  destruct ok.
  - invert_run. apply Forall_app. split; [exact Hacc|].
    constructor; [|constructor]. apply all_in_complete. exact Hcheck.
  - invert_run. exact Hacc.
Qed.

Lemma validate_loop warning (records : list json) :
  Forall is_record records ->
  forall acc w,
    for_each (validate_item warning) acc records w
    = (Ok (acc ++ filter complete_b records), add_log w (skipped warning records)).
Proof.
  induction 1 as [| r records [d ->] Hrec IH]; intros acc w.
  - cbn. rewrite app_nil_r, add_log_nil. reflexivity.
  - cbn [for_each]. unfold bind at 1. unfold validate_item at 1.
    unfold bind at 1. cbn [lift].
    unfold skipped, complete_b. cbn [filter map].
    destruct (all_in_record REQUIRED_FIELDS d) as [b Hb]. rewrite Hb.
    destruct b; cbn [negb map].
    + unfold ret at 1. rewrite IH, <- app_assoc. reflexivity.
    + unfold bind at 1, logger at 1, ret at 1.
      match goal with
      | |- for_each _ _ _ ?w1 = _ =>
          change w1 with (add_log w [Log WARNING warning [LJson (JObj d)]])
      end.
      rewrite IH, add_log_add_log. reflexivity.
Qed.

(** On a list of records the loop keeps exactly the complete ones, in
    order, and logs one warning for each of the others. *)
Lemma validate_records warning (records : list json) w :
  Forall is_record records ->
  validate warning (JArr records) w
  = (Ok (filter complete_b records), add_log w (skipped warning records)).
Proof.
  intros Hrec. unfold validate, bind, lift. cbn [py_iter].
  apply (validate_loop warning records Hrec []).
Qed.

Lemma analyze_with_gpt4_complete E text page_num w results w' :
  analyze_with_gpt4 E text page_num w = (Ok results, w') -> Forall complete results.
Proof.
  unfold analyze_with_gpt4. intros Hrun.
  apply try_except_ok_inv in Hrun as [Htry | (e & w1 & handler & _ & Hh & Hrun)].
  - unfold analyze_with_gpt4_try in Htry. invert_run.
    eapply validate_complete. exact Htry.
  - injection Hh as <-. invert_run. constructor.
Qed.

Lemma integrate_results_complete E all_results w results w' :
  Forall complete all_results ->
  integrate_results E all_results w = (Ok results, w') -> Forall complete results.
Proof.
  unfold integrate_results. intros Hall Hrun.
  apply try_except_ok_inv in Hrun as [Htry | (e & w1 & handler & _ & Hh & Hrun)].
  - unfold integrate_results_try in Htry. invert_run.
    eapply validate_complete. exact Htry.
  - destruct (is_JSONDecodeError e); injection Hh as <-; invert_run; exact Hall.
Qed.

Lemma process_page_complete E all_results page w out w' :
  Forall complete all_results ->
  process_page E all_results page w = (Ok out, w') -> Forall complete out.
Proof.
  unfold process_page. intros Hall Hrun.
  apply bind_ok_inv in Hrun as (page_num & w1 & _ & Hrun).
  apply bind_ok_inv in Hrun as (u & w2 & _ & Hrun).
  apply bind_ok_inv in Hrun as ([|] & w3 & _ & Hrun).
  - apply bind_ok_inv in Hrun as (items & w4 & _ & Hrun).
    apply bind_ok_inv in Hrun as (item_list & w5 & _ & Hrun).
    apply bind_ok_inv in Hrun as ([| t page_text] & w6 & _ & Hrun).
    + invert_run. exact Hall.
    + apply bind_ok_inv in Hrun as (results & w7 & Hanalyze & Hrun).
      invert_run. apply Forall_app. split; [exact Hall|].
      eapply analyze_with_gpt4_complete. exact Hanalyze.
  - invert_run. exact Hall.
Qed.

Lemma collect_pages_complete E result w all_results w' :
  collect_pages E result w = (Ok all_results, w') -> Forall complete all_results.
Proof.
  unfold collect_pages. intros Hrun.
  apply bind_ok_inv in Hrun as (pages & w1 & _ & Hrun).
  apply bind_ok_inv in Hrun as (total & w2 & _ & Hrun).
  apply bind_ok_inv in Hrun as (u & w3 & _ & Hrun).
  apply bind_ok_inv in Hrun as (page_list & w4 & _ & Hrun).
  apply bind_ok_inv in Hrun as (acc & w5 & Hloop & Hrun).
  invert_run.
  eapply (for_each_invariant (Forall complete)); [| constructor | exact Hloop].
  intros. eapply process_page_complete; eassumption.
Qed.

Lemma process_content_complete E result w data w' :
  process_content E result w = (Ok data, w') -> Forall complete data.
Proof.
  unfold process_content. intros Hrun.
  apply bind_ok_inv in Hrun as (all_results & w1 & Hcollect & Hrun).
  eapply integrate_results_complete; [|exact Hrun].
  eapply collect_pages_complete. exact Hcollect.
Qed.

(** C6: every element of the list [analyze_with_gpt4] returns contains
    the four fields, and so does every element [integrate_results]
    returns for a list of such elements; hence so do the elements
    [process_content] hands to the integrator and those it returns for
    the writer.  A record among them binds all four keys.  Of the records
    the model returns, validation keeps exactly the complete ones, in
    order, logs a warning for each of the others, and goes on. *)
Theorem C6_only_complete_records_pass E :
  (forall text page_num w results w',
      analyze_with_gpt4 E text page_num w = (Ok results, w') -> Forall complete results)
  /\ (forall all_results w results w',
        Forall complete all_results ->
        integrate_results E all_results w = (Ok results, w') -> Forall complete results)
  /\ (forall result w all_results w',
        collect_pages E result w = (Ok all_results, w') -> Forall complete all_results)
  /\ (forall result w data w',
        process_content E result w = (Ok data, w') -> Forall complete data)
  /\ (forall d, complete (JObj d) -> binds_all_fields d)
  /\ (forall warning records w,
        Forall is_record records ->
        validate warning (JArr records) w
        = (Ok (filter complete_b records), add_log w (skipped warning records))).
Proof.
  split; [intros; eapply analyze_with_gpt4_complete; eassumption|].
  split; [intros; eapply integrate_results_complete; eassumption|].
  split; [intros; eapply collect_pages_complete; eassumption|].
  split; [intros; eapply process_content_complete; eassumption|].
  split; [exact complete_record|].
  intros. apply validate_records. assumption.
Qed.

Lemma C6_only_complete_records_pass_witness :
  exists results w',
    analyze_with_gpt4 Fixtures.mixed_env (utf8 "Scope 1 emissions: 100 t") (JNum 1)
      Fixtures.w0 = (Ok results, w')
    /\ results = [Fixtures.scenario_record]
    /\ Forall complete results
    /\ validate "跳過格式不正確的項目: {item}"
         (JArr [Fixtures.scenario_record; Fixtures.partial_record]) Fixtures.w0
       = (Ok [Fixtures.scenario_record],
          add_log Fixtures.w0
            [Log WARNING "跳過格式不正確的項目: {item}" [LJson Fixtures.partial_record]]).
Proof.
  pose proof (C6_only_complete_records_pass Fixtures.mixed_env)
    as (Hanalyze & _ & _ & _ & _ & Hvalidate).
  do 2 eexists. split; [vm_compute; reflexivity|]. split; [reflexivity|]. split.
  - eapply (Hanalyze (utf8 "Scope 1 emissions: 100 t") (JNum 1) Fixtures.w0).
    vm_compute. reflexivity.
  - apply (Hvalidate "跳過格式不正確的項目: {item}"%string
             [Fixtures.scenario_record; Fixtures.partial_record] Fixtures.w0).
    repeat constructor; eexists; reflexivity.
Defined.

Lemma binds_all_fields_complete_b (d : dict) :
  binds_all_fields d -> complete_b (JObj d) = true.
Proof.
  intros H. apply complete_b_complete. unfold complete.
  apply Forall_forall. intros k Hk. destruct (H k Hk) as [v Hv].
  cbn. rewrite Hv. reflexivity.
Qed.

Lemma filter_all {A} (f : A -> bool) (l : list A) :
  Forall (fun x => f x = true) l -> filter f l = l.
Proof.
  induction 1 as [| x l Hx _ IH]; cbn; [reflexivity|]. rewrite Hx, IH. reflexivity.
Qed.

Lemma filter_none {A} (f : A -> bool) (l : list A) :
  Forall (fun x => f x = true) l -> filter (fun x => negb (f x)) l = [].
Proof.
  induction 1 as [| x l Hx _ IH]; cbn; [reflexivity|]. rewrite Hx. exact IH.
Qed.

(** C7, as the code has it: the records handed to the writer bind the
    four keys, and that is all that is checked.  Whatever values the
    model gives them, records that bind the four keys are returned by
    [analyze_with_gpt4] as they came, without a warning: a null chapter
    or an empty-string value is not looked at. *)
Theorem C7_values_pass_unchecked E :
  (forall result w data w',
      process_content E result w = (Ok data, w') ->
      Forall (fun r => forall d, r = JObj d -> binds_all_fields d) data)
  /\ (forall text page_num w content body records,
        chat_reply E (length (chat_requests w)) (AnalyzePrompt page_num text)
          = ChatContent content ->
        json_loads E content = Some body ->
        py_get body (utf8 "items") (JArr []) = Ok (JArr records) ->
        Forall (fun r => exists d, r = JObj d /\ binds_all_fields d) records ->
        exists w',
          analyze_with_gpt4 E text page_num w = (Ok records, w')
          /\ log w' = log w
          /\ files w' = files w).
Proof.
  split.
  - intros result w data w' Hrun.
    apply process_content_complete in Hrun.
    eapply Forall_impl; [|exact Hrun].
    intros r Hr d ->. apply complete_record. exact Hr.
  - intros text page_num w content body records Hreply Hloads Hitems Hrecords.
    assert (Hrec : Forall is_record records).
    { eapply Forall_impl; [|exact Hrecords]. intros r (d & -> & _). eexists. reflexivity. }
    assert (Hall : Forall (fun r => complete_b r = true) records).
    { eapply Forall_impl; [|exact Hrecords].
      intros r (d & -> & Hd). apply binds_all_fields_complete_b. exact Hd. }
    unfold analyze_with_gpt4, try_except, analyze_with_gpt4_try.
    unfold bind at 1, chat_completion at 1. rewrite Hreply.
    unfold bind at 1, loads at 1, lift at 1. rewrite Hloads.
    unfold bind at 1, lift at 1. rewrite Hitems.
    rewrite (validate_records _ _ _ Hrec).
    unfold skipped. rewrite (filter_all _ _ Hall), (filter_none _ _ Hall).
    eexists. split; [reflexivity|]. cbn. rewrite app_nil_r. split; reflexivity.
Qed.

Lemma C7_values_pass_unchecked_witness :
  exists w',
    analyze_with_gpt4 Fixtures.sloppy_env (utf8 "Scope 1 emissions: 100 t") (JNum 1)
      Fixtures.w0 = (Ok [Fixtures.sloppy_record], w')
    /\ log w' = log Fixtures.w0
    /\ files w' = files Fixtures.w0.
Proof.
  apply (proj2 (C7_values_pass_unchecked Fixtures.sloppy_env)
           (utf8 "Scope 1 emissions: 100 t") (JNum 1) Fixtures.w0
           Fixtures.sloppy_content
           (JObj [(utf8 "items", JArr [Fixtures.sloppy_record])])
           [Fixtures.sloppy_record]).
  - reflexivity.
  - reflexivity.
  - reflexivity.
  - constructor; [|constructor]. eexists. split; [reflexivity|].
    intros k Hk. cbn in Hk.
    repeat (destruct Hk as [<- | Hk]; [eexists; vm_compute; reflexivity|]).
    contradiction.
Defined.

(** C7 as stated fails: the model's record with a null chapter and an
    empty-string value comes out of [process_content] as it is, and
    [process_pdf] writes it to the spreadsheet. *)
Lemma C7_counterexample :
  well_valued Fixtures.sloppy_record = false
  /\ (exists w',
        process_content Fixtures.sloppy_env Fixtures.one_page Fixtures.w0
          = (Ok [Fixtures.sloppy_record], w'))
  /\ (exists w' book,
        process_pdf Fixtures.sloppy_env Fixtures.xlsx Fixtures.job Fixtures.w0 = (Ok tt, w')
        /\ files w' = [(Fixtures.xlsx, book)]
        /\ body book = [[Cell JNull; Cell (JStr (utf8 "內文"));
                         Cell (JStr (utf8 "碳排放量")); Cell (JStr [])]]).
Proof.
  split; [reflexivity|].
  split; [eexists; vm_compute; reflexivity|].
  do 2 eexists. split; [vm_compute; reflexivity|]. split; reflexivity.
Qed.

(** ** The writer's table *)

Lemma keep_first_length seen rs :
  (length (pd.keep_first seen rs) <= length rs)%nat.
Proof.
  revert seen. induction rs as [| r rs IH]; intros seen; cbn; [lia|].
  destruct (existsb (pd.keys_eqb (pd.row_key r)) seen); cbn.
  - specialize (IH seen). lia.
  - specialize (IH (pd.row_key r :: seen)). lia.
Qed.

(** A second pass finds nothing to drop. *)
Lemma keep_first_idempotent rs :
  forall seen, pd.keep_first seen (pd.keep_first seen rs) = pd.keep_first seen rs.
Proof.
  induction rs as [| r rs IH]; intros seen; cbn; [reflexivity|].
  destruct (existsb (pd.keys_eqb (pd.row_key r)) seen) eqn:Hseen.
  - apply IH.
  - cbn. rewrite Hseen. f_equal. apply IH.
Qed.

Lemma keep_first_hashable seen rs :
  forallb pd.hashable rs = true -> forallb pd.hashable (pd.keep_first seen rs) = true.
Proof.
  revert seen. induction rs as [| r rs IH]; intros seen; cbn; [reflexivity|].
  intros H. apply andb_true_iff in H as [Hr Hrs].
  destruct (existsb (pd.keys_eqb (pd.row_key r)) seen); cbn.
  - apply IH. exact Hrs.
  - rewrite Hr. apply IH. exact Hrs.
Qed.

Lemma drop_duplicates_spec df deduplicated :
  pd.drop_duplicates df = Ok deduplicated ->
  pd.columns deduplicated = pd.columns df
  /\ (length (pd.rows deduplicated) <= length (pd.rows df))%nat
  /\ pd.drop_duplicates deduplicated = Ok deduplicated.
Proof.
  unfold pd.drop_duplicates.
  destruct (pd.empty df) eqn:Hempty.
  - intros [= <-]. rewrite Hempty. auto.
  - destruct (forallb pd.hashable (pd.rows df)) eqn:Hhash; [|discriminate].
    intros [= <-]. cbn [pd.columns pd.rows].
    split; [reflexivity|]. split; [apply keep_first_length|].
    rewrite keep_first_hashable by exact Hhash.
    rewrite keep_first_idempotent.
    destruct df as [[| c cols] [| r rows]]; try discriminate. reflexivity.
Qed.

(** The order on sort keys. *)

Lemma str_compare_antisym a : forall b, str_compare b a = CompOpp (str_compare a b).
Proof.
  induction a as [| x a IH]; intros [| y b]; cbn; try reflexivity.
  rewrite (N.compare_antisym x y).
  destruct (x ?= y)%N; cbn; [apply IH | reflexivity | reflexivity].
Qed.

Lemma str_compare_eq a : forall b, str_compare a b = Eq -> a = b.
Proof.
  induction a as [| x a IH]; intros [| y b]; cbn; try discriminate; [reflexivity|].
  destruct (x ?= y)%N eqn:Hxy; try discriminate.
  apply N.compare_eq in Hxy. intros H. f_equal; [exact Hxy | apply IH; exact H].
Qed.

Lemma str_compare_refl a : str_compare a a = Eq.
Proof. induction a as [| x a IH]; cbn; [reflexivity|]. rewrite N.compare_refl. exact IH. Qed.

Lemma str_compare_lt_trans a : forall b c,
  str_compare a b = Lt -> str_compare b c = Lt -> str_compare a c = Lt.
Proof.
  induction a as [| x a IH]; intros [| y b] [| z c]; cbn; try discriminate; try reflexivity.
  destruct (x ?= y)%N eqn:Hxy; try discriminate;
    destruct (y ?= z)%N eqn:Hyz; try discriminate; intros Hab Hbc.
  - apply N.compare_eq in Hxy, Hyz. subst. rewrite N.compare_refl. eapply IH; eassumption.
  - apply N.compare_eq in Hxy. subst. rewrite Hyz. reflexivity.
  - apply N.compare_eq in Hyz. subst. rewrite Hxy. reflexivity.
  - rewrite N.compare_lt_iff in Hxy, Hyz.
    assert (Hxz : (x ?= z)%N = Lt) by (apply N.compare_lt_iff; lia).
    rewrite Hxz. reflexivity.
Qed.

Lemma key_compare_antisym a b : pd.key_compare b a = CompOpp (pd.key_compare a b).
Proof.
  destruct a, b; cbn; try reflexivity.
  - apply Z.compare_antisym.
  - apply str_compare_antisym.
Qed.

Lemma key_compare_eq a b : pd.key_compare a b = Eq -> a = b.
Proof.
  destruct a, b; cbn; try discriminate; try reflexivity.
  - intros H. apply Z.compare_eq in H. congruence.
  - intros H. apply str_compare_eq in H. congruence.
Qed.

Lemma key_compare_lt_trans a b c :
  pd.key_compare a b = Lt -> pd.key_compare b c = Lt -> pd.key_compare a c = Lt.
Proof.
  destruct a, b, c; cbn; try discriminate; try reflexivity.
  - rewrite !Z.compare_lt_iff. lia.
  - apply str_compare_lt_trans.
Qed.

Section RowOrder.

Variable idx : list nat.

Lemma row_compare_antisym : forall r1 r2,
  pd.row_compare idx r2 r1 = CompOpp (pd.row_compare idx r1 r2).
Proof.
  induction idx as [| i idx' IH]; intros r1 r2; cbn; [reflexivity|].
  rewrite (key_compare_antisym (pd.sort_key i r1) (pd.sort_key i r2)).
  destruct (pd.key_compare (pd.sort_key i r1) (pd.sort_key i r2)); cbn;
    [apply IH | reflexivity | reflexivity].
Qed.

Lemma row_compare_eq_l : forall r1 r2 r3,
  pd.row_compare idx r1 r2 = Eq ->
  pd.row_compare idx r1 r3 = pd.row_compare idx r2 r3.
Proof.
  induction idx as [| i idx' IH]; intros r1 r2 r3; cbn; [reflexivity|].
  destruct (pd.key_compare (pd.sort_key i r1) (pd.sort_key i r2)) eqn:H12; try discriminate.
  apply key_compare_eq in H12. rewrite H12. intros H.
  destruct (pd.key_compare (pd.sort_key i r2) (pd.sort_key i r3)); auto.
Qed.

Lemma row_compare_lt_trans : forall r1 r2 r3,
  pd.row_compare idx r1 r2 = Lt -> pd.row_compare idx r2 r3 = Lt ->
  pd.row_compare idx r1 r3 = Lt.
Proof.
  induction idx as [| i idx' IH]; intros r1 r2 r3; cbn; [discriminate|].
  destruct (pd.key_compare (pd.sort_key i r1) (pd.sort_key i r2)) eqn:H12; try discriminate;
    destruct (pd.key_compare (pd.sort_key i r2) (pd.sort_key i r3)) eqn:H23;
    try discriminate; intros Ha Hb.
  - apply key_compare_eq in H12, H23. rewrite H12, H23.
    assert (Hrefl : forall k, pd.key_compare k k = Eq).
    { intros [| n | t]; cbn; [reflexivity | apply Z.compare_refl | apply str_compare_refl]. }
    rewrite Hrefl. eapply IH; eassumption.
  - apply key_compare_eq in H12. rewrite H12, H23. reflexivity.
  - apply key_compare_eq in H23. rewrite <- H23, H12. reflexivity.
  - rewrite (key_compare_lt_trans _ _ _ H12 H23). reflexivity.
Qed.

Lemma row_le_total r1 r2 : row_le idx r1 r2 \/ row_le idx r2 r1.
Proof.
  unfold row_le, pd.row_leb. rewrite (row_compare_antisym r1 r2).
  destruct (pd.row_compare idx r1 r2); cbn; auto.
Qed.

Lemma row_le_trans r1 r2 r3 : row_le idx r1 r2 -> row_le idx r2 r3 -> row_le idx r1 r3.
Proof.
  unfold row_le, pd.row_leb.
  destruct (pd.row_compare idx r1 r2) eqn:H12; try discriminate; intros _.
  - rewrite (row_compare_eq_l _ _ r3 H12). auto.
  - destruct (pd.row_compare idx r2 r3) eqn:H23; try discriminate; intros _.
    + rewrite row_compare_antisym in H23.
      assert (H32 : pd.row_compare idx r3 r2 = Eq)
        by (destruct (pd.row_compare idx r3 r2); cbn in H23; congruence).
      pose proof (row_compare_eq_l _ _ r1 H32) as H.
      rewrite (row_compare_antisym r1 r3), (row_compare_antisym r1 r2), H12 in H.
      destruct (pd.row_compare idx r1 r3); cbn in H; congruence.
    + rewrite (row_compare_lt_trans _ _ _ H12 H23). reflexivity.
Qed.

Lemma insert_permutation r : forall rs, Permutation (r :: rs) (pd.insert idx r rs).
Proof.
  induction rs as [| r' rs IH]; cbn; [apply Permutation_refl|].
  destruct (pd.row_leb idx r r'); [apply Permutation_refl|].
  eapply Permutation_trans; [apply perm_swap|]. apply perm_skip. exact IH.
Qed.

Lemma insert_sorted r : forall rs,
  StronglySorted (row_le idx) rs -> StronglySorted (row_le idx) (pd.insert idx r rs).
Proof.
  induction rs as [| r' rs IH]; cbn; intros Hs.
  - constructor; constructor.
  - destruct (pd.row_leb idx r r') eqn:Hle.
    + constructor; [exact Hs|].
      constructor; [exact Hle|].
      apply StronglySorted_inv in Hs as [_ Hall].
      eapply Forall_impl; [|exact Hall].
      intros r'' H. eapply row_le_trans; [exact Hle | exact H].
    + apply StronglySorted_inv in Hs as [Hs Hall].
      constructor; [apply IH; exact Hs|].
      assert (Hr : row_le idx r' r)
        by (destruct (row_le_total r r') as [H | H]; [unfold row_le in H; congruence | exact H]).
      eapply Permutation_Forall; [apply insert_permutation|].
      constructor; assumption.
Qed.

Lemma sort_rows_sorted rs : StronglySorted (row_le idx) (pd.sort_rows idx rs).
Proof.
  induction rs as [| r rs IH]; cbn; [constructor | apply insert_sorted; exact IH].
Qed.

Lemma sort_rows_permutation rs : Permutation rs (pd.sort_rows idx rs).
Proof.
  induction rs as [| r rs IH]; cbn; [constructor|].
  eapply Permutation_trans; [apply perm_skip; exact IH | apply insert_permutation].
Qed.

End RowOrder.

Lemma mapM_ok {A B} (f : A -> result B) (l : list A) (ys : list B) :
  mapM f l = Ok ys -> Forall2 (fun x y => f x = Ok y) l ys.
Proof.
  revert ys. induction l as [| x l IH]; intros ys; cbn.
  - intros [= <-]. constructor.
  - destruct (f x) as [y | e] eqn:Hx; [|discriminate].
    destruct (mapM f l) as [ys' | e]; [|discriminate].
    intros [= <-]. constructor; [exact Hx | apply IH; reflexivity].
Qed.

Lemma sort_values_spec by_ df sorted :
  pd.sort_values by_ df = Ok sorted ->
  pd.columns sorted = pd.columns df
  /\ exists idx,
       positions by_ (pd.columns df) idx
       /\ pd.rows sorted = pd.sort_rows idx (pd.rows df).
Proof.
  unfold pd.sort_values.
  destruct (mapM _ by_) as [idx | e] eqn:Hidx; [|discriminate].
  destruct (mapM _ idx) as [us | e]; [|discriminate].
  intros [= <-]. cbn. split; [reflexivity|].
  exists idx. split; [|reflexivity].
  apply mapM_ok in Hidx. unfold positions.
  eapply Forall2_impl; [|exact Hidx].
  intros c i H. cbn in H. destruct (pd.label_index c (pd.columns df)); congruence.
Qed.

Lemma as_dicts_length data ds : pd.as_dicts data = Some ds -> length ds = length data.
Proof.
  revert ds. induction data as [| x data IH]; intros ds; cbn.
  - intros [= <-]. reflexivity.
  - destruct x; try discriminate.
    destruct (pd.as_dicts data) as [ds' |]; [|discriminate].
    intros [= <-]. cbn. f_equal. apply IH. reflexivity.
Qed.

Lemma DataFrame_rows data df :
  pd.DataFrame_ data = Ok df -> length (pd.rows df) = length data.
Proof.
  unfold pd.DataFrame_. destruct (pd.as_dicts data) as [ds |] eqn:Hds; [|discriminate].
  intros [= <-]. cbn. rewrite length_map. apply as_dicts_length. exact Hds.
Qed.

(** The table [save_to_excel] builds and the workbook it saves. *)
Lemma save_to_excel_ok E data excel_path w w' :
  save_to_excel E data excel_path w = (Ok tt, w') ->
  exists df deduplicated sorted,
    pd.DataFrame_ data = Ok df
    /\ pd.drop_duplicates df = Ok deduplicated
    /\ pd.sort_values SORT_COLUMNS deduplicated = Ok sorted
    /\ files w' = files w ++
         [(excel_path,
           Workbook (utf8 "ESG報告內容")
                    (pd.columns (pd.rename RENAMED_COLUMNS sorted))
                    (pd.rows sorted) column_widths)].
Proof.
  unfold save_to_excel. intros Hrun.
  apply bind_ok_inv in Hrun as (u0 & w1 & Hlog & Hrun).
  apply bind_ok_inv in Hrun as (df & w2 & Hdf & Hrun).
  apply bind_ok_inv in Hrun as (deduplicated & w3 & Hdd & Hrun).
  apply bind_ok_inv in Hrun as (sorted & w4 & Hsort & Hrun).
  apply bind_ok_inv in Hrun as (u1 & w5 & Hwriter & Hrun).
  apply bind_ok_inv in Hrun as (u2 & w6 & Hclose & Hrun).
  apply lift_ok_inv in Hdf as [Hdf ->].
  apply lift_ok_inv in Hdd as [Hdd ->].
  apply lift_ok_inv in Hsort as [Hsort ->].
  exists df, deduplicated, sorted. repeat (split; [assumption|]).
  assert (Hrest : files w' = files w6).
  { assert (Hk : forall (c : M unit), keeps_files c -> c w6 = (Ok tt, w') -> files w' = files w6)
      by (intros c Hc Hcw; exact (Hc _ _ _ Hcw)).
    eapply Hk; [|exact Hrun]. clear. frame. }
  rewrite Hrest.
  unfold ExcelWriter in Hwriter. destruct (can_write E excel_path); [|discriminate].
  injection Hwriter as _ <-. injection Hclose as _ <-.
  injection Hlog as _ <-. reflexivity.
Qed.

(** C8: dropping duplicates leaves no more rows than there were, and a
    second pass over its result changes nothing; sorting the result by
    some columns yields the same rows in an order in which each row comes
    no later than every row after it; and the workbook [save_to_excel]
    saves holds the rows of the table built from the records,
    deduplicated, then sorted by chapter, source and item. *)
Theorem C8_writer_deduplicates_then_sorts :
  (forall df deduplicated,
      pd.drop_duplicates df = Ok deduplicated ->
      (length (pd.rows deduplicated) <= length (pd.rows df))%nat
      /\ pd.drop_duplicates deduplicated = Ok deduplicated)
  /\ (forall by_ df sorted,
        pd.sort_values by_ df = Ok sorted ->
        exists idx,
          positions by_ (pd.columns df) idx
          /\ StronglySorted (row_le idx) (pd.rows sorted)
          /\ Permutation (pd.rows df) (pd.rows sorted))
  /\ (forall E data excel_path w w',
        save_to_excel E data excel_path w = (Ok tt, w') ->
        exists df deduplicated sorted idx book,
          pd.DataFrame_ data = Ok df
          /\ length (pd.rows df) = length data
          /\ pd.drop_duplicates df = Ok deduplicated
          /\ pd.drop_duplicates deduplicated = Ok deduplicated
          /\ pd.sort_values SORT_COLUMNS deduplicated = Ok sorted
          /\ positions SORT_COLUMNS (pd.columns deduplicated) idx
          /\ files w' = files w ++ [(excel_path, book)]
          /\ body book = pd.rows sorted
          /\ (length (body book) <= length data)%nat
          /\ StronglySorted (row_le idx) (body book)
          /\ Permutation (pd.rows deduplicated) (body book)).
Proof.
  split; [|split].
  - intros df deduplicated H. apply drop_duplicates_spec in H. tauto.
  - intros by_ df sorted H.
    apply sort_values_spec in H as (_ & idx & Hidx & Hrows).
    exists idx. rewrite Hrows.
    split; [exact Hidx|]. split; [apply sort_rows_sorted | apply sort_rows_permutation].
  - intros E data excel_path w w' H.
    apply save_to_excel_ok in H as (df & deduplicated & sorted & Hdf & Hdd & Hsort & Hfiles).
    pose proof (drop_duplicates_spec _ _ Hdd) as (_ & Hlen & Hidem).
    pose proof (sort_values_spec _ _ _ Hsort) as (_ & idx & Hidx & Hrows).
    exists df, deduplicated, sorted, idx. eexists.
    split; [exact Hdf|].
    split; [apply DataFrame_rows; exact Hdf|].
    split; [exact Hdd|]. split; [exact Hidem|]. split; [exact Hsort|].
    split; [exact Hidx|]. split; [exact Hfiles|].
    split; [reflexivity|]. cbn [body]. rewrite Hrows.
    split; [|split; [apply sort_rows_sorted | apply sort_rows_permutation]].
    rewrite <- (Permutation_length (sort_rows_permutation idx (pd.rows deduplicated))).
    rewrite <- (DataFrame_rows _ _ Hdf). exact Hlen.
Qed.

Lemma C8_writer_deduplicates_then_sorts_witness :
  (let df := pd.Frame [utf8 "n"] [[Cell (JNum 1)]; [Cell (JBool true)]; [Cell (JNum 0)]] in
   let deduplicated := pd.Frame [utf8 "n"] [[Cell (JNum 1)]; [Cell (JNum 0)]] in
   (length (pd.rows deduplicated) <= length (pd.rows df))%nat
   /\ pd.drop_duplicates deduplicated = Ok deduplicated)
  /\ (exists df deduplicated sorted idx book,
        pd.DataFrame_ Fixtures.repeated_records = Ok df
        /\ length (pd.rows df) = length Fixtures.repeated_records
        /\ pd.drop_duplicates df = Ok deduplicated
        /\ pd.drop_duplicates deduplicated = Ok deduplicated
        /\ pd.sort_values SORT_COLUMNS deduplicated = Ok sorted
        /\ positions SORT_COLUMNS (pd.columns deduplicated) idx
        /\ files (snd (save_to_excel Fixtures.stuck_env Fixtures.repeated_records
                         Fixtures.xlsx Fixtures.w0))
           = files Fixtures.w0 ++ [(Fixtures.xlsx, book)]
        /\ body book = pd.rows sorted
        /\ (length (body book) <= length Fixtures.repeated_records)%nat
        /\ StronglySorted (row_le idx) (body book)
        /\ Permutation (pd.rows deduplicated) (body book)).
Proof.
  destruct C8_writer_deduplicates_then_sorts as (Hdd & _ & Hsave).
  split.
  - apply (Hdd (pd.Frame [utf8 "n"] [[Cell (JNum 1)]; [Cell (JBool true)]; [Cell (JNum 0)]])).
    reflexivity.
  - apply (Hsave Fixtures.stuck_env Fixtures.repeated_records Fixtures.xlsx Fixtures.w0).
    vm_compute. reflexivity.
Defined.

Example repeated_records_written :
  exists w' book,
    save_to_excel Fixtures.stuck_env Fixtures.repeated_records Fixtures.xlsx Fixtures.w0
      = (Ok tt, w')
    /\ files w' = [(Fixtures.xlsx, book)]
    /\ body book =
         [ [Cell (JStr (utf8 "環境永續")); Cell (JStr (utf8 "內文"));
            Cell (JStr (utf8 "碳排放量")); Cell (JStr (utf8 "100 噸"))];
           [Cell (JStr (utf8 "環境永續")); Cell (JStr (utf8 "圖表"));
            Cell (JStr (utf8 "用水量")); Cell JNull] ].
Proof.
  do 2 eexists. split; [vm_compute; reflexivity|]. split; reflexivity.
Qed.

(** ** The content extractor *)

Import Extractor.

Lemma split_from_words s : forall cur,
  Forall (fun c => is_space c = false) cur ->
  Forall word (split_from cur s).
Proof.
  induction s as [| c s IH]; intros cur Hcur; cbn.
  - destruct cur as [| x cur]; [constructor|].
    constructor; [|constructor]. split.
    + cbn. intros H. apply app_eq_nil in H as [_ H]. discriminate.
    + apply Forall_rev. exact Hcur.
  - destruct (is_space c) eqn:Hc.
    + destruct cur as [| x cur]; [apply IH; constructor|].
      constructor; [|apply IH; constructor]. split.
      * cbn. intros H. apply app_eq_nil in H as [_ H]. discriminate.
      * apply Forall_rev. exact Hcur.
    + apply IH. constructor; assumption.
Qed.

(** [split] loses nothing but the whitespace. *)
Lemma split_from_concat s : forall cur,
  concat (split_from cur s) = rev cur ++ filter (fun c => negb (is_space c)) s.
Proof.
  induction s as [| c s IH]; intros cur; cbn.
  - destruct cur; cbn; rewrite ?app_nil_r; reflexivity.
  - destruct (is_space c) eqn:Hc; cbn.
    + destruct cur as [| x cur]; [apply IH|].
      cbn [concat]. rewrite IH. reflexivity.
    + rewrite IH. cbn. rewrite <- app_assoc. reflexivity.
Qed.

Lemma replace_char_absent old new s :
  ~ In old s -> replace_char old new s = s.
Proof.
  unfold replace_char. induction s as [| c s IH]; cbn; [reflexivity|].
  intros H. destruct (N.eqb_spec c old) as [-> | _].
  - exfalso. apply H. left. reflexivity.
  - cbn. f_equal. apply IH. intros Hin. apply H. right. exact Hin.
Qed.

(** The characters of space-joined words are those of the words, and
    spaces. *)
Lemma join_words_chars ws :
  Forall word ws ->
  Forall (fun c => c = SPACE \/ is_space c = false) (join [SPACE] ws).
Proof.
  induction 1 as [| t ws [_ Ht] Hws IH]; [constructor|].
  assert (Hchars : Forall (fun c => c = SPACE \/ is_space c = false) t)
    by (eapply Forall_impl; [|exact Ht]; auto).
  destruct ws as [| t' ws]; [exact Hchars|].
  change (join [SPACE] (t :: t' :: ws)) with (t ++ [SPACE] ++ join [SPACE] (t' :: ws)).
  apply Forall_app. split; [exact Hchars|].
  constructor; [left; reflexivity | exact IH].
Qed.

(** Space-joined words begin and end with a character of a word. *)
Lemma join_words_first ws :
  Forall word ws -> ws <> [] ->
  exists first rest, join [SPACE] ws = first :: rest /\ is_space first = false.
Proof.
  intros Hws Hne. destruct Hws as [| t ws [Hne_t Ht] Hws]; [congruence|].
  destruct t as [| c t]; [congruence|].
  inversion Ht; subst.
  destruct ws as [| t' ws]; cbn; eauto.
Qed.

Lemma join_words_last ws :
  Forall word ws -> ws <> [] ->
  exists init last, join [SPACE] ws = init ++ [last] /\ is_space last = false.
Proof.
  induction 1 as [| t ws [Hne_t Ht] Hws IH]; [congruence|]. intros _.
  destruct ws as [| t' ws].
  - destruct (exists_last Hne_t) as (init & last & ->).
    exists init, last. split; [reflexivity|].
    apply Forall_app in Ht as [_ Hl]. inversion Hl. assumption.
  - destruct IH as (init & last & Heq & Hlast); [discriminate|].
    change (join [SPACE] (t :: t' :: ws)) with (t ++ [SPACE] ++ join [SPACE] (t' :: ws)).
    rewrite Heq. exists (t ++ [SPACE] ++ init), last.
    split; [|exact Hlast]. rewrite <- !app_assoc. reflexivity.
Qed.

Lemma strip_join_words ws :
  Forall word ws -> strip (join [SPACE] ws) = join [SPACE] ws.
Proof.
  intros Hws. destruct ws as [| t ws]; [reflexivity|].
  destruct (join_words_first _ Hws ltac:(discriminate)) as (first & rest & Hfirst & Hsp).
  destruct (join_words_last _ Hws ltac:(discriminate)) as (init & last & Hlast & Hspl).
  unfold strip, rstrip.
  assert (Hl : lstrip (join [SPACE] (t :: ws)) = join [SPACE] (t :: ws)).
  { rewrite Hfirst. cbn. rewrite Hsp. reflexivity. }
  rewrite Hl, Hlast, rev_app_distr. cbn. rewrite Hspl.
  cbn. rewrite rev_involutive. reflexivity.
Qed.

(** [clean_text] is [split] followed by a join on single spaces: the two
    replacements and the strip find nothing left to do. *)
Lemma clean_text_normalizes (text : str) :
  clean_text text = join [SPACE] (split text)
  /\ Forall word (split text)
  /\ concat (split text) = filter (fun c => negb (is_space c)) text
  /\ ~ In LINE_SEPARATOR (clean_text text)
  /\ ~ In PARAGRAPH_SEPARATOR (clean_text text).
Proof.
  assert (Hwords : Forall word (split text))
    by (apply split_from_words; constructor).
  pose proof (join_words_chars _ Hwords) as Hchars.
  rewrite Forall_forall in Hchars.
  assert (Hls : ~ In LINE_SEPARATOR (join [SPACE] (split text))).
  { intros Hin. destruct (Hchars _ Hin) as [H | H]; discriminate. }
  assert (Hps : ~ In PARAGRAPH_SEPARATOR (join [SPACE] (split text))).
  { intros Hin. destruct (Hchars _ Hin) as [H | H]; discriminate. }
  assert (Heq : clean_text text = join [SPACE] (split text)).
  { unfold clean_text.
    rewrite (replace_char_absent LINE_SEPARATOR) by exact Hls.
    rewrite (replace_char_absent PARAGRAPH_SEPARATOR) by exact Hps.
    apply strip_join_words. exact Hwords. }
  rewrite Heq. repeat split; try assumption.
  apply (split_from_concat text []).
Qed.

(** [analyze_with_gpt4] sends exactly one request, for the page and text
    it was given, whatever comes back. *)
Lemma analyze_with_gpt4_request E text page_num w r w' :
  analyze_with_gpt4 E text page_num w = (r, w') ->
  chat_requests w' = chat_requests w ++ [AnalyzePrompt page_num text].
Proof.
  unfold analyze_with_gpt4, try_except, analyze_with_gpt4_try.
  unfold bind at 1, chat_completion at 1.
  assert (Hrest : forall content, keeps chat_requests
            (result <- loads E content;;
             items <- lift (py_get result (utf8 "items") (JArr []));;
             validate "跳過格式不正確的項目: {item}" items)).
  { intros content. frame. }
  destruct (chat_reply E (length (chat_requests w)) (AnalyzePrompt page_num text))
    as [msg | content].
  - cbn. intros [= _ <-]. reflexivity.
  - match goal with
    | |- context [bind ?c ?k ?w1] => destruct (bind c k w1) as [[a | e] w2] eqn:Hrun
    end.
    + intros [= _ <-]. apply Hrest in Hrun. rewrite Hrun. reflexivity.
    + cbn. intros [= _ <-]. apply Hrest in Hrun. cbn. rewrite Hrun. reflexivity.
Qed.

Lemma page_texts_cons item items :
  page_texts (item :: items) = filter non_empty (item_text item) ++ page_texts items.
Proof. unfold page_texts. cbn. apply filter_app. Qed.

(** On well-formed items the inner loop computes [page_texts] and does
    nothing else. *)
Lemma page_text_loop items :
  Forall wf_item items ->
  forall acc w,
    for_each page_text_item acc items w = (Ok (acc ++ page_texts items), w).
Proof.
  induction 1 as [| item items (d & type & -> & Htype & Hvalue) _ IH]; intros acc w.
  - cbn. rewrite app_nil_r. reflexivity.
  - cbn [for_each]. unfold bind at 1, page_text_item at 1.
    unfold bind at 1, lift at 1. cbn [py_getitem]. rewrite Htype.
    rewrite page_texts_cons. unfold item_text. rewrite Htype.
    destruct (eq_str type (utf8 "text")) eqn:Htext.
    + destruct (Hvalue eq_refl) as [v Hv]. rewrite Hv.
      unfold bind, lift. cbn [clean_text_of].
      destruct (clean_text v) as [| c t] eqn:Hclean; cbn [filter non_empty].
      * unfold ret. rewrite IH. reflexivity.
      * unfold ret. rewrite IH, <- app_assoc. reflexivity.
    + unfold ret. rewrite IH.
      destruct (dict_lookup (utf8 "value") d) as [[] |]; reflexivity.
Qed.

(** On a well-formed page the loop body sends the page's pair, if it has
    one, and nothing else. *)
Lemma process_page_requests E page :
  wf_page page ->
  forall acc w,
    exists acc' w',
      process_page E acc page w = (Ok acc', w')
      /\ chat_requests w' = chat_requests w ++ map request_of (page_pair joined page).
Proof.
  intros (d & page_num & -> & Hnum & Hitems) acc w.
  unfold process_page, page_pair, items_of, number_of.
  cbn [py_getitem py_contains]. rewrite Hnum.
  unfold bind, lift, logger.
  destruct (dict_lookup (utf8 "items") d) as [items |] eqn:Hlookup.
  - destruct (Hitems items eq_refl) as (item_list & -> & Hwf).
    cbn [py_iter]. unfold page_text_of. rewrite (page_text_loop _ Hwf). cbn [app].
    destruct (page_texts item_list) as [| t texts] eqn:Htexts.
    + unfold ret. do 2 eexists. split; [reflexivity|]. cbn. rewrite app_nil_r. reflexivity.
    + match goal with
      | |- context [analyze_with_gpt4 E ?text ?n ?w1] =>
          destruct (analyze_with_gpt4_never_raises E text n w1) as (results & w2 & Hrun);
          pose proof (analyze_with_gpt4_request _ _ _ _ _ _ Hrun) as Hreq
      end.
      rewrite Hrun. unfold ret. do 2 eexists. split; [reflexivity|]. exact Hreq.
  - unfold ret. do 2 eexists. split; [reflexivity|]. cbn. rewrite app_nil_r. reflexivity.
Qed.

Lemma process_pages_requests E pages :
  Forall wf_page pages ->
  forall acc w,
    exists acc' w',
      for_each (process_page E) acc pages w = (Ok acc', w')
      /\ chat_requests w' = chat_requests w ++ map request_of (page_pairs joined pages).
Proof.
  induction 1 as [| page pages Hpage _ IH]; intros acc w.
  - cbn. do 2 eexists. split; [reflexivity|]. rewrite app_nil_r. reflexivity.
  - cbn [for_each]. unfold bind at 1.
    destruct (process_page_requests E page Hpage acc w) as (acc1 & w1 & Hrun & Hreq).
    rewrite Hrun.
    destruct (IH acc1 w1) as (acc2 & w2 & Hrun2 & Hreq2).
    exists acc2, w2. split; [exact Hrun2|].
    rewrite Hreq2, Hreq. unfold page_pairs. cbn [flat_map].
    rewrite map_app, app_assoc. reflexivity.
Qed.

(** C9, as the code has it: for a parse result whose pages are well
    formed the extraction loop succeeds and sends the annotator, page by
    page and in order, one text block for each page that has a non-empty
    text item: the page's cleaned text items, the empty ones left out,
    joined by newlines.  Tables and other items contribute nothing, and a
    page without text is skipped.  Cleaning a text splits it at
    whitespace, which U+2028 and U+2029 are, and joins the words by
    single spaces. *)
Theorem C9_pages_become_newline_joined_blocks E result pages w :
  py_getitem result (utf8 "pages") = Ok (JArr pages) ->
  Forall wf_page pages ->
  (exists all_results w',
      collect_pages E result w = (Ok all_results, w')
      /\ chat_requests w' = chat_requests w ++ map request_of (page_pairs joined pages))
  /\ (forall text,
        clean_text text = join [SPACE] (split text)
        /\ Forall word (split text)
        /\ concat (split text) = filter (fun c => negb (is_space c)) text
        /\ ~ In LINE_SEPARATOR (clean_text text)
        /\ ~ In PARAGRAPH_SEPARATOR (clean_text text)).
Proof.
  intros Hpages Hwf. split; [|exact clean_text_normalizes].
  unfold collect_pages. rewrite Hpages.
  unfold bind, lift, logger. cbn [py_len py_iter].
  match goal with
  | |- context [for_each _ _ _ ?w1] =>
      destruct (process_pages_requests E pages Hwf [] w1) as (acc & w2 & Hrun & Hreq)
  end.
  rewrite Hrun. unfold ret. do 2 eexists. split; [reflexivity|]. exact Hreq.
Qed.

Lemma C9_pages_become_newline_joined_blocks_witness :
  (exists all_results w',
      collect_pages Fixtures.offline_env Fixtures.two_items Fixtures.w0 = (Ok all_results, w')
      /\ chat_requests w' =
           chat_requests Fixtures.w0 ++ map request_of (page_pairs joined Fixtures.two_pages))
  /\ (forall text,
        clean_text text = join [SPACE] (split text)
        /\ Forall word (split text)
        /\ concat (split text) = filter (fun c => negb (is_space c)) text
        /\ ~ In LINE_SEPARATOR (clean_text text)
        /\ ~ In PARAGRAPH_SEPARATOR (clean_text text)).
Proof.
  apply (C9_pages_become_newline_joined_blocks Fixtures.offline_env Fixtures.two_items
           Fixtures.two_pages Fixtures.w0).
  - reflexivity.
  - repeat constructor;
      (do 2 eexists; split; [reflexivity|]; split; [reflexivity|];
       intros items Hitems; vm_compute in Hitems; injection Hitems as <-;
       eexists; split; [reflexivity|];
       repeat constructor;
       (do 2 eexists; split; [reflexivity|]; split; [reflexivity|];
        intros Htext; first [discriminate Htext | eexists; reflexivity])).
Defined.

(** C9 as stated fails: page 1 has the text items "Water use" and
    "fell by 3 %"; the block sent for it holds a newline between them,
    which their concatenation does not. *)
Lemma C9_counterexample :
  exists all_results w',
    collect_pages Fixtures.offline_env Fixtures.two_items Fixtures.w0 = (Ok all_results, w')
    /\ analyzed (chat_requests w')
       = [(JNum 1, utf8 "Water use" ++ [NEWLINE] ++ utf8 "fell by 3 %")]
    /\ page_pairs concatenated Fixtures.two_pages
       = [(JNum 1, utf8 "Water use" ++ utf8 "fell by 3 %")]
    /\ analyzed (chat_requests w') <> page_pairs concatenated Fixtures.two_pages.
Proof.
  do 2 eexists. split; [vm_compute; reflexivity|].
  split; [reflexivity|]. split; [reflexivity|].
  vm_compute. intros H. discriminate H.
Qed.

(** ** The empty record list *)

(** An empty list makes a table without columns; sorting it by
    [chapter] raises before the writer is opened. *)
Lemma save_to_excel_empty E excel_path w :
  save_to_excel E [] excel_path w
  = (Raise (KeyError (utf8 "chapter")),
     add_log w [Log INFO "保存結果到 Excel: {excel_path}" [LJson (JStr excel_path)]]).
Proof. reflexivity. Qed.

Lemma process_pdf_empty E excel_path job_id w result w1 w2 :
  get_result E job_id w = (Ok result, w1) ->
  process_content E result w1 = (Ok [], w2) ->
  exists w',
    process_pdf E excel_path job_id w = (Raise (KeyError (utf8 "chapter")), w')
    /\ files w' = files w.
Proof.
  intros Hget Hcontent.
  unfold process_pdf, try_except. unfold bind at 1. rewrite Hget.
  unfold bind at 1. rewrite Hcontent. rewrite save_to_excel_empty.
  cbn. eexists. split; [reflexivity|]. cbn.
  rewrite (keeps_process_content _ _ _ _ _ Hcontent).
  exact (keeps_get_result _ _ _ _ _ Hget).
Qed.

Lemma keeps_upload_pdf E pdf_path : keeps_files (upload_pdf E pdf_path).
Proof. unfold upload_pdf. frame. Qed.

Lemma keeps_check_job_status E job_id : keeps_files (check_job_status E job_id).
Proof.
  intros w r w' H.
  destruct (check_job_status_cases E job_id w) as (r1 & w1 & H1 & _ & _ & _ & Hf & _).
  congruence.
Qed.

Lemma wait_loop_keeps_files E job_id check_interval timeout start_time fuel :
  forall w r w',
    wait_loop E fuel job_id check_interval timeout start_time w = Some (r, w') ->
    files w' = files w.
Proof.
  induction fuel as [| fuel IH]; intros w r w'; [discriminate|].
  rewrite wait_loop_S.
  destruct (now w - start_time >? timeout); [intros [= _ <-]; reflexivity|].
  destruct (check_job_status E job_id w) as [[[is_done error] | e] w1] eqn:Hcheck;
    pose proof (keeps_check_job_status _ _ _ _ _ Hcheck) as Hf.
  - destruct (is_done && negb (truthy error)); [intros [= _ <-]; exact Hf|].
    destruct (truthy error); [intros [= _ <-]; exact Hf|].
    unfold bind, logger, sleep. cbn.
    destruct (check_interval <? 0); [intros [= _ <-]; exact Hf|].
    intros Hrun. apply IH in Hrun. rewrite Hrun. exact Hf.
  - intros [= _ <-]. exact Hf.
Qed.

Lemma wait_for_completion_keeps_files E fuel job_id check_interval timeout w r w' :
  wait_for_completion E fuel job_id check_interval timeout w = Some (r, w') ->
  files w' = files w.
Proof.
  unfold wait_for_completion. cbn. intros H.
  apply wait_loop_keeps_files in H. exact H.
Qed.

(** C10: there are runs in which every page's annotation comes back
    empty, and in every run in which the list handed to [save_to_excel]
    is empty, sorting the column-less table raises [KeyError], so that
    [process_pdf] raises, [process_report] returns False, no spreadsheet
    is saved and the exit code is 1. *)
Theorem C10_empty_record_list_fails_the_run :
  (exists w1 w',
      process_content Fixtures.babbling_env Fixtures.one_page Fixtures.w0 = (Ok [], w1)
      /\ main Fixtures.babbling_env 100 Fixtures.pdf Fixtures.xlsx Fixtures.w0 = Some (1, w')
      /\ files w' = [])
  /\ (forall E excel_path w,
        exists w',
          save_to_excel E [] excel_path w = (Raise (KeyError (utf8 "chapter")), w')
          /\ files w' = files w)
  /\ (forall E fuel pdf_path output_path w job_id w1 w2 result w3 w4,
        upload_pdf E pdf_path w = (Ok job_id, w1) ->
        wait_for_completion E fuel job_id DEFAULT_CHECK_INTERVAL DEFAULT_TIMEOUT w1
          = Some (Ok true, w2) ->
        get_result E job_id (add_log w2 [Log INFO "開始使用 GPT-4 分析內容" []])
          = (Ok result, w3) ->
        process_content E result w3 = (Ok [], w4) ->
        exists w' w'',
          process_report E fuel pdf_path output_path w = Some (false, w')
          /\ files w' = files w
          /\ main E fuel pdf_path output_path w = Some (1, w'')
          /\ files w'' = files w).
Proof.
  split; [|split].
  - do 2 eexists. split; [vm_compute; reflexivity|].
    split; [vm_compute; reflexivity | reflexivity].
  - intros E excel_path w. rewrite save_to_excel_empty.
    eexists. split; reflexivity.
  - intros E fuel pdf_path output_path w job_id w1 w2 result w3 w4
           Hupload Hwait Hget Hcontent.
    destruct (process_pdf_empty E output_path job_id _ _ _ _ Hget Hcontent)
      as (wp & Hpdf & Hfiles).
    assert (Hreport : exists w',
               process_report E fuel pdf_path output_path w = Some (false, w')
               /\ files w' = files w).
    { unfold process_report, process_report_try. rewrite Hupload, Hwait.
      unfold bind at 1, logger at 1.
      change (World (now w2) (status_requests w2) (sleeps w2) (chat_requests w2)
                    (log w2 ++ [Log INFO "開始使用 GPT-4 分析內容" []]) (files w2))
        with (add_log w2 [Log INFO "開始使用 GPT-4 分析內容" []]).
      unfold bind at 1. rewrite Hpdf. cbn.
      eexists. split; [reflexivity|]. cbn. rewrite Hfiles. cbn.
      rewrite (wait_for_completion_keeps_files _ _ _ _ _ _ _ _ Hwait).
      exact (keeps_upload_pdf _ _ _ _ _ Hupload). }
    destruct Hreport as (w' & Hreport & Hf).
    exists w'. unfold main, init.
    destruct (missing (getenv_LLAMA_PARSE_API_KEY E) || missing (getenv_OPENAI_API_KEY E)).
    + exists w. cbn. auto.
    + exists w'. cbn. rewrite Hreport. auto.
Qed.

Lemma C10_empty_record_list_fails_the_run_witness :
  exists w' w'',
    process_report Fixtures.babbling_env 100 Fixtures.pdf Fixtures.xlsx Fixtures.w0
      = Some (false, w')
    /\ files w' = files Fixtures.w0
    /\ main Fixtures.babbling_env 100 Fixtures.pdf Fixtures.xlsx Fixtures.w0 = Some (1, w'')
    /\ files w'' = files Fixtures.w0.
Proof.
  destruct C10_empty_record_list_fails_the_run as (_ & _ & Hrun).
  eapply (Hrun Fixtures.babbling_env 100%nat Fixtures.pdf Fixtures.xlsx Fixtures.w0
            Fixtures.job).
  - vm_compute. reflexivity.
  - vm_compute. reflexivity.
  - vm_compute. reflexivity.
  - vm_compute. reflexivity.
Defined.

(* ===================================================================== *)
(** * Further properties of the scripts *)
(* ===================================================================== *)

Import Run.

(** ** Computations that only log *)

Lemma only_logs_ret {A} (a : A) : only_logs (ret a).
Proof. intros w r w' [= _ <-]. exists []. symmetry. apply add_log_nil. Qed.

Lemma only_logs_raise {A} (e : exn) : only_logs (@raise A e).
Proof. intros w r w' [= _ <-]. exists []. symmetry. apply add_log_nil. Qed.

Lemma only_logs_lift {A} (r : result A) : only_logs (lift r).
Proof. intros w r' w' [= _ <-]. exists []. symmetry. apply add_log_nil. Qed.

Lemma only_logs_logger lv text args : only_logs (logger lv text args).
Proof. intros w r w' [= _ <-]. exists [Log lv text args]. reflexivity. Qed.

Lemma only_logs_bind {A B} (c : M A) (k : A -> M B) :
  only_logs c -> (forall a, only_logs (k a)) -> only_logs (bind c k).
Proof.
  intros Hc Hk w r w'. unfold bind.
  destruct (c w) as [[a | e] w1] eqn:Hcw; destruct (Hc _ _ _ Hcw) as [l1 ->].
  - intros Hrun. destruct (Hk a _ _ _ Hrun) as [l2 ->].
    exists (l1 ++ l2). apply add_log_add_log.
  - intros [= _ <-]. eauto.
Qed.

Lemma only_logs_try_except {A} (c : M A) (h : exn -> option (M A)) :
  only_logs c -> (forall e handler, h e = Some handler -> only_logs handler) ->
  only_logs (try_except c h).
Proof.
  intros Hc Hh w r w'. unfold try_except.
  destruct (c w) as [[a | e] w1] eqn:Hcw; destruct (Hc _ _ _ Hcw) as [l1 ->].
  - intros [= _ <-]. eauto.
  - destruct (h e) as [handler |] eqn:He.
    + intros Hrun. destruct (Hh _ _ He _ _ _ Hrun) as [l2 ->].
      exists (l1 ++ l2). apply add_log_add_log.
    + intros [= _ <-]. eauto.
Qed.

Lemma only_logs_for_each {A S} (body : S -> A -> M S) :
  (forall acc x, only_logs (body acc x)) ->
  forall l acc, only_logs (for_each body acc l).
Proof.
  intros Hbody l. induction l as [| x l IH]; intros acc; cbn [for_each].
  - apply only_logs_ret.
  - apply only_logs_bind; [apply Hbody | intros acc'; apply IH].
Qed.

Create HintDb logs.
#[local] Hint Resolve only_logs_ret only_logs_raise only_logs_lift only_logs_logger : logs.

(** Splits a computation along its binds, handlers and loops, and closes
    the leaves that only log. *)
Ltac logs :=
  repeat first
    [ progress intros
    | progress cbv beta in *
    | apply only_logs_bind
    | apply only_logs_for_each
    | apply only_logs_try_except
    | match goal with
      | H : Some _ = Some _ |- _ => injection H as <-
      | H : None = Some _ |- _ => discriminate H
      | H : (if ?b then _ else _) = Some _ |- _ => destruct b
      | H : match ?e with _ => _ end = Some _ |- _ => destruct e
      | |- only_logs (if ?b then _ else _) => destruct b
      | |- only_logs (match ?x with _ => _ end) => destruct x
      end
    | solve [auto with logs] ].

Lemma upload_pdf_only_logs E pdf_path : only_logs (upload_pdf E pdf_path).
Proof. unfold upload_pdf. logs. Qed.

Lemma get_result_only_logs E job_id : only_logs (get_result E job_id).
Proof. unfold get_result. logs. Qed.

Lemma validate_only_logs warning items : only_logs (validate warning items).
Proof. unfold validate, validate_item. logs. Qed.

Lemma add_log_files w l : files (add_log w l) = files w.
Proof. reflexivity. Qed.

Lemma add_log_chat_requests w l : chat_requests (add_log w l) = chat_requests w.
Proof. reflexivity. Qed.

Lemma add_log_status_requests w l : status_requests (add_log w l) = status_requests w.
Proof. reflexivity. Qed.

(** ** More on the status poller *)

(** What [check_job_status] returns for each kind of answer, and what it
    does to the world: one request, the time it takes, and at most a log
    record. *)
Lemma check_job_status_spec E job_id w :
  exists r w1,
    check_job_status E job_id w = (r, w1)
    /\ now w1 = now w + Z.of_N (status_latency E job_id (status_requests w))
    /\ status_requests w1 = S (status_requests w)
    /\ sleeps w1 = sleeps w
    /\ chat_requests w1 = chat_requests w
    /\ files w1 = files w
    /\ match status_reply E job_id (status_requests w) with
       | HttpFails msg => r = Ok (false, JStr msg)
       | HttpJson body =>
           match py_get body (utf8 "status") JNull with
           | Raise _ => r = Raise AttributeError
           | Ok st =>
               if eq_str st (utf8 "completed") then r = Ok (true, JNull)
               else if eq_str st (utf8 "failed") then
                 exists error,
                   py_get body (utf8 "error") UNKNOWN_ERROR = Ok error
                   /\ r = Ok (true, error)
               else r = Ok (false, JNull)
           end
       end.
Proof.
  unfold check_job_status, try_except, bind, get_status.
  destruct (status_reply E job_id (status_requests w)) as [msg | body].
  - cbn. do 2 eexists. split; [reflexivity|]. cbn. repeat split.
  - destruct body as [ | b | n | t | l | d ];
      try (cbn; do 2 eexists; split; [reflexivity|]; cbn; repeat split).
    cbn [py_get lift].
    destruct (eq_str _ (utf8 "completed")) eqn:Hc.
    + cbn. do 2 eexists. split; [reflexivity|]. cbn. repeat split.
    + destruct (eq_str _ (utf8 "failed")) eqn:Hf.
      * cbn. do 2 eexists. split; [reflexivity|]. cbn. repeat split.
        eexists. split; reflexivity.
      * cbn. do 2 eexists. split; [reflexivity|]. cbn. repeat split.
Qed.

(** What the polling loop keeps, whenever it ends. *)
Lemma wait_loop_invariants E job_id check_interval timeout start_time fuel :
  forall w r w',
    wait_loop E fuel job_id check_interval timeout start_time w = Some (r, w') ->
    now w <= now w'
    /\ chat_requests w' = chat_requests w
    /\ files w' = files w
    /\ (sleeps w' + status_requests w <= status_requests w' + sleeps w)%nat
    /\ (status_requests w' + sleeps w <= sleeps w' + status_requests w + 1)%nat
    /\ (sleeps w <= sleeps w')%nat.
Proof.
  induction fuel as [| fuel IH]; intros w r w'; [discriminate|].
  rewrite wait_loop_S.
  destruct (now w - start_time >? timeout).
  { intros [= _ <-]. cbn. repeat split; lia. }
  destruct (check_job_status_spec E job_id w)
    as (r1 & w1 & Hcheck & Hnow & Hreq & Hsl & Hchat & Hfiles & _).
  rewrite Hcheck.
  assert (Hlat : 0 <= Z.of_N (status_latency E job_id (status_requests w))) by lia.
  destruct r1 as [[is_done error] | e].
  - destruct (is_done && negb (truthy error)).
    { intros [= _ <-]. cbn. repeat split; try assumption; lia. }
    destruct (truthy error).
    { intros [= _ <-]. cbn. repeat split; try assumption; lia. }
    unfold bind, logger, sleep. cbn.
    destruct (check_interval <? 0) eqn:Hneg.
    { intros [= _ <-]. cbn. repeat split; try assumption; lia. }
    apply Z.ltb_ge in Hneg.
    intros Hrun. apply IH in Hrun. cbn in Hrun.
    destruct Hrun as (H1 & H2 & H3 & H4 & H5 & H6).
    repeat split; try congruence; lia.
  - intros [= _ <-]. repeat split; try assumption; lia.
Qed.

(** The loop returns True only on an answer that passes for done. *)
Lemma wait_loop_true E job_id check_interval timeout start_time fuel :
  forall w w',
    wait_loop E fuel job_id check_interval timeout start_time w = Some (Ok true, w') ->
    (status_requests w < status_requests w')%nat
    /\ passes_for_done (status_reply E job_id (pred (status_requests w'))).
Proof.
  induction fuel as [| fuel IH]; intros w w'; [discriminate|].
  rewrite wait_loop_S.
  destruct (now w - start_time >? timeout); [discriminate|].
  destruct (check_job_status_spec E job_id w)
    as (r1 & w1 & Hcheck & _ & Hreq & _ & _ & _ & Hr).
  rewrite Hcheck.
  destruct r1 as [[is_done error] | e]; [|discriminate].
  destruct (is_done && negb (truthy error)) eqn:Hdone.
  - intros [= <-]. cbn. rewrite Hreq. cbn. split; [lia|].
    apply andb_true_iff in Hdone as [-> Htruthy].
    apply negb_true_iff in Htruthy.
    destruct (status_reply E job_id (status_requests w)) as [msg | body];
      [discriminate|].
    destruct (py_get body (utf8 "status") JNull) as [st |] eqn:Hst; [|discriminate].
    exists body, st. split; [reflexivity|]. split; [exact Hst|].
    destruct (eq_str st (utf8 "completed")); [left; reflexivity|].
    destruct (eq_str st (utf8 "failed")); [|discriminate].
    destruct Hr as (err & Herr & [= <-]). right. split; [reflexivity|]. eauto.
  - destruct (truthy error); [discriminate|].
    unfold bind, logger, sleep. cbn.
    destruct (check_interval <? 0); [discriminate|].
    intros Hrun. apply IH in Hrun as [Hlt Hpass]. cbn in Hlt.
    split; [lia | exact Hpass].
Qed.

(** X1: [wait_for_completion] returns True only after a status request,
    and only when the answer to the last one says [completed], or says
    [failed] with an error that Python counts as false.  No other answer,
    and no timeout, is ever reported as success. *)
Theorem X1_wait_true_only_on_done_answer E fuel job_id check_interval timeout w w' :
  wait_for_completion E fuel job_id check_interval timeout w = Some (Ok true, w') ->
  (status_requests w < status_requests w')%nat
  /\ passes_for_done (status_reply E job_id (pred (status_requests w'))).
Proof.
  unfold wait_for_completion. cbn. intros Hrun.
  apply wait_loop_true in Hrun. exact Hrun.
Qed.

Lemma X1_wait_true_only_on_done_answer_witness :
  exists w',
    wait_for_completion Fixtures.scenario_env 100 Fixtures.job 5 300 Fixtures.w0
      = Some (Ok true, w')
    /\ (status_requests Fixtures.w0 < status_requests w')%nat
    /\ passes_for_done
         (status_reply Fixtures.scenario_env Fixtures.job (pred (status_requests w'))).
Proof.
  eexists. split; [vm_compute; reflexivity|].
  apply (X1_wait_true_only_on_done_answer Fixtures.scenario_env 100 Fixtures.job 5 300
           Fixtures.w0).
  vm_compute. reflexivity.
Defined.

(** X2: whenever [wait_for_completion] ends, in whatever way, the clock
    has not gone back, no request was sent to the model, no file was
    written, and the loop slept between any two status requests: it made
    as many requests as sleeps, or one more. *)
Theorem X2_wait_alternates_requests_and_sleeps
  E fuel job_id check_interval timeout w r w' :
  wait_for_completion E fuel job_id check_interval timeout w = Some (r, w') ->
  now w <= now w'
  /\ chat_requests w' = chat_requests w
  /\ files w' = files w
  /\ (sleeps w <= sleeps w')%nat
  /\ ((status_requests w' - status_requests w = sleeps w' - sleeps w)%nat
      \/ (status_requests w' - status_requests w = sleeps w' - sleeps w + 1)%nat).
Proof.
  unfold wait_for_completion. cbn. intros Hrun.
  apply wait_loop_invariants in Hrun. cbn in Hrun.
  destruct Hrun as (H1 & H2 & H3 & H4 & H5 & H6).
  repeat split; try assumption. lia.
Qed.

Lemma X2_wait_alternates_requests_and_sleeps_witness :
  exists w',
    wait_for_completion Fixtures.stuck_env 100 Fixtures.job 5 300 Fixtures.w0
      = Some (Ok false, w')
    /\ now Fixtures.w0 <= now w'
    /\ chat_requests w' = chat_requests Fixtures.w0
    /\ files w' = files Fixtures.w0
    /\ (sleeps Fixtures.w0 <= sleeps w')%nat
    /\ ((status_requests w' - status_requests Fixtures.w0
         = sleeps w' - sleeps Fixtures.w0)%nat
        \/ (status_requests w' - status_requests Fixtures.w0
            = sleeps w' - sleeps Fixtures.w0 + 1)%nat).
Proof.
  eexists. split; [vm_compute; reflexivity|].
  apply (X2_wait_alternates_requests_and_sleeps Fixtures.stuck_env 100 Fixtures.job 5 300
           Fixtures.w0 (Ok false)).
  vm_compute. reflexivity.
Defined.








(** ** The run as a whole *)




Lemma upload_pdf_frame E pdf_path w r w' :
  upload_pdf E pdf_path w = (r, w') ->
  files w' = files w /\ chat_requests w' = chat_requests w
  /\ status_requests w' = status_requests w.
Proof.
  intros H. destruct (upload_pdf_only_logs E pdf_path _ _ _ H) as [l ->]. auto.
Qed.

(** The three ways an upload fails: the file is not there, the request
    fails, or the answer holds no [job_id]. *)
Lemma upload_pdf_fails E pdf_path w :
  path_exists E pdf_path = false
  \/ (exists msg, upload_reply E pdf_path = HttpFails msg)
  \/ (exists body e, upload_reply E pdf_path = HttpJson body
                     /\ py_getitem body (utf8 "job_id") = Raise e) ->
  exists e w1, upload_pdf E pdf_path w = (Raise e, w1).
Proof.
  unfold upload_pdf, bind at 1, logger at 1.
  destruct (path_exists E pdf_path) eqn:Hexists; cbn [negb].
  - intros [H | [(msg & H) | (body & e & H & Hjob)]]; [discriminate | |];
      unfold try_except, bind, lift; rewrite H.
    + cbn. do 2 eexists. reflexivity.
    + rewrite Hjob. cbn. destruct (is_RequestException e); cbn; do 2 eexists; reflexivity.
  - intros _. cbn. do 2 eexists. reflexivity.
Qed.

Lemma wait_for_completion_frame E fuel job_id check_interval timeout w r w' :
  wait_for_completion E fuel job_id check_interval timeout w = Some (r, w') ->
  chat_requests w' = chat_requests w /\ files w' = files w.
Proof.
  unfold wait_for_completion. cbn. intros Hrun.
  apply wait_loop_invariants in Hrun. cbn in Hrun. tauto.
Qed.

(** X5: a failure before the analysis ends the run.  When the file is
    missing, the upload request fails, its answer holds no job id, or the
    wait for the job ends in anything but True, [process_report] returns
    False and the exit code is 1; no request was sent to the model and no
    file was written. *)
Theorem X5_failure_before_analysis_ends_the_run E fuel pdf_path output_path w :
  path_exists E pdf_path = false
  \/ (exists msg, upload_reply E pdf_path = HttpFails msg)
  \/ (exists body e, upload_reply E pdf_path = HttpJson body
                     /\ py_getitem body (utf8 "job_id") = Raise e)
  \/ (exists job_id w1 r w2,
        upload_pdf E pdf_path w = (Ok job_id, w1)
        /\ wait_for_completion E fuel job_id DEFAULT_CHECK_INTERVAL DEFAULT_TIMEOUT w1
           = Some (r, w2)
        /\ r <> Ok true) ->
  exists w' w'',
    process_report E fuel pdf_path output_path w = Some (false, w')
    /\ chat_requests w' = chat_requests w
    /\ files w' = files w
    /\ main E fuel pdf_path output_path w = Some (1, w'')
    /\ chat_requests w'' = chat_requests w
    /\ files w'' = files w.
Proof.
  intros H.
  assert (Hreport : exists w',
             process_report E fuel pdf_path output_path w = Some (false, w')
             /\ chat_requests w' = chat_requests w
             /\ files w' = files w).
  { assert (Hcases :
      (exists e w1, upload_pdf E pdf_path w = (Raise e, w1))
      \/ (exists job_id w1 r w2,
            upload_pdf E pdf_path w = (Ok job_id, w1)
            /\ wait_for_completion E fuel job_id DEFAULT_CHECK_INTERVAL DEFAULT_TIMEOUT w1
               = Some (r, w2)
            /\ r <> Ok true)).
    { destruct H as [H | [H | [H | H]]]; [left | left | left | right; exact H];
        apply upload_pdf_fails; auto. }
    unfold process_report, process_report_try.
    destruct Hcases as [(e & w1 & Hup) | (job_id & w1 & r & w2 & Hup & Hwait & Hr)];
      rewrite Hup; destruct (upload_pdf_frame _ _ _ _ _ Hup) as (Hf & Hc & _).
    - cbn. eexists. split; [reflexivity|]. cbn. auto.
    - rewrite Hwait.
      pose proof (wait_for_completion_frame _ _ _ _ _ _ _ _ Hwait) as (Hc2 & Hf2).
      destruct r as [[|] | e]; [congruence | |];
        cbn; eexists; (split; [reflexivity|]); cbn; split; congruence. }
  destruct Hreport as (w' & Hreport & Hc & Hf).
  exists w'. unfold main, init.
  destruct (missing (getenv_LLAMA_PARSE_API_KEY E) || missing (getenv_OPENAI_API_KEY E)).
  - exists w. cbn. repeat split; assumption.
  - exists w'. cbn. rewrite Hreport. repeat split; assumption.
Qed.

Lemma X5_failure_before_analysis_ends_the_run_witness :
  exists w' w'',
    process_report Fixtures.failed_corrupt_env 100 Fixtures.pdf Fixtures.xlsx Fixtures.w0
      = Some (false, w')
    /\ chat_requests w' = chat_requests Fixtures.w0
    /\ files w' = files Fixtures.w0
    /\ main Fixtures.failed_corrupt_env 100 Fixtures.pdf Fixtures.xlsx Fixtures.w0
       = Some (1, w'')
    /\ chat_requests w'' = chat_requests Fixtures.w0
    /\ files w'' = files Fixtures.w0.
Proof.
  apply (X5_failure_before_analysis_ends_the_run Fixtures.failed_corrupt_env 100
           Fixtures.pdf Fixtures.xlsx Fixtures.w0).
  right. right. right. eexists _, _, _, _.
  split; [vm_compute; reflexivity|]. split; [vm_compute; reflexivity|]. discriminate.
Defined.




(** ** More on the integrator and the annotator *)

(** [integrate_results] always takes its second [except] clause. *)
Lemma integrate_results_returns_input E all_results w :
  integrate_results E all_results w
  = (Ok all_results,
     add_log w
       [Log ERROR "結果整合失敗: {str(e)}"
          [LExn (KeyError ([NEWLINE; SPACE; SPACE; SPACE; SPACE; QUOTE]
                           ++ utf8 "items" ++ [QUOTE]))]]).
Proof.
  unfold integrate_results, try_except.
  rewrite integrate_results_try_raises. reflexivity.
Qed.

(** X7: the consolidation step does nothing.  Building its prompt with
    [str.format] raises [KeyError] on the braces of the JSON sample in
    [integration_prompt], inside the [try] block, so [integrate_results]
    logs one error and returns the list it was given, for every list and
    whatever the model would have answered; no request is sent.  Hence
    [process_content] returns exactly the records collected page by
    page. *)
Theorem X7_consolidation_is_a_no_op E :
  let key := [NEWLINE; SPACE; SPACE; SPACE; SPACE; QUOTE] ++ utf8 "items" ++ [QUOTE] in
  (forall all_results w,
      integrate_results E all_results w
      = (Ok all_results,
         add_log w [Log ERROR "結果整合失敗: {str(e)}" [LExn (KeyError key)]]))
  /\ (forall result w all_results w1,
        collect_pages E result w = (Ok all_results, w1) ->
        process_content E result w
        = (Ok all_results,
           add_log w1 [Log ERROR "結果整合失敗: {str(e)}" [LExn (KeyError key)]])).
Proof.
  intros key.
  assert (Hint : forall all_results w,
             integrate_results E all_results w
             = (Ok all_results,
                add_log w [Log ERROR "結果整合失敗: {str(e)}" [LExn (KeyError key)]])).
  { intros all_results w. unfold integrate_results, try_except.
    rewrite integrate_results_try_raises. reflexivity. }
  split; [exact Hint|].
  intros result w all_results w1 Hcollect.
  unfold process_content, bind. rewrite Hcollect. apply Hint.
Qed.

Lemma X7_consolidation_is_a_no_op_witness :
  exists w1,
    collect_pages Fixtures.scenario_env Fixtures.one_page Fixtures.w0
      = (Ok [Fixtures.scenario_record], w1)
    /\ process_content Fixtures.scenario_env Fixtures.one_page Fixtures.w0
       = (Ok [Fixtures.scenario_record],
          add_log w1
            [Log ERROR "結果整合失敗: {str(e)}"
               [LExn (KeyError ([NEWLINE; SPACE; SPACE; SPACE; SPACE; QUOTE]
                                ++ utf8 "items" ++ [QUOTE]))]]).
Proof.
  eexists. split; [vm_compute; reflexivity|].
  apply (proj2 (X7_consolidation_is_a_no_op Fixtures.scenario_env) Fixtures.one_page
           Fixtures.w0 [Fixtures.scenario_record]).
  vm_compute. reflexivity.
Defined.

(** Nothing but [TypeError] comes out of the membership tests. *)
Lemma all_in_raises_TypeError keys item e :
  all_in keys item = Raise e -> e = TypeError.
Proof.
  induction keys as [| k keys IH]; cbn [all_in]; [discriminate|].
  destruct (py_contains k item) as [[|] | e'] eqn:Hk.
  - exact IH.
  - discriminate.
  - intros [= <-]. destruct item; cbn in Hk; congruence.
Qed.

Lemma validate_loop_stops items :
  forall x acc w,
    In x items -> not_a_container x ->
    exists w', for_each (validate_item "跳過格式不正確的項目: {item}") acc items w
               = (Raise TypeError, w').
Proof.
  induction items as [| y items IH]; intros x acc w Hin Hx; [contradiction|].
  cbn [for_each]. unfold bind at 1, validate_item at 1. unfold bind at 1, lift at 1.
  destruct (all_in REQUIRED_FIELDS y) as [b | e] eqn:Hy.
  - destruct Hin as [-> | Hin].
    { destruct x; try contradiction; discriminate. }
    destruct b.
    + unfold ret at 1. eapply IH; eassumption.
    + unfold bind at 1, logger at 1, ret at 1. eapply IH; eassumption.
  - apply all_in_raises_TypeError in Hy as ->. eauto.
Qed.

(** X8: validation is all or nothing for a page.  If the list the model
    returns holds one element that is no container ([null], a boolean or
    a number), the membership test on it raises [TypeError], and
    [analyze_with_gpt4] returns the empty list: the complete records of
    that page are lost with it. *)
Theorem X8_one_scalar_item_loses_the_page E text page_num w content body items x :
  chat_reply E (length (chat_requests w)) (AnalyzePrompt page_num text)
    = ChatContent content ->
  json_loads E content = Some body ->
  py_get body (utf8 "items") (JArr []) = Ok (JArr items) ->
  In x items ->
  not_a_container x ->
  exists w',
    analyze_with_gpt4 E text page_num w = (Ok [], w')
    /\ Outcome.last_log w' = Some (Log ERROR "GPT-4 分析失敗: {str(e)}" [LExn TypeError]).
Proof.
  intros Hreply Hloads Hitems Hin Hx.
  unfold analyze_with_gpt4, try_except, analyze_with_gpt4_try.
  unfold bind at 1, chat_completion at 1. rewrite Hreply.
  unfold bind at 1, loads at 1, lift at 1. rewrite Hloads.
  unfold bind at 1, lift at 1. rewrite Hitems.
  unfold validate, bind at 1, lift at 1. cbn [py_iter].
  match goal with
  | |- context [for_each _ ?acc items ?w1] =>
      destruct (validate_loop_stops items x acc w1 Hin Hx) as [w2 Hloop]
  end.
  rewrite Hloop. cbn. eexists. split; [reflexivity|].
  eapply last_log_snoc. reflexivity.
Qed.

Lemma X8_one_scalar_item_loses_the_page_witness :
  exists w',
    analyze_with_gpt4 Fixtures.poisoned_env (utf8 "Scope 1 emissions: 100 t") (JNum 1)
      Fixtures.w0 = (Ok [], w')
    /\ Outcome.last_log w' = Some (Log ERROR "GPT-4 分析失敗: {str(e)}" [LExn TypeError]).
Proof.
  apply (X8_one_scalar_item_loses_the_page Fixtures.poisoned_env
           (utf8 "Scope 1 emissions: 100 t") (JNum 1) Fixtures.w0
           Fixtures.poisoned_content
           (JObj [(utf8 "items", JArr [Fixtures.scenario_record; JNum 3])])
           [Fixtures.scenario_record; JNum 3] (JNum 3)).
  - reflexivity.
  - reflexivity.
  - reflexivity.
  - right. left. reflexivity.
  - exact I.
Defined.

(** ** More on [clean_text] *)

(** Reading a word with [split] only grows the word being read. *)
Lemma split_from_word t : forall cur rest,
  Forall (fun c => is_space c = false) t ->
  split_from cur (t ++ rest) = split_from (rev t ++ cur) rest.
Proof.
  induction t as [| c t IH]; intros cur rest Ht; [reflexivity|].
  inversion Ht as [| ? ? Hc Ht']; subst. cbn. rewrite Hc.
  rewrite IH by exact Ht'. rewrite <- app_assoc. reflexivity.
Qed.

(** Splitting what was joined by single spaces gives the words back. *)
Lemma split_join_words ws :
  Forall word ws -> split (join [SPACE] ws) = ws.
Proof.
  unfold split.
  induction 1 as [| t ws [Hne Ht] Hws IH]; [reflexivity|].
  destruct ws as [| t' ws].
  - cbn [join]. rewrite <- (app_nil_r t) at 1.
    rewrite split_from_word by exact Ht. cbn. rewrite app_nil_r.
    destruct (rev t) eqn:Hrev.
    + apply (f_equal (@rev char)) in Hrev. rewrite rev_involutive in Hrev.
      cbn in Hrev. congruence.
    + rewrite <- Hrev, rev_involutive. reflexivity.
  - change (join [SPACE] (t :: t' :: ws)) with (t ++ [SPACE] ++ join [SPACE] (t' :: ws)).
    rewrite split_from_word by exact Ht. cbn [app split_from].
    change (is_space SPACE) with true. cbn iota. rewrite app_nil_r.
    destruct (rev t) eqn:Hrev.
    + apply (f_equal (@rev char)) in Hrev. rewrite rev_involutive in Hrev.
      cbn in Hrev. congruence.
    + rewrite <- Hrev, rev_involutive. f_equal. exact IH.
Qed.

Lemma split_from_nil s : forall cur,
  split_from cur s = [] <-> cur = [] /\ forallb is_space s = true.
Proof.
  induction s as [| c s IH]; intros cur; cbn.
  - destruct cur; split; try tauto; try discriminate. intros [H _]. discriminate.
  - destruct (is_space c) eqn:Hc; cbn.
    + destruct cur as [| x cur].
      * rewrite IH. tauto.
      * split; [discriminate | intros [H _]; discriminate].
    + rewrite IH. split; [intros [H _]; discriminate | intros [_ H]; discriminate].
Qed.

(** X9: [clean_text] is idempotent, and it returns the empty string
    exactly for a text made of whitespace only (the empty text included),
    so those are the text items [process_content] leaves out. *)
Theorem X9_clean_text_idempotent_and_empty_on_blank (text : str) :
  clean_text (clean_text text) = clean_text text
  /\ (clean_text text = [] <-> forallb is_space text = true).
Proof.
  destruct (clean_text_normalizes text) as (Heq & Hwords & _).
  split.
  - destruct (clean_text_normalizes (clean_text text)) as (Heq2 & _).
    rewrite Heq2, Heq. rewrite split_join_words by exact Hwords. reflexivity.
  - rewrite Heq. split.
    + intros Hnil.
      assert (Hsplit : split text = []).
      { destruct (split text) as [| t ws] eqn:Hs; [reflexivity|].
        destruct (join_words_first _ Hwords ltac:(discriminate)) as (c & rest & Hj & _).
        congruence. }
      apply (split_from_nil text []) in Hsplit. tauto.
    + intros Hblank.
      assert (Hsplit : split text = [])
        by (apply (split_from_nil text []); auto).
      rewrite Hsplit. reflexivity.
Qed.

(** ** Requests sent to the model *)

Lemma sends_of_keeps {A} (c : M A) : keeps chat_requests c -> sends_at_most_one c.
Proof. intros Hc w r w' Hrun. left. exact (Hc _ _ _ Hrun). Qed.

Lemma sends_bind_l {A B} (c : M A) (k : A -> M B) :
  keeps chat_requests c -> (forall a, sends_at_most_one (k a)) ->
  sends_at_most_one (bind c k).
Proof.
  intros Hc Hk w r w'. unfold bind.
  destruct (c w) as [[a | e] w1] eqn:Hcw; pose proof (Hc _ _ _ Hcw) as Hsame.
  - intros Hrun. rewrite <- Hsame. exact (Hk a _ _ _ Hrun).
  - intros [= _ <-]. left. exact Hsame.
Qed.

Lemma sends_bind_r {A B} (c : M A) (k : A -> M B) :
  sends_at_most_one c -> (forall a, keeps chat_requests (k a)) ->
  sends_at_most_one (bind c k).
Proof.
  intros Hc Hk w r w'. unfold bind.
  destruct (c w) as [[a | e] w1] eqn:Hcw; pose proof (Hc _ _ _ Hcw) as Hsent.
  - intros Hrun. rewrite (Hk a _ _ _ Hrun). exact Hsent.
  - intros [= _ <-]. exact Hsent.
Qed.

Lemma analyze_with_gpt4_sends_one E text page_num :
  sends_at_most_one (analyze_with_gpt4 E text page_num).
Proof.
  intros w r w' Hrun. right. exists page_num, text.
  eapply analyze_with_gpt4_request. exact Hrun.
Qed.

Lemma page_text_of_keeps_chat_requests items : keeps chat_requests (page_text_of items).
Proof. unfold page_text_of, page_text_item. frame. Qed.

Lemma process_page_sends_at_most_one E all_results page :
  sends_at_most_one (process_page E all_results page).
Proof.
  unfold process_page.
  apply sends_bind_l; [frame | intros page_num].
  apply sends_bind_l; [frame | intros _].
  apply sends_bind_l; [frame | intros [|]].
  - apply sends_bind_l; [frame | intros items].
    apply sends_bind_l; [frame | intros item_list].
    apply sends_bind_l; [apply page_text_of_keeps_chat_requests | intros [| t page_text]].
    + apply sends_of_keeps. frame.
    + apply sends_bind_r; [apply analyze_with_gpt4_sends_one | intros results; frame].
  - apply sends_of_keeps. frame.
Qed.

Lemma process_pages_sends E pages :
  forall acc w r w',
    for_each (process_page E) acc pages w = (r, w') ->
    exists sent,
      chat_requests w' = chat_requests w ++ sent
      /\ (length sent <= length pages)%nat
      /\ Forall is_analysis sent.
Proof.
  induction pages as [| page pages IH]; intros acc w r w'; cbn [for_each].
  - intros [= _ <-]. exists []. rewrite app_nil_r.
    split; [reflexivity|]. split; [cbn; lia | constructor].
  - unfold bind.
    destruct (process_page E acc page w) as [[acc1 | e] w1] eqn:Hpage;
      pose proof (process_page_sends_at_most_one _ _ _ _ _ _ Hpage) as Hone.
    + intros Hrun. apply IH in Hrun as (sent & Hsent & Hlen & Hall).
      destruct Hone as [Hsame | (n & t & Hadd)].
      * exists sent. rewrite Hsent, Hsame.
        split; [reflexivity|]. split; [cbn; lia | exact Hall].
      * exists (AnalyzePrompt n t :: sent). rewrite Hsent, Hadd, <- app_assoc.
        split; [reflexivity|]. split; [cbn; lia|].
        constructor; [exact I | exact Hall].
    + intros [= _ <-].
      destruct Hone as [Hsame | (n & t & Hadd)].
      * exists []. rewrite app_nil_r.
        split; [exact Hsame|]. split; [cbn; lia | constructor].
      * exists [AnalyzePrompt n t].
        split; [exact Hadd|]. split; [cbn; lia|].
        constructor; [exact I | constructor].
Qed.

Lemma py_iter_length v l n :
  py_iter v = Ok l -> py_len v = Ok n -> Z.of_nat (length l) = n.
Proof.
  destruct v; cbn; try discriminate; intros [= <-] [= <-];
    rewrite ?length_map; reflexivity.
Qed.

(** X10: however [process_content] ends, normally or in an exception,
    what it sent to the model is at most one request per page of the
    parse result, each of them a request for the analysis of a page:
    no page is asked about twice, and no consolidation request is ever
    sent. *)
Theorem X10_at_most_one_request_per_page E result w r w' :
  process_content E result w = (r, w') ->
  exists sent,
    chat_requests w' = chat_requests w ++ sent
    /\ Forall is_analysis sent
    /\ (forall pages n,
          py_getitem result (utf8 "pages") = Ok pages ->
          py_len pages = Ok n ->
          Z.of_nat (length sent) <= n).
Proof.
  intros Hrun.
  assert (Hcollect : forall rc wc,
             collect_pages E result w = (rc, wc) ->
             exists sent,
               chat_requests wc = chat_requests w ++ sent
               /\ Forall is_analysis sent
               /\ (forall pages n,
                     py_getitem result (utf8 "pages") = Ok pages ->
                     py_len pages = Ok n ->
                     Z.of_nat (length sent) <= n)).
  { clear. intros rc wc. unfold collect_pages.
    assert (Hnone : forall w0 : world,
               chat_requests w0 = chat_requests w ->
               exists sent,
                 chat_requests w0 = chat_requests w ++ sent
                 /\ Forall is_analysis sent
                 /\ (forall pages n,
                       py_getitem result (utf8 "pages") = Ok pages ->
                       py_len pages = Ok n ->
                       Z.of_nat (length sent) <= n)).
    { intros w0 Hsame. exists []. rewrite app_nil_r.
      split; [exact Hsame|]. split; [constructor|].
      intros pages n _ Hlen. cbn.
      destruct pages; cbn in Hlen; try discriminate; injection Hlen as <-; lia. }
    unfold bind at 1, lift at 1.
    destruct (py_getitem result (utf8 "pages")) as [pages | e] eqn:Hpages;
      [|intros [= _ <-]; apply Hnone; reflexivity].
    unfold bind at 1, lift at 1.
    destruct (py_len pages) as [total | e] eqn:Hlen;
      [|intros [= _ <-]; apply Hnone; reflexivity].
    unfold bind at 1, logger at 1. unfold bind at 1, lift at 1.
    destruct (py_iter pages) as [page_list | e] eqn:Hiter;
      [|intros [= _ <-]; apply Hnone; reflexivity].
    unfold bind at 1.
    match goal with
    | |- context [for_each (process_page E) [] page_list ?w1] =>
        destruct (for_each (process_page E) [] page_list w1) as [rl wl] eqn:Hloop
    end.
    apply process_pages_sends in Hloop as (sent & Hsent & Hle & Hall). cbn in Hsent.
    intros Hrest. exists sent.
    assert (Hwc : chat_requests wc = chat_requests wl).
    { destruct rl as [acc | e]; [|injection Hrest as _ <-; reflexivity].
      unfold bind, logger, ret in Hrest. injection Hrest as _ <-. reflexivity. }
    split; [congruence|]. split; [exact Hall|].
    intros pages' n [= <-] Hn.
    rewrite <- (py_iter_length _ _ _ Hiter Hn). lia. }
  revert Hrun. unfold process_content. unfold bind at 1.
  destruct (collect_pages E result w) as [[all_results | e] w1] eqn:Hrun1.
  - rewrite integrate_results_returns_input. intros [= _ <-].
    exact (Hcollect _ _ eq_refl).
  - intros [= _ <-]. exact (Hcollect _ _ eq_refl).
Qed.

Lemma X10_at_most_one_request_per_page_witness :
  exists r w',
    process_content Fixtures.babbling_env Fixtures.two_items Fixtures.w0 = (r, w')
    /\ exists sent,
         chat_requests w' = chat_requests Fixtures.w0 ++ sent
         /\ Forall is_analysis sent
         /\ (forall pages n,
               py_getitem Fixtures.two_items (utf8 "pages") = Ok pages ->
               py_len pages = Ok n ->
               Z.of_nat (length sent) <= n).
Proof.
  do 2 eexists. split; [vm_compute; reflexivity|].
  eapply (X10_at_most_one_request_per_page Fixtures.babbling_env Fixtures.two_items
            Fixtures.w0).
  vm_compute. reflexivity.
Defined.

(** ** More on the writer *)

(** Everything [save_to_excel] computes when it returns normally. *)
Lemma save_to_excel_ok_full E data excel_path w w' :
  save_to_excel E data excel_path w = (Ok tt, w') ->
  exists df deduplicated sorted chapters sources items values,
    pd.DataFrame_ data = Ok df
    /\ pd.drop_duplicates df = Ok deduplicated
    /\ pd.sort_values SORT_COLUMNS deduplicated = Ok sorted
    /\ pd.column (utf8 "章節") (pd.rename RENAMED_COLUMNS sorted) = Ok chapters
    /\ pd.column (utf8 "資料來源") (pd.rename RENAMED_COLUMNS sorted) = Ok sources
    /\ pd.column (utf8 "項目") (pd.rename RENAMED_COLUMNS sorted) = Ok items
    /\ pd.column (utf8 "數據") (pd.rename RENAMED_COLUMNS sorted) = Ok values
    /\ files w' = files w ++
         [(excel_path,
           Workbook (utf8 "ESG報告內容")
                    (pd.columns (pd.rename RENAMED_COLUMNS sorted))
                    (pd.rows sorted) column_widths)]
    /\ log w' = log w ++
         [Log INFO "保存結果到 Excel: {excel_path}" [LJson (JStr excel_path)];
          Log INFO "統計資訊: {stats}"
            [LNum (pd.nunique [] chapters); LNum (pd.nunique [] sources);
             LNum (pd.nunique [] items); LNum (pd.count_notna values);
             LNum (Z.of_nat (length (pd.rows sorted)))]].
Proof.
  unfold save_to_excel. intros Hrun.
  apply bind_ok_inv in Hrun as (u0 & w1 & Hlog & Hrun).
  apply bind_ok_inv in Hrun as (df & w2 & Hdf & Hrun).
  apply bind_ok_inv in Hrun as (deduplicated & w3 & Hdd & Hrun).
  apply bind_ok_inv in Hrun as (sorted & w4 & Hsort & Hrun).
  apply bind_ok_inv in Hrun as (u1 & w5 & Hwriter & Hrun).
  apply bind_ok_inv in Hrun as (u2 & w6 & Hclose & Hrun).
  apply bind_ok_inv in Hrun as (chapters & w7 & Hch & Hrun).
  apply bind_ok_inv in Hrun as (sources & w8 & Hso & Hrun).
  apply bind_ok_inv in Hrun as (items & w9 & Hit & Hrun).
  apply bind_ok_inv in Hrun as (values & w10 & Hva & Hrun).
  apply lift_ok_inv in Hdf as [Hdf ->].
  apply lift_ok_inv in Hdd as [Hdd ->].
  apply lift_ok_inv in Hsort as [Hsort ->].
  apply lift_ok_inv in Hch as [Hch ->].
  apply lift_ok_inv in Hso as [Hso ->].
  apply lift_ok_inv in Hit as [Hit ->].
  apply lift_ok_inv in Hva as [Hva ->].
  exists df, deduplicated, sorted, chapters, sources, items, values.
  repeat (split; [assumption|]).
  unfold ExcelWriter in Hwriter. destruct (can_write E excel_path); [|discriminate].
  injection Hwriter as _ <-. injection Hclose as _ <-.
  injection Hlog as _ <-. injection Hrun as <-. cbn.
  rewrite <- app_assoc. split; reflexivity.
Qed.

Lemma label_index_counts label cols i :
  pd.label_index label cols = Some i ->
  (1 <= length (filter (str_eqb label) cols))%nat.
Proof.
  revert i. induction cols as [| c cols IH]; intros i; cbn; [discriminate|].
  destruct (str_eqb label c); cbn; [lia|].
  destruct (pd.label_index label cols) as [j |]; [|discriminate].
  intros _. eapply IH. reflexivity.
Qed.

(** A column that can be read is the only one of its label, and has a
    cell for each row. *)
Lemma column_ok label df cells :
  pd.column label df = Ok cells ->
  length (filter (str_eqb label) (pd.columns df)) = 1%nat
  /\ length cells = length (pd.rows df).
Proof.
  unfold pd.column.
  destruct (pd.label_index label (pd.columns df)) as [i |] eqn:Hi; [|discriminate].
  destruct (1 <? length (filter (str_eqb label) (pd.columns df)))%nat eqn:Hdup;
    [discriminate|].
  intros [= <-]. apply Nat.ltb_ge in Hdup.
  pose proof (label_index_counts _ _ _ Hi). rewrite length_map. lia.
Qed.

Lemma keep_first_incl seen rs : incl (pd.keep_first seen rs) rs.
Proof.
  revert seen. induction rs as [| r rs IH]; intros seen; cbn; [apply incl_refl|].
  destruct (existsb (pd.keys_eqb (pd.row_key r)) seen).
  - apply incl_tl. apply IH.
  - apply incl_cons; [left; reflexivity | apply incl_tl; apply IH].
Qed.

(** Every row of the table has a cell for each column, from the table
    built from the records to the one that is written. *)
Lemma table_is_rectangular data df deduplicated by_ sorted :
  pd.DataFrame_ data = Ok df ->
  pd.drop_duplicates df = Ok deduplicated ->
  pd.sort_values by_ deduplicated = Ok sorted ->
  Forall (fun row => length row = length (pd.columns sorted)) (pd.rows sorted).
Proof.
  intros Hdf Hdd Hsort.
  assert (H1 : Forall (fun row => length row = length (pd.columns df)) (pd.rows df)).
  { unfold pd.DataFrame_ in Hdf. destruct (pd.as_dicts data) as [ds |]; [|discriminate].
    injection Hdf as <-. cbn. apply Forall_forall. intros row Hrow.
    apply in_map_iff in Hrow as (d & <- & _). unfold pd.row_of. apply length_map. }
  assert (H2 : Forall (fun row => length row = length (pd.columns deduplicated))
                      (pd.rows deduplicated)).
  { unfold pd.drop_duplicates in Hdd.
    destruct (pd.empty df); [injection Hdd as <-; exact H1|].
    destruct (forallb pd.hashable (pd.rows df)); [|discriminate].
    injection Hdd as <-. cbn. rewrite Forall_forall in *.
    intros row Hrow. apply H1. eapply keep_first_incl. exact Hrow. }
  apply sort_values_spec in Hsort as (Hcols & idx & _ & Hrows).
  rewrite Hcols, Hrows.
  eapply Permutation_Forall; [apply sort_rows_permutation | exact H2].
Qed.

(** X11: the workbook [save_to_excel] saves when it returns normally has
    the sheet name and the column widths of the source, a header that
    holds each of the four display labels exactly once, and in every row
    as many cells as the header has labels. *)
Theorem X11_saved_sheet_is_well_formed E data excel_path w w' :
  save_to_excel E data excel_path w = (Ok tt, w') ->
  exists book,
    files w' = files w ++ [(excel_path, book)]
    /\ sheet_name book = utf8 "ESG報告內容"
    /\ widths book = [("A", 15); ("B", 10); ("C", 40); ("D", 30)]%string
    /\ Forall (fun label => length (filter (str_eqb label) (header book)) = 1%nat)
              [utf8 "章節"; utf8 "資料來源"; utf8 "項目"; utf8 "數據"]
    /\ Forall (fun row => length row = length (header book)) (body book).
Proof.
  intros Hrun.
  apply save_to_excel_ok_full in Hrun
    as (df & dd & sorted & chapters & sources & items & values
        & Hdf & Hdd & Hsort & Hch & Hso & Hit & Hva & Hfiles & _).
  eexists. split; [exact Hfiles|]. cbn [sheet_name widths header body].
  split; [reflexivity|]. split; [reflexivity|]. split.
  - repeat constructor; eapply column_ok; eassumption.
  - unfold pd.rename. cbn [pd.columns]. rewrite length_map.
    eapply table_is_rectangular; eassumption.
Qed.

Lemma X11_saved_sheet_is_well_formed_witness :
  exists w' book,
    save_to_excel Fixtures.stuck_env Fixtures.repeated_records Fixtures.xlsx Fixtures.w0
      = (Ok tt, w')
    /\ files w' = files Fixtures.w0 ++ [(Fixtures.xlsx, book)]
    /\ sheet_name book = utf8 "ESG報告內容"
    /\ widths book = [("A", 15); ("B", 10); ("C", 40); ("D", 30)]%string
    /\ Forall (fun label => length (filter (str_eqb label) (header book)) = 1%nat)
              [utf8 "章節"; utf8 "資料來源"; utf8 "項目"; utf8 "數據"]
    /\ Forall (fun row => length row = length (header book)) (body book).
Proof.
  assert (Hrun : save_to_excel Fixtures.stuck_env Fixtures.repeated_records Fixtures.xlsx
                   Fixtures.w0
                 = (Ok tt, snd (save_to_excel Fixtures.stuck_env Fixtures.repeated_records
                                  Fixtures.xlsx Fixtures.w0)))
    by (vm_compute; reflexivity).
  destruct (X11_saved_sheet_is_well_formed _ _ _ _ _ Hrun) as (book & H).
  exists (snd (save_to_excel Fixtures.stuck_env Fixtures.repeated_records Fixtures.xlsx
                 Fixtures.w0)), book.
  split; [exact Hrun | exact H].
Defined.

Lemma nunique_bounds cs : forall seen,
  0 <= pd.nunique seen cs <= Z.of_nat (length cs).
Proof.
  induction cs as [| c cs IH]; intros seen; cbn [pd.nunique length]; [lia|].
  destruct (existsb (pd.key_eqb (pd.cell_key c)) seen).
  - specialize (IH seen). lia.
  - specialize (IH (pd.cell_key c :: seen)). lia.
Qed.

Lemma nunique_positive c cs : 1 <= pd.nunique [] (c :: cs).
Proof.
  cbn [pd.nunique existsb]. pose proof (nunique_bounds cs [pd.cell_key c]). lia.
Qed.

Lemma count_notna_bounds cs : 0 <= pd.count_notna cs <= Z.of_nat (length cs).
Proof.
  unfold pd.count_notna.
  pose proof (filter_length_le
                (fun c => match pd.cell_key c with Some pd.KNa => false | _ => true end) cs).
  lia.
Qed.

(** X12: the last thing [save_to_excel] logs when it returns normally is
    the statistics record.  Its total is the number of rows written; the
    numbers of distinct chapters, sources and items and the number of
    rows with a value lie between 0 and that total; and when a row was
    written there is at least one chapter, one source and one item. *)
Theorem X12_statistics_are_consistent E data excel_path w w' :
  save_to_excel E data excel_path w = (Ok tt, w') ->
  exists book chapters sources items valued total,
    files w' = files w ++ [(excel_path, book)]
    /\ Outcome.last_log w'
       = Some (Log INFO "統計資訊: {stats}"
                 [LNum chapters; LNum sources; LNum items; LNum valued; LNum total])
    /\ total = Z.of_nat (length (body book))
    /\ 0 <= chapters <= total
    /\ 0 <= sources <= total
    /\ 0 <= items <= total
    /\ 0 <= valued <= total
    /\ (0 < total -> 1 <= chapters /\ 1 <= sources /\ 1 <= items).
Proof.
  intros Hrun.
  apply save_to_excel_ok_full in Hrun
    as (df & dd & sorted & chapters & sources & items & values
        & _ & _ & _ & Hch & Hso & Hit & Hva & Hfiles & Hlog).
  apply column_ok in Hch as [_ Hch]. apply column_ok in Hso as [_ Hso].
  apply column_ok in Hit as [_ Hit]. apply column_ok in Hva as [_ Hva].
  cbn [pd.rename pd.rows] in Hch, Hso, Hit, Hva.
  do 6 eexists. split; [exact Hfiles|].
  split.
  { apply (last_log_snoc _ _
             (log w ++ [Log INFO "保存結果到 Excel: {excel_path}" [LJson (JStr excel_path)]])).
    rewrite Hlog, <- app_assoc. reflexivity. }
  cbn [body]. split; [reflexivity|].
  pose proof (nunique_bounds chapters []). pose proof (nunique_bounds sources []).
  pose proof (nunique_bounds items []). pose proof (count_notna_bounds values).
  repeat (split; [lia|]).
  intros Hpos.
  destruct chapters as [| c1 chapters]; [cbn in Hch; lia|].
  destruct sources as [| c2 sources]; [cbn in Hso; lia|].
  destruct items as [| c3 items]; [cbn in Hit; lia|].
  repeat split; apply nunique_positive.
Qed.

Lemma X12_statistics_are_consistent_witness :
  exists w' book chapters sources items valued total,
    save_to_excel Fixtures.stuck_env Fixtures.repeated_records Fixtures.xlsx Fixtures.w0
      = (Ok tt, w')
    /\ files w' = files Fixtures.w0 ++ [(Fixtures.xlsx, book)]
    /\ Outcome.last_log w'
       = Some (Log INFO "統計資訊: {stats}"
                 [LNum chapters; LNum sources; LNum items; LNum valued; LNum total])
    /\ total = Z.of_nat (length (body book))
    /\ 0 <= chapters <= total
    /\ 0 <= sources <= total
    /\ 0 <= items <= total
    /\ 0 <= valued <= total
    /\ (0 < total -> 1 <= chapters /\ 1 <= sources /\ 1 <= items).
Proof.
  assert (Hrun : save_to_excel Fixtures.stuck_env Fixtures.repeated_records Fixtures.xlsx
                   Fixtures.w0
                 = (Ok tt, snd (save_to_excel Fixtures.stuck_env Fixtures.repeated_records
                                  Fixtures.xlsx Fixtures.w0)))
    by (vm_compute; reflexivity).
  destruct (X12_statistics_are_consistent _ _ _ _ _ Hrun)
    as (book & chapters & sources & items & valued & total & H).
  exists (snd (save_to_excel Fixtures.stuck_env Fixtures.repeated_records Fixtures.xlsx
                 Fixtures.w0)), book, chapters, sources, items, valued, total.
  split; [exact Hrun | exact H].
Defined.

Lemma key_eqb_refl k : pd.key_eqb k k = true.
Proof.
  destruct k as [[| n | t] |]; cbn;
    [reflexivity | apply Z.eqb_refl | apply str_eqb_refl | reflexivity].
Qed.

Lemma keys_eqb_refl ks : pd.keys_eqb ks ks = true.
Proof.
  induction ks as [| k ks IH]; cbn; [reflexivity|]. rewrite key_eqb_refl. exact IH.
Qed.

(** The rows [keep_first] keeps differ from the rows seen before and from
    each other. *)
Lemma keep_first_distinct rs : forall seen,
  Forall (fun r => existsb (pd.keys_eqb (pd.row_key r)) seen = false)
         (pd.keep_first seen rs)
  /\ ForallOrdPairs (fun a b => ~ same_row b a) (pd.keep_first seen rs).
Proof.
  induction rs as [| r rs IH]; intros seen; cbn [pd.keep_first].
  - split; constructor.
  - destruct (existsb (pd.keys_eqb (pd.row_key r)) seen) eqn:Hseen; [apply IH|].
    destruct (IH (pd.row_key r :: seen)) as [Hnew Hpairs].
    split.
    + constructor; [exact Hseen|].
      eapply Forall_impl; [|exact Hnew].
      intros r' H. cbn in H. apply orb_false_iff in H. tauto.
    + constructor; [|exact Hpairs].
      eapply Forall_impl; [|exact Hnew].
      intros r' H. cbn in H. apply orb_false_iff in H as [H _].
      unfold same_row. congruence.
Qed.

(** Every row is kept, or is the same as a row seen or kept. *)
Lemma keep_first_represents rs : forall seen r,
  In r rs ->
  existsb (pd.keys_eqb (pd.row_key r)) seen = true
  \/ exists r', In r' (pd.keep_first seen rs) /\ same_row r r'.
Proof.
  induction rs as [| r0 rs IH]; intros seen r Hin; [contradiction|].
  cbn [pd.keep_first].
  destruct (existsb (pd.keys_eqb (pd.row_key r0)) seen) eqn:Hseen.
  - destruct Hin as [-> | Hin]; [left; exact Hseen | apply IH; exact Hin].
  - destruct Hin as [-> | Hin].
    + right. exists r. split; [left; reflexivity | apply keys_eqb_refl].
    + destruct (IH (pd.row_key r0 :: seen) r Hin) as [H | (r' & Hr' & Hsame)].
      * cbn in H. apply orb_true_iff in H as [H | H].
        -- right. exists r0. split; [left; reflexivity | exact H].
        -- left. exact H.
      * right. exists r'. split; [right; exact Hr' | exact Hsame].
Qed.

(** X13: [drop_duplicates] keeps rows of the table and invents none;
    every row of the table is the same as a row it keeps; and in a table
    with columns no two rows it keeps are the same. *)
Theorem X13_drop_duplicates_keeps_one_of_each df deduplicated :
  pd.drop_duplicates df = Ok deduplicated ->
  incl (pd.rows deduplicated) (pd.rows df)
  /\ (forall r, In r (pd.rows df) ->
                exists r', In r' (pd.rows deduplicated) /\ same_row r r')
  /\ (pd.columns df <> [] ->
      ForallOrdPairs (fun a b => ~ same_row b a) (pd.rows deduplicated)).
Proof.
  unfold pd.drop_duplicates.
  destruct (pd.empty df) eqn:Hempty.
  - intros [= <-]. split; [apply incl_refl|]. split.
    + intros r Hr. exists r. split; [exact Hr | apply keys_eqb_refl].
    + intros Hcols. destruct df as [[| c cols] [| r rows]]; cbn in *;
        try congruence; constructor.
  - destruct (forallb pd.hashable (pd.rows df)); [|discriminate].
    intros [= <-]. cbn [pd.rows]. split; [apply keep_first_incl|]. split.
    + intros r Hr.
      destruct (keep_first_represents (pd.rows df) [] r Hr) as [H | H];
        [discriminate | exact H].
    + intros _. apply (keep_first_distinct (pd.rows df) []).
Qed.

Lemma X13_drop_duplicates_keeps_one_of_each_witness :
  let df := pd.Frame [utf8 "n"] [[Cell (JNum 1)]; [Cell (JBool true)]; [Cell (JNum 0)]] in
  let deduplicated := pd.Frame [utf8 "n"] [[Cell (JNum 1)]; [Cell (JNum 0)]] in
  incl (pd.rows deduplicated) (pd.rows df)
  /\ (forall r, In r (pd.rows df) ->
                exists r', In r' (pd.rows deduplicated) /\ same_row r r')
  /\ (pd.columns df <> [] ->
      ForallOrdPairs (fun a b => ~ same_row b a) (pd.rows deduplicated)).
Proof.
  apply (X13_drop_duplicates_keeps_one_of_each
           (pd.Frame [utf8 "n"] [[Cell (JNum 1)]; [Cell (JBool true)]; [Cell (JNum 0)]])).
  reflexivity.
Defined.

Lemma sort_rows_of_sorted idx rs :
  StronglySorted (row_le idx) rs -> pd.sort_rows idx rs = rs.
Proof.
  induction 1 as [| r rs Hs IH Hall]; cbn; [reflexivity|].
  rewrite IH. destruct rs as [| r' rs]; [reflexivity|].
  cbn. inversion Hall as [| ? ? Hle _]; subst.
  unfold row_le in Hle. rewrite Hle. reflexivity.
Qed.

Lemma existsb_permutation {A} (f : A -> bool) l l' :
  Permutation l l' -> existsb f l = existsb f l'.
Proof.
  induction 1 as [| x l l' _ IH | x y l | l l' l'' _ IH1 _ IH2]; cbn.
  - reflexivity.
  - rewrite IH. reflexivity.
  - destruct (f x), (f y); reflexivity.
  - congruence.
Qed.

Lemma sortable_permutation i rs rs' :
  Permutation rs rs' -> pd.sortable i rs = pd.sortable i rs'.
Proof.
  intros Hperm. unfold pd.sortable.
  pose proof (Permutation_map (fun r => pd.cell_key (nth i r NaN)) Hperm) as Hmap.
  rewrite !(existsb_permutation _ _ _ Hmap). reflexivity.
Qed.

Lemma mapM_ext {A B} (f g : A -> result B) l :
  (forall x, f x = g x) -> mapM f l = mapM g l.
Proof.
  intros Hfg. induction l as [| x l IH]; cbn; [reflexivity|].
  rewrite Hfg, IH. reflexivity.
Qed.

(** X14: sorting a sorted table changes nothing: [sort_values] applied to
    its own result, by the same columns, returns it as it is. *)
Theorem X14_sort_values_is_idempotent by_ df sorted :
  pd.sort_values by_ df = Ok sorted ->
  pd.sort_values by_ sorted = Ok sorted.
Proof.
  unfold pd.sort_values.
  destruct (mapM _ by_) as [idx | e] eqn:Hidx; [|discriminate].
  destruct (mapM _ idx) as [us | e] eqn:Hsortable; [|discriminate].
  intros [= <-]. cbn [pd.columns pd.rows]. rewrite Hidx.
  rewrite (mapM_ext _ (fun i => pd.sortable i (pd.rows df))).
  - rewrite Hsortable.
    rewrite (sort_rows_of_sorted idx _ (sort_rows_sorted idx (pd.rows df))).
    reflexivity.
  - intros i. symmetry. apply sortable_permutation. apply sort_rows_permutation.
Qed.

Lemma X14_sort_values_is_idempotent_witness :
  let sorted :=
    pd.Frame [utf8 "item"; utf8 "value"]
             [[Cell (JStr (utf8 "a")); Cell (JNum 2)];
              [Cell (JStr (utf8 "b")); Cell (JNum 1)];
              [Cell JNull; Cell (JNum 3)]] in
  pd.sort_values [utf8 "item"] sorted = Ok sorted.
Proof.
  apply (X14_sort_values_is_idempotent [utf8 "item"]
           (pd.Frame [utf8 "item"; utf8 "value"]
                     [[Cell JNull; Cell (JNum 3)];
                      [Cell (JStr (utf8 "b")); Cell (JNum 1)];
                      [Cell (JStr (utf8 "a")); Cell (JNum 2)]])).
  reflexivity.
Defined.

(** ** Values the writer cannot hash *)

Lemma as_dicts_records ds : pd.as_dicts (map JObj ds) = Some ds.
Proof.
  induction ds as [| d ds IH]; cbn; [reflexivity|]. rewrite IH. reflexivity.
Qed.

Lemma dict_lookup_key k d v : dict_lookup k d = Some v -> In k (map fst d).
Proof.
  induction d as [| [k' v'] d IH]; cbn; [discriminate|].
  destruct (str_eqb k k') eqn:Hk.
  - intros _. left. symmetry. apply str_eqb_eq. exact Hk.
  - intros H. right. apply IH. exact H.
Qed.

Lemma add_keys_in ks : forall cols k,
  In k cols \/ In k ks ->
  In k (fold_left (fun cols k => if pd.mem_str k cols then cols else cols ++ [k])
                  ks cols).
Proof.
  induction ks as [| k' ks IH]; intros cols k; cbn.
  - intros [H | []]. exact H.
  - intros [H | [-> | H]]; apply IH.
    + left. destruct (pd.mem_str k' cols); [exact H | apply in_or_app; left; exact H].
    + left. destruct (pd.mem_str k cols) eqn:Hmem.
      * unfold pd.mem_str in Hmem. apply existsb_exists in Hmem as (c & Hc & Heq).
        apply str_eqb_eq in Heq. subst c. exact Hc.
      * apply in_or_app. right. left. reflexivity.
    + right. exact H.
Qed.

Lemma union_keys_grows ds : forall cols k,
  In k cols ->
  In k (fold_left
          (fun cols (d : dict) =>
             fold_left (fun cols k => if pd.mem_str k cols then cols else cols ++ [k])
                       (map fst d) cols)
          ds cols).
Proof.
  induction ds as [| d ds IH]; intros cols k Hin; cbn; [exact Hin|].
  apply IH. apply add_keys_in. left. exact Hin.
Qed.

Lemma union_keys_from ds : forall cols d k,
  In d ds -> In k (map fst d) ->
  In k (fold_left
          (fun cols (d : dict) =>
             fold_left (fun cols k => if pd.mem_str k cols then cols else cols ++ [k])
                       (map fst d) cols)
          ds cols).
Proof.
  induction ds as [| d' ds IH]; intros cols d k; cbn; [intros []|].
  intros [-> | Hd] Hk.
  - apply union_keys_grows. apply add_keys_in. right. exact Hk.
  - eapply IH; eassumption.
Qed.

(** Every key of every record labels a column. *)
Lemma union_keys_in ds d k :
  In d ds -> In k (map fst d) -> In k (pd.union_keys ds).
Proof. apply union_keys_from. Qed.

Lemma forallb_false_in {A} (f : A -> bool) l x :
  In x l -> f x = false -> forallb f l = false.
Proof.
  intros Hin Hx. destruct (forallb f l) eqn:Hall; [|reflexivity].
  rewrite forallb_forall in Hall. rewrite (Hall x Hin) in Hx. discriminate.
Qed.

(** X15: one nested value loses the workbook.  When a record of the list
    handed to [save_to_excel] holds a list or an object under any key,
    [drop_duplicates] cannot hash it: [save_to_excel] raises TypeError
    after its first log line and writes no file, whatever the other
    records are. *)
Theorem X15_nested_value_loses_the_workbook E records d k v excel_path w :
  In d records ->
  dict_lookup k d = Some v ->
  nested v ->
  save_to_excel E (map JObj records) excel_path w
  = (Raise TypeError,
     add_log w [Log INFO "保存結果到 Excel: {excel_path}" [LJson (JStr excel_path)]]).
Proof.
  intros Hd Hv Hnested.
  assert (Hcol : In k (pd.union_keys records)).
  { eapply union_keys_in; [exact Hd | eapply dict_lookup_key; exact Hv]. }
  assert (Hdrop : pd.drop_duplicates
                    (pd.Frame (pd.union_keys records)
                              (map (pd.row_of (pd.union_keys records)) records))
                  = Raise TypeError).
  { unfold pd.drop_duplicates, pd.empty. cbn [pd.columns pd.rows].
    destruct (pd.union_keys records) as [| c cols] eqn:Hcols; [destruct Hcol|].
    destruct records as [| d0 records]; [destruct Hd|].
    cbn [map]. rewrite <- (map_cons (pd.row_of (c :: cols)) d0 records).
    rewrite (forallb_false_in pd.hashable _ (pd.row_of (c :: cols) d)); [reflexivity | |].
    - apply in_map. exact Hd.
    - apply (forallb_false_in _ _ (Cell v)).
      + unfold pd.row_of.
        change (Cell v) with
          ((fun c => match Some v with Some v => Cell v | None => NaN end) k).
        rewrite <- Hv. apply (in_map (fun c => match dict_lookup c d with
                                               | Some v => Cell v
                                               | None => NaN
                                               end)). exact Hcol.
      + destruct v; [destruct Hnested .. | reflexivity | reflexivity]. }
  unfold save_to_excel, bind, logger, lift, pd.DataFrame_.
  rewrite as_dicts_records. cbn zeta. rewrite Hdrop. reflexivity.
Qed.

Lemma X15_nested_value_loses_the_workbook_witness :
  let d := [(utf8 "chapter", JStr (utf8 "E"));
            (utf8 "source", JStr (utf8 "p1"));
            (utf8 "item", JStr (utf8 "water"));
            (utf8 "value", JArr [JStr (utf8 "1"); JStr (utf8 "2")])] in
  save_to_excel Fixtures.scenario_env (map JObj [d]) Fixtures.xlsx Fixtures.w0
  = (Raise TypeError,
     add_log Fixtures.w0
       [Log INFO "保存結果到 Excel: {excel_path}" [LJson (JStr Fixtures.xlsx)]]).
Proof.
  intros d.
  apply (X15_nested_value_loses_the_workbook Fixtures.scenario_env [d] d (utf8 "value")
           (JArr [JStr (utf8 "1"); JStr (utf8 "2")])).
  - left. reflexivity.
  - reflexivity.
  - exact I.
Defined.

(** ** Pages the loop cannot read *)

(** A loop whose body raises on one element of the list raises: there, or
    at an element before it. *)
Lemma for_each_raises {A S} (body : S -> A -> M S) x :
  (forall acc w, exists e w', body acc x w = (Raise e, w')) ->
  forall l, In x l ->
  forall acc w, exists e w', for_each body acc l w = (Raise e, w').
Proof.
  intros Hx l. induction l as [| y l IH]; intros Hin acc w; [destruct Hin|].
  cbn [for_each]. unfold bind.
  destruct (body acc y w) as [[acc' | e] w1] eqn:Hy; [|eauto].
  destruct Hin as [-> | Hin].
  - destruct (Hx acc w) as (e & w' & Hraise). congruence.
  - apply IH. exact Hin.
Qed.

Lemma page_text_item_raises item :
  unreadable_item item = true ->
  forall acc w, exists e w', page_text_item acc item w = (Raise e, w').
Proof.
  unfold unreadable_item, page_text_item, bind, lift. intros H acc w.
  destruct (py_getitem item (utf8 "type")) as [type | e]; [|eauto].
  apply andb_prop in H as [-> H].
  destruct (py_getitem item (utf8 "value")) as [value | e]; [|eauto].
  destruct (clean_text_of value) as [text | e]; [discriminate | eauto].
Qed.

Lemma process_page_raises E page :
  unreadable_page page ->
  forall acc w, exists e w', process_page E acc page w = (Raise e, w').
Proof.
  intros Hpage acc w. unfold process_page, bind at 1, lift at 1.
  destruct (py_getitem page (utf8 "page")) as [page_num | e] eqn:Hnum; [|eauto].
  destruct Hpage as [(e & He) | (item_list & Hitems & Hbad)]; [congruence|].
  destruct page as [| | | | | d]; try discriminate.
  unfold py_getitem in Hitems. unfold bind, logger, lift. cbn [py_contains py_getitem].
  revert Hitems.
  destruct (dict_lookup (utf8 "items") d) as [items |]; [|discriminate].
  intros [= ->]. cbn [py_iter].
  apply existsb_exists in Hbad as (item & Hin & Hbad).
  destruct (for_each_raises page_text_item item (page_text_item_raises item Hbad)
              item_list Hin []
              (World (now w) (status_requests w) (sleeps w) (chat_requests w)
                     (log w ++ [Log INFO "處理第 {page_num} 頁" [LJson page_num]])
                     (files w)))
    as (e & w' & Hraise).
  unfold page_text_of. cbn in Hraise |- *. rewrite Hraise. eauto.
Qed.

Lemma process_content_raises E result page_list page w :
  py_getitem result (utf8 "pages") = Ok (JArr page_list) ->
  In page page_list ->
  unreadable_page page ->
  exists e w', process_content E result w = (Raise e, w').
Proof.
  intros Hpages Hin Hpage.
  unfold process_content, collect_pages, bind, lift, logger.
  rewrite Hpages. cbn [py_len py_iter].
  match goal with
  | |- context [for_each (process_page E) [] page_list ?w1] =>
      destruct (for_each_raises (process_page E) page (process_page_raises E page Hpage)
                  page_list Hin [] w1) as (e & w' & Hraise);
      rewrite Hraise
  end.
  eauto.
Qed.

(** X16: one unreadable page loses the run.  When the parse result the
    service returns holds, anywhere in its list of pages, a page without
    [page] or with an item that has no [type] (or a text item whose
    [value] is missing or no string), [process_content] raises, and
    [process_pdf] logs the error, raises it again and saves no workbook:
    the failure is not confined to the page, as a failure of the model
    is. *)
Theorem X16_one_unreadable_page_loses_the_run
  E job_id result page_list page excel_path w :
  result_reply E job_id = HttpJson result ->
  py_getitem result (utf8 "pages") = Ok (JArr page_list) ->
  In page page_list ->
  unreadable_page page ->
  (forall w1, exists e w2, process_content E result w1 = (Raise e, w2))
  /\ exists e w',
       process_pdf E excel_path job_id w = (Raise e, w')
       /\ files w' = files w
       /\ Outcome.last_log w'
          = Some (Log ERROR "處理過程中發生錯誤: {str(e)}" [LExn e]).
Proof.
  intros Hreply Hpages Hin Hpage. split.
  - intros w1. eapply process_content_raises; eassumption.
  - unfold process_pdf, try_except.
    destruct (get_result E job_id w) as [r w1] eqn:Hget.
    assert (Hr : r = Ok result).
    { revert Hget. unfold get_result, bind, logger, lift. rewrite Hreply.
      intros [= <- _]. reflexivity. }
    subst r.
    destruct (process_content_raises E result page_list page w1 Hpages Hin Hpage)
      as (e & w2 & Hcontent).
    unfold bind at 1. rewrite Hget. unfold bind at 1. rewrite Hcontent.
    exists e. eexists. split; [reflexivity|]. split.
    + cbn. rewrite (keeps_process_content _ _ _ _ _ Hcontent).
      exact (keeps_get_result _ _ _ _ _ Hget).
    + apply last_log_snoc with (l := log w2). reflexivity.
Qed.

Lemma X16_one_unreadable_page_loses_the_run_witness :
  (forall w1, exists e w2,
      process_content Fixtures.torn_env Fixtures.torn_result w1 = (Raise e, w2))
  /\ exists e w',
       process_pdf Fixtures.torn_env Fixtures.xlsx Fixtures.job Fixtures.w0 = (Raise e, w')
       /\ files w' = files Fixtures.w0
       /\ Outcome.last_log w'
          = Some (Log ERROR "處理過程中發生錯誤: {str(e)}" [LExn e]).
Proof.
  apply (X16_one_unreadable_page_loses_the_run Fixtures.torn_env Fixtures.job
           Fixtures.torn_result Fixtures.torn_pages (nth 1 Fixtures.torn_pages JNull)).
  - reflexivity.
  - reflexivity.
  - right. left. reflexivity.
  - right. eexists. split; reflexivity.
Defined.

(** ** A failure of the analysis, seen from [process_report] *)

(** What [process_pdf] raises is what its body raised, after one more
    log record. *)
Lemma process_pdf_raises E excel_path job_id w e w' :
  process_pdf E excel_path job_id w = (Raise e, w') ->
  exists w1,
    (result <- get_result E job_id ;;
     data <- process_content E result ;;
     save_to_excel E data excel_path)%monad w = (Raise e, w1)
    /\ w' = add_log w1 [Log ERROR "處理過程中發生錯誤: {str(e)}" [LExn e]].
Proof.
  unfold process_pdf, try_except.
  destruct (bind (get_result E job_id) _ w) as [[u | e'] w1]; [discriminate|].
  unfold bind, logger, raise. intros [= <- <-]. exists w1. split; reflexivity.
Qed.

Lemma get_result_fails E job_id msg w :
  result_reply E job_id = HttpFails msg ->
  get_result E job_id w
  = (Raise (RequestException msg),
     add_log w [Log INFO "獲取解析結果: {job_id}" [LJson job_id]]).
Proof.
  intros H. unfold get_result, bind, logger, lift. rewrite H. reflexivity.
Qed.

(** X17: a failure of the analysis is reported twice.  When the upload
    and the wait succeed and [process_pdf] raises, [process_report]
    returns False and the log ends with the same error record twice, one
    written by [process_pdf] and one by [process_report]; when it is the
    fetch of the parse result that fails, the exception is the request's,
    and no request was sent to the model and no workbook saved. *)
Theorem X17_failed_analysis_is_reported_twice
  E fuel pdf_path output_path w job_id w1 w2 e w3 :
  upload_pdf E pdf_path w = (Ok job_id, w1) ->
  wait_for_completion E fuel job_id DEFAULT_CHECK_INTERVAL DEFAULT_TIMEOUT w1
  = Some (Ok true, w2) ->
  process_pdf E output_path job_id
    (add_log w2 [Log INFO "開始使用 GPT-4 分析內容" []]) = (Raise e, w3) ->
  exists w' before,
    process_report E fuel pdf_path output_path w = Some (false, w')
    /\ log w' = before ++ [Log ERROR "處理過程中發生錯誤: {str(e)}" [LExn e];
                           Log ERROR "處理過程中發生錯誤: {str(e)}" [LExn e]]
    /\ (forall msg,
          result_reply E job_id = HttpFails msg ->
          e = RequestException msg
          /\ chat_requests w' = chat_requests w
          /\ files w' = files w).
Proof.
  intros Hupload Hwait Hpdf.
  destruct (process_pdf_raises _ _ _ _ _ _ Hpdf) as (wb & Hbody & ->).
  exists (add_log (add_log wb [Log ERROR "處理過程中發生錯誤: {str(e)}" [LExn e]])
                  [Log ERROR "處理過程中發生錯誤: {str(e)}" [LExn e]]),
         (log wb).
  split; [|split].
  - unfold process_report, process_report_try. rewrite Hupload, Hwait.
    unfold bind at 1, logger at 1.
    change (World (now w2) (status_requests w2) (sleeps w2) (chat_requests w2)
                  (log w2 ++ [Log INFO "開始使用 GPT-4 分析內容" []]) (files w2))
      with (add_log w2 [Log INFO "開始使用 GPT-4 分析內容" []]).
    unfold bind at 1. rewrite Hpdf. reflexivity.
  - cbn. rewrite <- app_assoc. reflexivity.
  - intros msg Hreply. revert Hbody. unfold bind at 1.
    rewrite (get_result_fails _ _ _ _ Hreply). intros [= <- <-]. cbn.
    destruct (upload_pdf_frame _ _ _ _ _ Hupload) as (Hf1 & Hc1 & _).
    destruct (wait_for_completion_frame _ _ _ _ _ _ _ _ Hwait) as (Hc2 & Hf2).
    repeat split; congruence.
Qed.

Lemma X17_failed_analysis_is_reported_twice_witness :
  exists e w' before,
    process_report Fixtures.torn_env 100 Fixtures.pdf Fixtures.xlsx Fixtures.w0
    = Some (false, w')
    /\ log w' = before ++ [Log ERROR "處理過程中發生錯誤: {str(e)}" [LExn e];
                           Log ERROR "處理過程中發生錯誤: {str(e)}" [LExn e]]
    /\ (forall msg,
          result_reply Fixtures.torn_env Fixtures.job = HttpFails msg ->
          e = RequestException msg
          /\ chat_requests w' = chat_requests Fixtures.w0
          /\ files w' = files Fixtures.w0).
Proof.
  eexists.
  eapply (X17_failed_analysis_is_reported_twice Fixtures.torn_env 100 Fixtures.pdf
            Fixtures.xlsx Fixtures.w0 Fixtures.job).
  - vm_compute. reflexivity.
  - vm_compute. reflexivity.
  - vm_compute. reflexivity.
Defined.
